(** * Duplicate-issue detection and retryable error handling

    A shallow embedding of [src/utils/error-handler.ts] ([ErrorHandler],
    [APIWrapper]) and of the detection pipeline of
    [src/duplicate-detection.ts] ([DuplicateDetectionService]), followed by
    the properties of both that the specification states.

    Conventions of the embedding.
    - JavaScript values that come out of [JSON.parse] or of the tracker
      gateway are values of [jsval]; a property read is [get].
    - JavaScript numbers are [jsnum]: [NaN], the two infinities, and the
      finite numbers, which are represented by the rational they denote; a
      number that is read from a text is rounded to a double.
    - Strings are [string], holding text in UTF-8.  The length of a text and
      its white space are those of its characters; where the program
      lower-cases its input, what happens to letters beyond ASCII is left to
      the runtime.
    - A computation that may throw returns an [outcome]; asynchronous
      methods run in the monad [M], which threads the external world, the
      handler's retry map and a trace of the observable events.  What an
      operation of a caller may reject with is a value of [thrown]. *)

From Stdlib Require Import QArith Qround ZArith String Ascii List Lia Lqa Sorted.
From stdpp Require Import gmap strings list pretty.

Open Scope string_scope.
Open Scope list_scope.

(* ===================================================================== *)
(** * Errors and outcomes                                                  *)
(* ===================================================================== *)

Inductive ErrorType :=
| NETWORK_ERROR
| AUTHENTICATION_ERROR
| VALIDATION_ERROR
| JIRA_API_ERROR
| OPENAI_ERROR
| UNKNOWN_ERROR.

(** [class AppError extends Error]. *)
Record AppError := mkAppError {
  app_message : string;
  type : ErrorType;
  isRetryable : bool;
  statusCode : option Z
}.

(** What a [catch] clause receives: a plain [Error] with its message, or an
    [AppError] ([error instanceof AppError]). *)
Inductive Error :=
| PlainError (message : string)
| IsAppError (e : AppError).

Definition message (e : Error) : string :=
  match e with
  | PlainError m => m
  | IsAppError a => app_message a
  end.

(** The runtime's [TypeError] and [SyntaxError] are plain errors. *)
Definition TypeError (msg : string) : Error := PlainError msg.
Definition SyntaxError (msg : string) : Error := PlainError msg.

Inductive outcome (A : Type) :=
| Ok (a : A)
| Throw (e : Error).
Arguments Ok {A} a.
Arguments Throw {A} e.

Definition obind {A B} (x : outcome A) (f : A -> outcome B) : outcome B :=
  match x with
  | Ok a => f a
  | Throw e => Throw e
  end.

Notation "'let!' x ':=' c 'in' k" := (obind c (fun x => k))
  (at level 10, x pattern, c at level 100, k at level 200, only parsing).

(** [Array.prototype.map] with a callback that may throw: elements are
    visited in order and the first exception aborts the traversal. *)
Fixpoint Array_map {A B} (f : A -> outcome B) (l : list A) : outcome (list B) :=
  match l with
  | [] => Ok []
  | x :: l' =>
      let! y := f x in
      let! ys := Array_map f l' in
      Ok (y :: ys)
  end.

(* ===================================================================== *)
(** * Strings                                                              *)
(* ===================================================================== *)

Definition is_upper (c : ascii) : bool :=
  let n := nat_of_ascii c in (65 <=? n)%nat && (n <=? 90)%nat.

Definition is_digit (c : ascii) : bool :=
  let n := nat_of_ascii c in (48 <=? n)%nat && (n <=? 57)%nat.

Definition lower_char (c : ascii) : ascii :=
  if is_upper c then ascii_of_nat (nat_of_ascii c + 32) else c.

(** [String.prototype.toLowerCase] where the program goes on to look for
    ASCII text in the result (an indicator in a message, the y of an
    answer): the letters A to Z are mapped. *)
Fixpoint toLowerCase (s : string) : string :=
  match s with
  | EmptyString => EmptyString
  | String c s' => String (lower_char c) (toLowerCase s')
  end.

(** [String.prototype.includes]. *)
Fixpoint includes (s needle : string) : bool :=
  String.prefix needle s ||
  match s with
  | EmptyString => false
  | String _ s' => includes s' needle
  end.

(** [String.prototype.startsWith]. *)
Definition startsWith (s p : string) : bool := String.prefix p s.

(** [/^\d+$/.test]. *)
Definition all_digits (s : string) : bool :=
  match list_ascii_of_string s with
  | [] => false
  | cs => forallb is_digit cs
  end.

(** [String.prototype.split] with a separator class: the pieces between
    maximal runs ([plus = true], as for [/\s+/]) or single occurrences
    ([plus = false], as for [' ']) of separator characters.  [cur] is the
    piece being read, reversed.  As in JavaScript, a separator at the very
    start or end of the text yields an empty first or last piece. *)
Fixpoint split_go (sep : ascii -> bool) (plus : bool) (cur : list ascii)
    (in_sep : bool) (cs : list ascii) : list string :=
  match cs with
  | [] => [string_of_list_ascii (rev cur)]
  | c :: cs' =>
      if sep c then
        if plus && in_sep then split_go sep plus cur true cs'
        else string_of_list_ascii (rev cur) :: split_go sep plus [] true cs'
      else split_go sep plus (c :: cur) false cs'
  end.

Definition split_on (sep : ascii -> bool) (plus : bool) (s : string) : list string :=
  split_go sep plus [] false (list_ascii_of_string s).

(** ** Text beyond ASCII

    A [string] holds its text in UTF-8, the way a string literal is read;
    the program's strings are sequences of UTF-16 code units.  Where the
    program measures a text or looks for white space in it, the model works
    on the characters of the text. *)

(** A byte [10xxxxxx] continues the character that an earlier byte began. *)
Definition is_continuation (c : ascii) : bool :=
  let n := nat_of_ascii c in (128 <=? n)%nat && (n <? 192)%nat.

(** The characters of a text, each as the bytes that encode it. *)
Fixpoint characters (cs : list ascii) : list (list ascii) :=
  match cs with
  | [] => []
  | c :: cs' =>
      match characters cs' with
      | (d :: ds) :: rest =>
          if is_continuation d then (c :: d :: ds) :: rest
          else [c] :: (d :: ds) :: rest
      | rest => [c] :: rest
      end
  end.

Definition text_of (chs : list (list ascii)) : string :=
  string_of_list_ascii (concat chs).

(** The UTF-16 code units of a character: two (a surrogate pair) for a
    character beyond U+FFFF, which UTF-8 encodes in four bytes from a first
    byte [11110xxx]; one for every other character. *)
Definition code_units (ch : list ascii) : nat :=
  match ch with
  | c :: _ => if (240 <=? nat_of_ascii c)%nat then 2 else 1
  | [] => 0
  end.

(** The property [length] of a string: its number of UTF-16 code units. *)
Definition String_length (s : string) : nat :=
  sum_list_with code_units (characters (list_ascii_of_string s)).

(** The characters of the regular-expression class [\s], which are also
    the ones that [trim] and [StringToNumber] strip (WhiteSpace and
    LineTerminator of ECMA-262), in UTF-8. *)
Definition white_space_characters : list (list N) :=
  [[9]; [10]; [11]; [12]; [13]; [32];                   (* TAB LF VT FF CR SP *)
   [194; 160];                                          (* U+00A0 *)
   [225; 154; 128];                                     (* U+1680 *)
   [226; 128; 128]; [226; 128; 129]; [226; 128; 130];   (* U+2000 to U+200A *)
   [226; 128; 131]; [226; 128; 132]; [226; 128; 133];
   [226; 128; 134]; [226; 128; 135]; [226; 128; 136];
   [226; 128; 137]; [226; 128; 138];
   [226; 128; 168]; [226; 128; 169];                    (* U+2028, U+2029 *)
   [226; 128; 175];                                     (* U+202F *)
   [226; 129; 159];                                     (* U+205F *)
   [227; 128; 128];                                     (* U+3000 *)
   [239; 187; 191]]%N.                                  (* U+FEFF *)

Definition is_white_space (ch : list ascii) : bool :=
  bool_decide (map N_of_ascii ch ∈ white_space_characters).

(** [text.split(/\s+/)]: the pieces between maximal runs of white space.
    [cur] holds the characters of the piece being read, last first.  As in
    JavaScript, white space at the very start or end of the text yields an
    empty first or last piece. *)
Fixpoint split_white_space_go (cur : list (list ascii)) (in_sep : bool)
    (chs : list (list ascii)) : list string :=
  match chs with
  | [] => [text_of (rev cur)]
  | ch :: chs' =>
      if is_white_space ch then
        if in_sep then split_white_space_go cur true chs'
        else text_of (rev cur) :: split_white_space_go [] true chs'
      else split_white_space_go (ch :: cur) false chs'
  end.

Definition split_white_space (s : string) : list string :=
  split_white_space_go [] false (characters (list_ascii_of_string s)).

(** The text is ASCII: every byte is a character below U+0080. *)
Definition is_ascii_text (s : string) : bool :=
  forallb (fun c => (nat_of_ascii c <? 128)%nat) (list_ascii_of_string s).

(** [Array.prototype.slice(0, n)] and [slice(i, j)]. *)
Definition slice {A} (i j : nat) (l : list A) : list A := take (j - i) (drop i l).

(** [Array.prototype.join]. *)
Fixpoint join (sep : string) (l : list string) : string :=
  match l with
  | [] => ""
  | [x] => x
  | x :: l' => (x ++ sep ++ join sep l')%string
  end.

(* ===================================================================== *)
(** * JavaScript numbers                                                   *)
(* ===================================================================== *)

(** A finite number is the rational it denotes.  A number that the program
    is handed (in a parsed reply, say) is taken as the value it has; the
    order and the clamps below only compare numbers and never round.  Where
    the program makes a number out of a text, [to_double] below rounds. *)
Inductive jsnum :=
| NaN
| NegInf
| Fin (q : Q)
| PosInf.

(** The relational operator [<] on numbers (false when an operand is NaN). *)
Definition num_lt (a b : jsnum) : bool :=
  match a, b with
  | NaN, _ | _, NaN => false
  | NegInf, NegInf => false
  | NegInf, _ => true
  | _, NegInf => false
  | PosInf, _ => false
  | Fin _, PosInf => true
  | Fin x, Fin y => negb (Qle_bool y x)
  end.

Definition num_gt (a b : jsnum) : bool := num_lt b a.

Definition num_le (a b : jsnum) : bool :=
  match a, b with
  | NaN, _ | _, NaN => false
  | _, _ => negb (num_lt b a)
  end.

(** [===] on numbers. *)
Definition num_eq (a b : jsnum) : bool :=
  match a, b with
  | NegInf, NegInf | PosInf, PosInf => true
  | Fin x, Fin y => Qeq_bool x y
  | _, _ => false
  end.

Definition Math_max (a b : jsnum) : jsnum :=
  match a, b with
  | NaN, _ | _, NaN => NaN
  | _, _ => if num_lt a b then b else a
  end.

Definition Math_min (a b : jsnum) : jsnum :=
  match a, b with
  | NaN, _ | _, NaN => NaN
  | _, _ => if num_lt b a then b else a
  end.

(** The binary [-] on numbers. *)
Definition num_sub (a b : jsnum) : jsnum :=
  match a, b with
  | NaN, _ | _, NaN => NaN
  | PosInf, PosInf | NegInf, NegInf => NaN
  | PosInf, _ | _, NegInf => PosInf
  | NegInf, _ | _, PosInf => NegInf
  | Fin x, Fin y => Fin (x - y)
  end.

Definition num_of_nat (n : nat) : jsnum := Fin (inject_Z (Z.of_nat n)).

(** The closed interval [[0,1]]. *)
Definition in_unit_interval (n : jsnum) : Prop :=
  match n with
  | Fin q => (0 <= q /\ q <= 1)%Q
  | _ => False
  end.

Definition num_neg (n : jsnum) : jsnum :=
  match n with
  | NaN => NaN
  | NegInf => PosInf
  | PosInf => NegInf
  | Fin q => Fin (- q)
  end.

(** ** Rounding to a double (IEEE 754 binary64, to nearest, ties to even) *)

(** The integer nearest to [x]; of two equally near ones, the even one. *)
Definition round_half_even (x : Q) : Z :=
  let n := Qfloor x in
  match (x - inject_Z n ?= 1 # 2)%Q with
  | Lt => n
  | Gt => (n + 1)%Z
  | Eq => if Z.even n then n else (n + 1)%Z
  end.

(** For [q > 0], the [e] with [2 ^ e <= q < 2 ^ (e + 1)]. *)
Definition binary_exponent (q : Q) : Z :=
  let e := (Z.log2 (Qnum q) - Z.log2 (Zpos (Qden q)))%Z in
  if Qle_bool (Qpower 2 e) q then e else (e - 1)%Z.

(** The double nearest to [q > 0]: 53 significant bits, the last place no
    finer than [2 ^ -1074] (subnormal numbers, and 0 below half of that),
    and Infinity from [2 ^ 1024 - 2 ^ 970] on. *)
Definition round_positive (q : Q) : jsnum :=
  let last_place := Z.max (binary_exponent q - 52) (-1074) in
  let significand := round_half_even (q * Qpower 2 (- last_place)) in
  let value := (inject_Z significand * Qpower 2 last_place)%Q in
  if Qle_bool (Qpower 2 1024) value then PosInf else Fin (Qred value).

Definition to_double (q : Q) : jsnum :=
  match (q ?= 0)%Q with
  | Eq => Fin 0
  | Gt => round_positive q
  | Lt => num_neg (round_positive (- q))
  end.

(** ** [StringToNumber] (ECMA-262, StringNumericLiteral) *)

Definition digit_value (c : ascii) : Z := (Z.of_nat (nat_of_ascii c) - 48)%Z.

Definition hex_value (c : ascii) : option Z :=
  let n := nat_of_ascii c in
  if is_digit c then Some (Z.of_nat n - 48)%Z
  else if (97 <=? n)%nat && (n <=? 102)%nat then Some (Z.of_nat n - 87)%Z
  else if (65 <=? n)%nat && (n <=? 70)%nat then Some (Z.of_nat n - 55)%Z
  else None.

Fixpoint span_digits (cs : list ascii) : list ascii * list ascii :=
  match cs with
  | c :: cs' =>
      if is_digit c then let (ds, r) := span_digits cs' in (c :: ds, r)
      else ([], cs)
  | [] => ([], [])
  end.

Definition digits_value (ds : list ascii) : Z :=
  fold_left (fun acc c => 10 * acc + digit_value c)%Z ds 0%Z.

(** Digits of a literal in base [b]; [None] when a character is no digit of
    that base or when there is no digit at all. *)
Definition radix_value (b : Z) (cs : list ascii) : option Z :=
  match cs with
  | [] => None
  | _ =>
      fold_left (fun acc c =>
                   match acc, hex_value c with
                   | Some a, Some d => if (d <? b)%Z then Some (b * a + d)%Z else None
                   | _, _ => None
                   end) cs (Some 0%Z)
  end.

(** ExponentPart, or nothing: the power of ten it denotes. *)
Definition exponent_part (cs : list ascii) : option Z :=
  match cs with
  | [] => Some 0%Z
  | c :: r =>
      if (nat_of_ascii c =? 101)%nat || (nat_of_ascii c =? 69)%nat then
        let '(neg, r') :=
          match r with
          | s :: r' =>
              if (nat_of_ascii s =? 45)%nat then (true, r')
              else if (nat_of_ascii s =? 43)%nat then (false, r')
              else (false, r)
          | [] => (false, r)
          end in
        match span_digits r' with
        | ((_ :: _) as ds, []) => Some (if neg then - digits_value ds else digits_value ds)%Z
        | _ => None
        end
      else None
  end.

Definition scale (m e : Z) : Q := inject_Z m * Qpower (10 # 1) e.

(** StrUnsignedDecimalLiteral: the double nearest to the value written. *)
Definition unsigned_decimal (cs : list ascii) : jsnum :=
  if String.eqb (string_of_list_ascii cs) "Infinity" then PosInf
  else
    let (ip, r1) := span_digits cs in
    match r1 with
    | dot :: r2 =>
        if (nat_of_ascii dot =? 46)%nat then
          let (fp, r3) := span_digits r2 in
          match ip, fp with
          | [], [] => NaN
          | _, _ =>
              match exponent_part r3 with
              | Some e => to_double (scale (digits_value (ip ++ fp)) (e - Z.of_nat (length fp))%Z)
              | None => NaN
              end
          end
        else
          match ip, exponent_part r1 with
          | _ :: _, Some e => to_double (scale (digits_value ip) e)
          | _, _ => NaN
          end
    | [] =>
        match ip with
        | [] => NaN
        | _ => to_double (inject_Z (digits_value ip))
        end
    end.

Fixpoint drop_white_space (chs : list (list ascii)) : list (list ascii) :=
  match chs with
  | ch :: chs' => if is_white_space ch then drop_white_space chs' else chs
  | [] => []
  end.

(** The text without the white space at its ends. *)
Definition trim (cs : list ascii) : list ascii :=
  concat (rev (drop_white_space (rev (drop_white_space (characters cs))))).

Definition StringToNumber (s : string) : jsnum :=
  match trim (list_ascii_of_string s) with
  | [] => Fin 0
  | c :: r =>
      let n := nat_of_ascii c in
      if (n =? 45)%nat then num_neg (unsigned_decimal r)
      else if (n =? 43)%nat then unsigned_decimal r
      else
        match r with
        | p :: ds =>
            let pn := nat_of_ascii (lower_char p) in
            if (n =? 48)%nat && ((pn =? 120)%nat || (pn =? 111)%nat || (pn =? 98)%nat) then
              let b := if (pn =? 120)%nat then 16%Z else if (pn =? 111)%nat then 8%Z else 2%Z in
              match radix_value b ds with
              | Some v => to_double (inject_Z v)
              | None => NaN
              end
            else unsigned_decimal (c :: r)
        | [] => unsigned_decimal (c :: r)
        end
  end.

(* ===================================================================== *)
(** * JavaScript values                                                    *)
(* ===================================================================== *)

(** The values [JSON.parse] and the gateway's [response.json()] produce,
    together with [undefined], which a property read may return.  An object
    is the list of its own properties, each name once (a read takes the
    first). *)
#[warnings="-register-all"]
Inductive jsval :=
| VUndef
| VNull
| VBool (b : bool)
| VNum (n : jsnum)
| VStr (s : string)
| VArr (l : list jsval)
| VObj (kvs : list (string * jsval)).

Fixpoint own_property (k : string) (kvs : list (string * jsval)) : option jsval :=
  match kvs with
  | [] => None
  | (k', v) :: kvs' => if String.eqb k k' then Some v else own_property k kvs'
  end.

(** The property read [v.k], for the property names the source reads
    ([key], [fields], [summary], [description], [status], [priority],
    [name], [issueIndex], [similarity], [reason], [message]): none of them
    is defined on a primitive or on an array, and reading from [undefined]
    or [null] throws. *)
Definition get (v : jsval) (k : string) : outcome jsval :=
  match v with
  | VUndef => Throw (TypeError ("Cannot read properties of undefined (reading '" ++ k ++ "')")%string)
  | VNull => Throw (TypeError ("Cannot read properties of null (reading '" ++ k ++ "')")%string)
  | VObj kvs => Ok (default VUndef (own_property k kvs))
  | _ => Ok VUndef
  end.

(** The optional chain [v?.k]. *)
Definition get_opt (v : jsval) (k : string) : outcome jsval :=
  match v with
  | VUndef | VNull => Ok VUndef
  | _ => get v k
  end.

Definition num_truthy (n : jsnum) : bool :=
  match n with
  | NaN => false
  | Fin q => negb (Qeq_bool q 0)
  | _ => true
  end.

(** [ToBoolean]. *)
Definition truthy (v : jsval) : bool :=
  match v with
  | VUndef | VNull => false
  | VBool b => b
  | VNum n => num_truthy n
  | VStr s => negb (String.eqb s "")
  | VArr _ | VObj _ => true
  end.

(** The operator [a || b]. *)
Definition or_else (a b : jsval) : jsval := if truthy a then a else b.

(** Whether converting [v] to a primitive throws.  A parsed object has no
    callable property of its own, so [OrdinaryToPrimitive] fails exactly
    when the object shadows the inherited [toString]; an array is joined,
    which converts its elements in turn. *)
Fixpoint ToPrimitive_throws (v : jsval) : bool :=
  match v with
  | VObj kvs => match own_property "toString" kvs with Some _ => true | None => false end
  | VArr l => existsb ToPrimitive_throws l
  | _ => false
  end.

(** The number that the text of [v] inside [Array.prototype.join] denotes:
    [null] and [undefined] print as the empty text, a number prints as a
    literal that reads back as itself, a nested array as its own join (which
    contains a comma as soon as it has two elements), an object as
    ["[object Object]"]. *)
Fixpoint joined_number (v : jsval) : jsnum :=
  match v with
  | VUndef | VNull => Fin 0
  | VBool _ => NaN
  | VNum n => n
  | VStr s => StringToNumber s
  | VArr [] => Fin 0
  | VArr [e] => joined_number e
  | VArr _ => NaN
  | VObj _ => NaN
  end.

(** [ToNumber]. *)
Definition ToNumber (v : jsval) : outcome jsnum :=
  if ToPrimitive_throws v then Throw (TypeError "Cannot convert object to primitive value")
  else Ok match v with
          | VUndef => NaN
          | VBool b => if b then Fin 1 else Fin 0
          | _ => joined_number v
          end.

(** [v === n] for a number [n]. *)
Definition strict_eq_num (v : jsval) (n : jsnum) : bool :=
  match v with
  | VNum m => num_eq m n
  | _ => false
  end.

(** [Array.prototype.find] with a callback that may throw. *)
Fixpoint Array_find (p : jsval -> outcome bool) (l : list jsval) : outcome jsval :=
  match l with
  | [] => Ok VUndef
  | a :: l' =>
      let! b := p a in
      if b then Ok a else Array_find p l'
  end.

(** [Array.prototype.sort] with the comparator [cmp]: a stable insertion
    sort; [a] moves behind [b] when [cmp a b > 0].  (The comparators of the
    source are consistent on the lists they sort, for which the language
    prescribes exactly the stable result.) *)
Fixpoint sort_insert {A} (cmp : A -> A -> jsnum) (x : A) (l : list A) : list A :=
  match l with
  | [] => [x]
  | y :: l' => if num_gt (cmp x y) (Fin 0) then y :: sort_insert cmp x l' else x :: l
  end.

Definition Array_sort {A} (cmp : A -> A -> jsnum) (l : list A) : list A :=
  foldr (sort_insert cmp) [] l.

(* ===================================================================== *)
(** * The external collaborators and the monad of asynchronous methods     *)
(* ===================================================================== *)

(** A chat-completion request, by what the prompt is built from. *)
Inductive request :=
| KeywordRequest (title description : string)
| SimilarityRequest (title description : string) (issueBatch : list jsval).

(** [response.choices[0]?.message?.content] as the source uses it: absent
    or empty ([!content] holds), or a non-empty text, given by what
    [JSON.parse] makes of it ([None] when it throws a [SyntaxError]). *)
Inductive Completion :=
| NoContent
| Content (parsed : option jsval).

(** The two query dialects of the gateway's search endpoint. *)
Inductive fetch_request :=
| JqlSearch (projectKey : string) (keywords : list jsval)
| TextSearch (projectKey titleWords : string).

(** [interface SearchResponse { issues?: Array<...> }]; the records
    themselves are whatever the gateway sends. *)
Record SearchResponse := { issues : option (list jsval) }.

Record Response := {
  ok : bool;
  json : outcome SearchResponse
}.

(** The behaviour of the generation service, the gateway and the user at
    the terminal: arbitrary functions of the request and of a state of the
    outside world, which they may change. *)
Record Env := {
  World : Type;
  openai_create : request -> World -> outcome Completion * World;
  fetch : fetch_request -> World -> outcome Response * World;
  inputField : World -> string * World;
  String_toLowerCase : string -> string
}.

(** [String.prototype.toLowerCase] on a text of the program's input.  On
    ASCII text it maps the letters A to Z and nothing else, as [toLowerCase]
    above; what it makes of any other text is left to the runtime's tables
    for the case of letters, which the environment holds as
    [String_toLowerCase]. *)
Definition lower_case {E : Env} (text : string) : string :=
  if is_ascii_text text then toLowerCase text else String_toLowerCase E text.

(** Observable events. *)
Inductive event :=
| EvInvoke
| EvPrompt (context : string) (attempt : nat)
| EvSleep (ms : nat).

#[global] Instance event_eq_dec : EqDecision event.
Proof. solve_decision. Defined.

Section Program.

Variable E : Env.

(** The state an asynchronous method runs in: the outside world, the retry
    map of the [ErrorHandler] that the method's object holds in
    [this.errorHandler] ([APIWrapper] and [DuplicateDetectionService] each
    construct their own), and the events observed so far. *)
Record State := mkState {
  world : World E;
  retryAttempts : gmap string nat;
  trace : list event
}.

Definition M (A : Type) : Type := State -> outcome A * State.

Definition ret {A} (a : A) : M A := fun st => (Ok a, st).

Definition throw {A} (e : Error) : M A := fun st => (Throw e, st).

Definition bind {A B} (m : M A) (f : A -> M B) : M B :=
  fun st =>
    match m st with
    | (Ok a, st') => f a st'
    | (Throw e, st') => (Throw e, st')
    end.

Definition lift {A} (x : outcome A) : M A := fun st => (x, st).

(** [try { body } catch (error) { handler }]: what [body] did to the state
    before it threw stays done. *)
Definition try_catch {A} (body : M A) (handler : Error -> M A) : M A :=
  fun st =>
    match body st with
    | (Ok a, st') => (Ok a, st')
    | (Throw e, st') => handler e st'
    end.

Definition emit (ev : event) : M unit :=
  fun st => (Ok tt, mkState (world st) (retryAttempts st) (trace st ++ [ev])).

Definition with_world {A} (f : World E -> A * World E) : M A :=
  fun st =>
    let (a, w) := f (world st) in
    (Ok a, mkState w (retryAttempts st) (trace st)).

Definition call_world {A} (f : World E -> outcome A * World E) : M A :=
  fun st =>
    let (a, w) := f (world st) in
    (a, mkState w (retryAttempts st) (trace st)).

Definition get_attempts (context : string) : M (option nat) :=
  fun st => (Ok (retryAttempts st !! context), st).

Definition set_attempts (context : string) (n : nat) : M unit :=
  fun st => (Ok tt, mkState (world st) (<[context := n]> (retryAttempts st)) (trace st)).

Definition delete_attempts (context : string) : M unit :=
  fun st => (Ok tt, mkState (world st) (delete context (retryAttempts st)) (trace st)).

(** [await new Promise(resolve => setTimeout(resolve, ms))]. *)
Definition sleep (ms : nat) : M unit := emit (EvSleep ms).

End Program.

Arguments mkState {E} _ _ _.
Arguments world {E} _.
Arguments retryAttempts {E} _.
Arguments trace {E} _.
Arguments ret {E A} _ _.
Arguments throw {E A} _ _.
Arguments bind {E A B} _ _ _.
Arguments lift {E A} _ _.
Arguments try_catch {E A} _ _ _.
Arguments emit {E} _ _.
Arguments with_world {E A} _ _.
Arguments call_world {E A} _ _.
Arguments get_attempts {E} _ _.
Arguments set_attempts {E} _ _ _.
Arguments delete_attempts {E} _ _.
Arguments sleep {E} _ _.

Notation "'do' x <- m ; k" := (bind m (fun x => k))
  (at level 10, x pattern, m at level 100, k at level 200, only parsing).
Notation "m ;; k" := (bind m (fun _ => k))
  (at level 100, k at level 200, right associativity, only parsing).

(** What the [catch] clause of a caller's operation may receive: an [Error]
    or [AppError] object, or any other value that the operation threw or
    rejected with ([catch (error)] is not typed). *)
Inductive thrown :=
| AnError (e : Error)
| AValue (v : jsval).

(** How a promise settles. *)
Inductive settled (T : Type) :=
| Fulfilled (a : T)
| Rejected (error : thrown).
Arguments Fulfilled {T} a.
Arguments Rejected {T} error.

(* ===================================================================== *)
(** * utils/error-handler.ts                                               *)
(* ===================================================================== *)

Module ErrorHandler.
Section ErrorHandler.

Context {E : Env}.

(** [private maxRetries: number = 3]. *)
Definition maxRetries : nat := 3.

(** [normalizeError]: convert any error to an [AppError]. *)
Definition normalizeError (error : Error) : AppError :=
  match error with
  | IsAppError a => a
  | PlainError m =>
      let message := toLowerCase m in
      if includes message "econnrefused" || includes message "enotfound"
         || includes message "timeout" then
        mkAppError
          "Network connection failed. Please check your internet connection and try again."
          NETWORK_ERROR true None
      else if includes message "401" || includes message "unauthorized"
              || includes message "invalid api key" then
        mkAppError
          "Authentication failed. Please check your API credentials in the .env file."
          AUTHENTICATION_ERROR false None
      else if includes message "400" || includes message "404"
              || includes message "403" then
        mkAppError
          "Jira API error. Please check your project permissions and try again."
          JIRA_API_ERROR true None
      else if includes message "openai" || includes message "gpt" then
        mkAppError
          "OpenAI API error. Please check your API key and quota."
          OPENAI_ERROR true None
      else
        mkAppError
          (if String.eqb m "" then "An unexpected error occurred." else m)
          UNKNOWN_ERROR true None
  end.

(** [context || 'default']. *)
Definition context_or_default (context : option string) : string :=
  match context with
  | Some c => if String.eqb c "" then "default" else c
  | None => "default"
  end.

(** [shouldRetry]; [this.retryAttempts.get(context) || 0]. *)
Definition shouldRetry (context : string) : M E bool :=
  do attempts <- get_attempts context;
  ret (default 0 attempts <? maxRetries)%nat.

Fixpoint countdown (i : nat) : M E unit :=
  match i with
  | 0 => ret tt
  | S i' => sleep 1000 ;; countdown i'
  end.

(** [retryDelay]: exponential backoff, at most five seconds, waited for in
    steps of one second. *)
Definition retryDelay (attemptNumber : nat) : M E unit :=
  let delay := Nat.min (1000 * 2 ^ attemptNumber) 5000 in
  countdown (delay / 1000).

(** [promptForRetry]. *)
Definition promptForRetry (context : string) : M E bool :=
  do attempts <- get_attempts context;
  let attempts := default 0 attempts in
  set_attempts context (attempts + 1) ;;
  emit (EvPrompt context (attempts + 1)) ;;
  do response <- with_world (inputField E);
  if startsWith (toLowerCase response) "y" then
    retryDelay attempts ;;
    ret true
  else
    delete_attempts context ;;
    ret false.

(** [handleError]; [displayError] only writes to the terminal. *)
Definition handleError (error : Error) (context : option string) : M E bool :=
  let appError := normalizeError error in
  do retry <- (if isRetryable appError
               then shouldRetry (context_or_default context)
               else ret false);
  if retry then promptForRetry (context_or_default context)
  else ret false.

(** [handleError] on whatever a [catch] clause received, as [makeRequest]
    calls it.  A value that is no [Error] object is no [AppError], so
    [normalizeError] goes on to [error.message.toLowerCase()]: reading
    [message] throws on [undefined] and [null], the call throws when the
    message is no string, and a value with a message that is a string is
    classified, and handled, like an [Error] with that message. *)
Definition handleError_caught (error : thrown) (context : option string) : M E bool :=
  match error with
  | AnError e => handleError e context
  | AValue v =>
      do message <- lift (get v "message");
      match message with
      | VStr m => handleError (PlainError m) context
      | VUndef =>
          throw (TypeError "Cannot read properties of undefined (reading 'toLowerCase')")
      | VNull =>
          throw (TypeError "Cannot read properties of null (reading 'toLowerCase')")
      | _ => throw (TypeError "error.message.toLowerCase is not a function")
      end
  end.


End ErrorHandler.
End ErrorHandler.

Module APIWrapper.
Section APIWrapper.

Context {E : Env} {T : Type}.

(** The loop [for (attempt = 0; attempt <= maxRetries; attempt++)] of
    [makeRequest] in a state of the wrapper's own handler, and the
    [throw lastError!] behind it ([lastError] is [undefined] until an
    iteration has failed).  An exception of [handleError] leaves the [catch]
    clause and [makeRequest].  [fuel] bounds the number of iterations; the
    handler grants at most [ErrorHandler.maxRetries] retries for a context,
    so one more than that always suffices
    ([makeRequest_loop_enough_fuel]). *)
Fixpoint makeRequest_loop (operation : World E -> settled T * World E)
    (context : string) (maxRetries : jsnum) (fuel attempt : nat)
    (lastError : option thrown) (st : State E) : settled T * State E :=
  match fuel with
  | 0 => (Rejected (default (AValue VUndef) lastError), st)
  | S fuel' =>
      if num_le (num_of_nat attempt) maxRetries then
        let (result, w) := operation (world st) in
        let st1 := mkState w (retryAttempts st) (trace st ++ [EvInvoke]) in
        match result with
        | Fulfilled a => (Fulfilled a, st1)
        | Rejected error =>
            if num_eq (num_of_nat attempt) maxRetries then (Rejected error, st1)
            else
              match ErrorHandler.handleError_caught error (Some context) st1 with
              | (Throw e, st2) => (Rejected (AnError e), st2)
              | (Ok shouldRetry, st2) =>
                  if negb shouldRetry then (Rejected error, st2)
                  else makeRequest_loop operation context maxRetries fuel'
                         (attempt + 1) (Some error) st2
              end
        end
      else (Rejected (default (AValue VUndef) lastError), st)
  end.

(** [makeRequest(operation, context, maxRetries = 3)]. *)
Definition makeRequest (operation : World E -> settled T * World E)
    (context : string) (maxRetries : jsnum) (st : State E) : settled T * State E :=
  makeRequest_loop operation context maxRetries (ErrorHandler.maxRetries + 1) 0 None st.

End APIWrapper.
End APIWrapper.

(* ===================================================================== *)
(** * index.ts: the handlers of the agent                                  *)
(* ===================================================================== *)

Module JiraAgent.
Section JiraAgent.

Context {E : Env}.




End JiraAgent.
End JiraAgent.

(* ===================================================================== *)
(** * duplicate-detection.ts                                               *)
(* ===================================================================== *)

(** [interface SimilarIssue].  The fields copied from a candidate are the
    values found there, whatever they are. *)
Record SimilarIssue := mkSimilarIssue {
  key : jsval;
  summary : jsval;
  description : jsval;
  status : jsval;
  priority : jsval;
  similarity : jsnum;
  reason : jsval
}.

(** [interface DuplicateAnalysis]. *)
Record DuplicateAnalysis := mkDuplicateAnalysis {
  hasPotentialDuplicates : bool;
  similarIssues : list SimilarIssue;
  recommendations : list string
}.

(** [newIssue: { title: string; description: string }]. *)
Record NewIssue := mkNewIssue {
  new_title : string;
  new_description : string
}.

Module DuplicateDetectionService.
Section DuplicateDetectionService.

Context {E : Env}.

(** [extractKeywordsFallback]. *)
Definition extractKeywordsFallback (title description : string) : list string :=
  let text := lower_case (E := E) (title ++ " " ++ description)%string in
  let words :=
    take 5
      (filter (fun word => all_digits word = false)
         (filter (fun word => 3 < String_length word)
            (split_white_space text))) in
  match words with
  | [] => ["issue"]
  | _ => words
  end.

Definition keywordsFallback (title description : string) : list jsval :=
  map VStr (extractKeywordsFallback title description).

(** [extractKeywords]. *)
Definition extractKeywords (title description : string) : M E (list jsval) :=
  try_catch
    (do result <- call_world (openai_create E (KeywordRequest title description));
     match result with
     | NoContent => ret (keywordsFallback title description)
     | Content parsed =>
         try_catch
           (match parsed with
            | None => throw (SyntaxError "Unexpected token in JSON")
            | Some (VArr keywords) => ret (take 5 keywords)
            | Some _ => ret (keywordsFallback title description)
            end)
           (fun _ => ret (keywordsFallback title description))
     end)
    (fun _ => ret (keywordsFallback title description)).

(** Converting a value inside a template literal. *)
Definition interpolate (v : jsval) : outcome unit :=
  if ToPrimitive_throws v then Throw (TypeError "Cannot convert object to primitive value")
  else Ok tt.

(** [data.issues || []]. *)
Definition issues_or_empty (data : SearchResponse) : list jsval :=
  default [] (issues data).

(** [fallbackSearch]. *)
Definition fallbackSearch (projectKey title : string) : M E (list jsval) :=
  try_catch
    (let titleWords :=
       join " " (take 3 (split_on (fun c => (nat_of_ascii c =? 32)%nat) false title)) in
     do response <- call_world (fetch E (TextSearch projectKey titleWords));
     if ok response then
       do data <- lift (json response);
       ret (issues_or_empty data)
     else ret [])
    (fun _ => ret []).

(** [searchSimilarIssues]. *)
Definition searchSimilarIssues (projectKey title description : string)
    : M E (list jsval) :=
  try_catch
    (do keywords <- extractKeywords title description;
     do _ <- lift (Array_map interpolate keywords);
     do response <- call_world (fetch E (JqlSearch projectKey keywords));
     if negb (ok response) then fallbackSearch projectKey title
     else
       do data <- lift (json response);
       ret (issues_or_empty data))
    (fun _ => fallbackSearch projectKey title).

(** [createFallbackSimilarity]. *)
Definition createFallbackSimilarity (issue : jsval) : outcome SimilarIssue :=
  let! k := get issue "key" in
  let! fields := get issue "fields" in
  let! s := get fields "summary" in
  let! d := get fields "description" in
  let! st := get fields "status" in
  let! stn := get st "name" in
  let! p := get fields "priority" in
  let! pn := get_opt p "name" in
  Ok (mkSimilarIssue k s (or_else d (VStr "")) stn (or_else pn (VStr "Unknown"))
        (Fin 0.1) (VStr "Unable to perform detailed analysis")).

(** One entry of the [EXISTING ISSUES] part of the prompt. *)
Definition prompt_entry (issue : jsval) : outcome unit :=
  let! k := get issue "key" in
  let! _ := interpolate k in
  let! fields := get issue "fields" in
  let! s := get fields "summary" in
  let! _ := interpolate s in
  let! d := get fields "description" in
  let! _ := interpolate (or_else d (VStr "No description")) in
  let! st := get fields "status" in
  let! stn := get st "name" in
  interpolate stn.

(** [analysisResults.find(a => a.issueIndex === index + 1)]. *)
Definition find_analysis (analysisResults : jsval) (index : nat) : outcome jsval :=
  match analysisResults with
  | VArr l =>
      Array_find (fun a => let! i := get a "issueIndex" in
                           Ok (strict_eq_num i (num_of_nat (index + 1)))) l
  | VUndef | VNull => Throw (TypeError "Cannot read properties of null (reading 'find')")
  | _ => Throw (TypeError "analysisResults.find is not a function")
  end.

(** The object [{ similarity: 0.1, reason: 'Analysis failed' }]. *)
Definition analysis_failed : jsval :=
  VObj [("similarity", VNum (Fin 0.1)); ("reason", VStr "Analysis failed")].

(** The callback of [issueBatch.map] on a parsed reply. *)
Definition analyzed (analysisResults : jsval) (issue : jsval) (index : nat)
    : outcome SimilarIssue :=
  let! found := find_analysis analysisResults index in
  let analysis := or_else found analysis_failed in
  let! k := get issue "key" in
  let! fields := get issue "fields" in
  let! s := get fields "summary" in
  let! d := get fields "description" in
  let! st := get fields "status" in
  let! stn := get st "name" in
  let! p := get fields "priority" in
  let! pn := get_opt p "name" in
  let! sim := get analysis "similarity" in
  let! n := ToNumber (or_else sim (VNum (Fin 0))) in
  let! r := get analysis "reason" in
  Ok (mkSimilarIssue k s (or_else d (VStr "")) stn (or_else pn (VStr "Unknown"))
        (Math_min (Math_max n (Fin 0)) (Fin 1))
        (or_else r (VStr "AI analysis completed"))).

(** [issueBatch.map((issue, index) => ...)], from position [index]. *)
Fixpoint map_analyzed (analysisResults : jsval) (index : nat) (issueBatch : list jsval)
    : outcome (list SimilarIssue) :=
  match issueBatch with
  | [] => Ok []
  | issue :: rest =>
      let! r := analyzed analysisResults issue index in
      let! rs := map_analyzed analysisResults (index + 1) rest in
      Ok (r :: rs)
  end.

(** [analyzeBatch]. *)
Definition analyzeBatch (newIssue : NewIssue) (issueBatch : list jsval)
    : M E (list SimilarIssue) :=
  try_catch
    (do _ <- lift (Array_map prompt_entry issueBatch);
     do aiResponse <- call_world
       (openai_create E
          (SimilarityRequest (new_title newIssue) (new_description newIssue) issueBatch));
     match aiResponse with
     | NoContent => lift (Array_map createFallbackSimilarity issueBatch)
     | Content parsed =>
         try_catch
           (match parsed with
            | None => throw (SyntaxError "Unexpected token in JSON")
            | Some analysisResults => lift (map_analyzed analysisResults 0 issueBatch)
            end)
           (fun _ => lift (Array_map createFallbackSimilarity issueBatch))
     end)
    (fun _ => lift (Array_map createFallbackSimilarity issueBatch)).

Definition batchSize : nat := 5.

(** The loop [for (i = 0; i < existingIssues.length; i += batchSize)] of
    [analyzeIssueSimilarity]; [fuel] bounds the number of iterations. *)
Fixpoint batch_loop (newIssue : NewIssue) (existingIssues : list jsval)
    (fuel i : nat) (results : list SimilarIssue) : M E (list SimilarIssue) :=
  match fuel with
  | 0 => ret results
  | S fuel' =>
      if (i <? length existingIssues)%nat then
        let batch := slice i (i + batchSize) existingIssues in
        do batchResults <- analyzeBatch newIssue batch;
        (if (i + batchSize <? length existingIssues)%nat then sleep 500 else ret tt) ;;
        batch_loop newIssue existingIssues fuel' (i + batchSize) (results ++ batchResults)
      else ret results
  end.

(** [analyzeIssueSimilarity].  The loop runs once per started batch, so
    [length existingIssues] iterations always suffice. *)
Definition analyzeIssueSimilarity (newIssue : NewIssue) (existingIssues : list jsval)
    : M E (list SimilarIssue) :=
  do results <- batch_loop newIssue existingIssues (length existingIssues) 0 [];
  ret (Array_sort (fun a b => num_sub (similarity b) (similarity a))
         (filter (fun result => num_gt (similarity result) (Fin 0) = true) results)).

(** [generateRecommendations]. *)
Definition generateRecommendations (similarIssues : list SimilarIssue) : list string :=
  match similarIssues with
  | [] => ["✅ No similar issues found. Safe to proceed."]
  | _ =>
      let highSimilarity :=
        filter (fun issue => num_gt (similarity issue) (Fin 0.8) = true) similarIssues in
      let mediumSimilarity :=
        filter (fun issue => num_gt (similarity issue) (Fin 0.6) && num_le (similarity issue) (Fin 0.8) = true)
          similarIssues in
      (match highSimilarity with
       | [] => []
       | _ => ["⚠️  High similarity detected! Consider these actions:";
               "   • Check if the existing issue can be updated instead";
               "   • Add a comment to the existing issue";
               "   • Create a subtask if this is a specific aspect"]
       end) ++
      (match mediumSimilarity with
       | [] => []
       | _ => ["💡 Related issues found. Consider:";
               "   • Linking issues if they are related";
               "   • Adding references in the description";
               "   • Ensuring the new issue adds unique value"]
       end) ++
      ["📋 Review the similar issues below before proceeding."]
  end.

(** The [try] block of [checkForDuplicates]. *)
Definition checkForDuplicates_try (projectKey title description : string)
    : M E DuplicateAnalysis :=
  do searchResults <- searchSimilarIssues projectKey title description;
  if (length searchResults =? 0)%nat then
    ret (mkDuplicateAnalysis false []
           ["✅ No similar issues found. Safe to proceed with creation."])
  else
    do analysisResults <- analyzeIssueSimilarity (mkNewIssue title description) searchResults;
    let significantMatches :=
      filter (fun result => num_gt (similarity result) (Fin 0.6) = true) analysisResults in
    ret (mkDuplicateAnalysis
           (0 <? length significantMatches)%nat
           significantMatches
           (generateRecommendations significantMatches)).

(** [checkForDuplicates]. *)
Definition checkForDuplicates (projectKey title description : string)
    : M E DuplicateAnalysis :=
  try_catch
    (checkForDuplicates_try projectKey title description)
    (fun error =>
       ErrorHandler.handleError error (Some "duplicate-detection") ;;
       ret (mkDuplicateAnalysis false []
              ["⚠️ Unable to check for duplicates. Proceed with caution."])).

End DuplicateDetectionService.
End DuplicateDetectionService.

(* ===================================================================== *)
(** * Scripted collaborators                                               *)
(* ===================================================================== *)

(** A world that only counts the calls made so far, and collaborators whose
    n-th reply is given by a script.  The concrete runs below use them. *)
Module Script.

(** The lower-casing of the scripted runtime, as far as the concrete runs
    need it: the letters A to Z, and the capital letters of the Latin-1
    Supplement (U+00C0 to U+00DE without the multiplication sign, in UTF-8
    the byte 195 and a byte from 128 to 158 other than 151). *)
Fixpoint lower (cs : list ascii) : list ascii :=
  match cs with
  | [] => []
  | c :: rest =>
      match rest with
      | d :: cs' =>
          let n := nat_of_ascii d in
          if (nat_of_ascii c =? 195)%nat && (128 <=? n)%nat && (n <=? 158)%nat
             && negb (n =? 151)%nat
          then c :: ascii_of_nat (n + 32) :: lower cs'
          else lower_char c :: lower rest
      | [] => [lower_char c]
      end
  end.

Definition toLowerCase (text : string) : string :=
  string_of_list_ascii (lower (list_ascii_of_string text)).

Record Counters := mkCounters {
  chats : nat;
  fetches : nat;
  answers : nat;
  runs : nat
}.

Definition start : Counters := mkCounters 0 0 0 0.

Definition env (chat : nat -> request -> outcome Completion)
    (gateway : nat -> fetch_request -> outcome Response)
    (user : nat -> string) : Env :=
  {| World := Counters;
     openai_create := fun req w =>
       (chat (chats w) req, mkCounters (S (chats w)) (fetches w) (answers w) (runs w));
     fetch := fun req w =>
       (gateway (fetches w) req, mkCounters (chats w) (S (fetches w)) (answers w) (runs w));
     inputField := fun w =>
       (user (answers w), mkCounters (chats w) (fetches w) (S (answers w)) (runs w));
     String_toLowerCase := Script.toLowerCase |}.

(** An operation whose n-th run settles as [script n]. *)
Definition operation {T} (script : nat -> settled T) (w : Counters)
    : settled T * Counters :=
  (script (runs w), mkCounters (chats w) (fetches w) (answers w) (S (runs w))).

Definition initial (chat : nat -> request -> outcome Completion)
    (gateway : nat -> fetch_request -> outcome Response)
    (user : nat -> string) (attempts : gmap string nat)
    : State (env chat gateway user) :=
  mkState (E := env chat gateway user) start attempts [].

(** Collaborators that are down, and a user who answers [answer]. *)
Definition offline (answer : string) : Env :=
  env (fun _ _ => Throw (PlainError "connect ECONNREFUSED 127.0.0.1:443"))
      (fun _ _ => Throw (PlainError "getaddrinfo ENOTFOUND mcp.zapier.com"))
      (fun _ => answer).

End Script.

(** A candidate record as the gateway's interface declares it:
    [{ key; fields: { summary; description?; status: { name };
    priority?: { name } } }]. *)
Record Candidate := mkCandidate {
  c_key : string;
  c_summary : string;
  c_description : option string;
  c_status : string;
  c_priority : option string
}.

Definition as_string (v : outcome jsval) : option string :=
  match v with
  | Ok (VStr s) => Some s
  | _ => None
  end.

(** An optional text property: absent, or a string. *)
Definition as_optional_string (v : outcome jsval) : option (option string) :=
  match v with
  | Ok VUndef => Some None
  | Ok (VStr s) => Some (Some s)
  | _ => None
  end.

(** Reading a value as a candidate record; [None] when it is not one. *)
Definition as_candidate (issue : jsval) : option Candidate :=
  match issue, get issue "fields" with
  | VObj _, Ok (VObj f) =>
      match as_string (get issue "key"), as_string (get (VObj f) "summary"),
            as_optional_string (get (VObj f) "description"),
            get (VObj f) "status", get (VObj f) "priority" with
      | Some k, Some s, Some d, Ok (VObj st), Ok p =>
          match as_string (get (VObj st) "name"), p with
          | Some stn, VUndef => Some (mkCandidate k s d stn None)
          | Some stn, VObj pr =>
              match as_string (get (VObj pr) "name") with
              | Some pn => Some (mkCandidate k s d stn (Some pn))
              | None => None
              end
          | _, _ => None
          end
      | _, _, _, _, _ => None
      end
  | _, _ => None
  end.

(** The candidate record as a value. *)
Definition candidate (c : Candidate) : jsval :=
  VObj [("key", VStr (c_key c));
        ("fields",
         VObj ([("summary", VStr (c_summary c))] ++
               match c_description c with
               | Some d => [("description", VStr d)]
               | None => []
               end ++
               [("status", VObj [("name", VStr (c_status c))])] ++
               match c_priority c with
               | Some p => [("priority", VObj [("name", VStr p)])]
               | None => []
               end))].

(** One entry of a reply of the generation service. *)
Definition entry (issueIndex : nat) (score : Q) (why : string) : jsval :=
  VObj [("issueIndex", VNum (num_of_nat issueIndex));
        ("similarity", VNum (Fin score));
        ("reason", VStr why)].

(* ===================================================================== *)
(** * Vocabulary of the statements                                         *)
(* ===================================================================== *)

(** The network indicators of [normalizeError], on a lower-cased message. *)
Definition network_indicator (message : string) : bool :=
  includes message "econnrefused" || includes message "enotfound"
  || includes message "timeout".

(** The user's answer to the next prompt confirms a retry. *)
Definition confirms (answer : string) : bool :=
  startsWith (toLowerCase answer) "y".

(** The [AppError] that [normalizeError] builds for a network failure. *)
Definition network_failure : AppError :=
  mkAppError
    "Network connection failed. Please check your internet connection and try again."
    NETWORK_ERROR true None.

(** The attempts counted so far for a context. *)
Definition attempts_of {E : Env} (st : State E) (ctx : string) : nat :=
  default 0 (retryAttempts st !! ctx).

(** The pauses of [retryDelay] after the given number of earlier attempts. *)
Definition backoff (attempts : nat) : list event :=
  replicate (Nat.min (1000 * 2 ^ attempts) 5000 / 1000) (EvSleep 1000).

(** The number of times the wrapped operation was invoked. *)
Definition invocations (tr : list event) : nat :=
  length (filter (fun ev => ev = EvInvoke) tr).



(** The white-space separated tokens of a text: its maximal runs of
    characters that are not white space, in order.  [cur] is the run being
    read, reversed. *)
Fixpoint tokens_go (cur : list (list ascii)) (chs : list (list ascii)) : list string :=
  match chs with
  | [] =>
      match cur with
      | [] => []
      | _ => [text_of (rev cur)]
      end
  | ch :: chs' =>
      if is_white_space ch then
        match cur with
        | [] => tokens_go [] chs'
        | _ => text_of (rev cur) :: tokens_go [] chs'
        end
      else tokens_go (ch :: cur) chs'
  end.

Definition tokens (s : string) : list string :=
  tokens_go [] (characters (list_ascii_of_string s)).

(** The number of characters of a text. *)
Definition character_count (s : string) : nat :=
  length (characters (list_ascii_of_string s)).

(** A token is purely numeric, for the code, when it is made of the digits
    0 to 9 and of nothing else. *)
Definition decimal_digits : list ascii := list_ascii_of_string "0123456789".

Definition purely_numeric (token : string) : Prop :=
  token <> "" /\ Forall (fun c => c ∈ decimal_digits) (list_ascii_of_string token).

#[global] Instance purely_numeric_dec (token : string) : Decision (purely_numeric token).
Proof. unfold purely_numeric. apply _. Defined.

(** The keyword fallback in the words of the specification, with the length
    that the language gives a token: of the tokens of the lower-cased title
    and description, those longer than three and not purely numeric, the
    first five of them, and the literal ["issue"] when there is none. *)
Definition keywords_by_the_spec {E : Env} (title description : string) : list string :=
  let qualifying :=
    filter (fun t => 3 < String_length t /\ ~ purely_numeric t)
      (tokens (lower_case (E := E) (title ++ " " ++ description)%string)) in
  match take 5 qualifying with
  | [] => ["issue"]
  | first_five => first_five
  end.

(** [Math.min(Math.max(n, 0), 1)]. *)
Definition clamp (n : jsnum) : jsnum := Math_min (Math_max n (Fin 0)) (Fin 1).

(** What a clamp can produce: a number of the unit interval, or NaN (for a
    score that is not a number). *)
Definition clamped (r : SimilarIssue) : Prop :=
  similarity r = NaN \/ in_unit_interval (similarity r).

(** The batch is made of candidate records, the records [cs]. *)
Definition candidates (batch : list jsval) (cs : list Candidate) : Prop :=
  map as_candidate batch = map Some cs.

(** The result carries the fields of the candidate record: key, summary and
    status as they are, the description or the empty text, the priority or
    ["Unknown"]. *)
Definition copies (c : Candidate) (r : SimilarIssue) : Prop :=
  key r = VStr (c_key c)
  /\ summary r = VStr (c_summary c)
  /\ status r = VStr (c_status c)
  /\ description r = VStr (default "" (c_description c))
  /\ priority r = VStr (match c_priority c with
                        | Some p => if String.eqb p "" then "Unknown" else p
                        | None => "Unknown"
                        end).

(** The degraded result of a batch whose analysis failed as a whole. *)
Definition degraded (c : Candidate) (r : SimilarIssue) : Prop :=
  copies c r
  /\ similarity r = Fin 0.1
  /\ reason r = VStr "Unable to perform detailed analysis".

(** The entry of a parsed reply that answers for the candidate at position
    [index] of the batch: the first one whose [issueIndex] is the number
    [index + 1]. *)
Definition answers_for (index : nat) (a : jsval) : bool :=
  match a with
  | VObj kvs => strict_eq_num (default VUndef (own_property "issueIndex" kvs))
                  (num_of_nat (index + 1))
  | _ => false
  end.

Definition matching_entry (entries : list jsval) (index : nat) : option jsval :=
  List.find (answers_for index) entries.

(** An entry that the callback of [issueBatch.map] can read without an
    exception: it is not [null], and its score, if it is an object or an
    array, converts to a primitive. *)
Definition usable (a : jsval) : bool :=
  match a with
  | VUndef | VNull => false
  | VObj kvs => negb (ToPrimitive_throws (default VUndef (own_property "similarity" kvs)))
  | _ => true
  end.


(** The comparator of the final sort of [analyzeIssueSimilarity]. *)
Definition by_similarity_descending (a b : SimilarIssue) : jsnum :=
  num_sub (similarity b) (similarity a).

(** Four candidate records and a reply that scores the first with a word,
    the second out of range, the third not at all, and that has no entry
    for the fourth. *)
Definition login_bug : Candidate :=
  mkCandidate "WEB-101" "Login fails on Safari" (Some "Users cannot sign in") "Open" (Some "High").
Definition logout_bug : Candidate :=
  mkCandidate "WEB-102" "Logout button missing" None "In Progress" None.
Definition signup_bug : Candidate :=
  mkCandidate "WEB-103" "Signup form rejects emails" (Some "") "Done" (Some "Low").

Definition search_bug : Candidate :=
  mkCandidate "WEB-104" "Search returns stale results" None "Open" (Some "Medium").

Definition careless_reply : jsval :=
  VArr [VObj [("issueIndex", VNum (num_of_nat 1)); ("similarity", VStr "high");
              ("reason", VStr "same login failure")];
        entry 2 1.7 "identical";
        VObj [("issueIndex", VNum (num_of_nat 3)); ("reason", VStr "unrelated")]].

(** The generation service answers every similarity request with [reply]
    and has no keywords to offer; the gateway is not used. *)
Definition replying (reply : jsval) : Env :=
  Script.env (fun _ req => match req with
                           | KeywordRequest _ _ => Ok NoContent
                           | SimilarityRequest _ _ _ => Ok (Content (Some reply))
                           end)
             (fun _ _ => Throw (PlainError "unused"))
             (fun _ => "n").

(** A reply whose only entry answers for the first candidate and carries a
    reason but no score. *)
Definition scoreless_reply : jsval :=
  VArr [VObj [("issueIndex", VNum (num_of_nat 1)); ("reason", VStr "unrelated")]].

(** What the code gives a candidate for which the reply has no entry, and
    one whose entry has no score. *)
Definition unanswered (entries : list jsval) (index : nat) (r : SimilarIssue) : Prop :=
  (matching_entry entries index = None ->
   similarity r = Fin 0.1 /\ reason r = VStr "Analysis failed")
  /\ (forall kvs,
        matching_entry entries index = Some (VObj kvs) ->
        own_property "similarity" kvs = None ->
        similarity r = Fin 0
        /\ reason r = or_else (default VUndef (own_property "reason" kvs))
                        (VStr "AI analysis completed")).

(** Seven candidate records, and a generation service that answers the
    first similarity request with [reply] and is down afterwards. *)
Definition ticket (n : string) : Candidate :=
  mkCandidate ("WEB-" ++ n)%string ("Login problem " ++ n)%string None "Open" None.

Definition seven_tickets : list Candidate :=
  map ticket ["1"; "2"; "3"; "4"; "5"; "6"; "7"].


Definition five_scores (s1 s2 s3 s4 s5 : Q) : jsval :=
  VArr [entry 1 s1 "a"; entry 2 s2 "b"; entry 3 s3 "c"; entry 4 s4 "d"; entry 5 s5 "e"].

(** The filter of the final step of [analyzeIssueSimilarity]. *)
Definition positive (r : SimilarIssue) : Prop :=
  num_gt (similarity r) (Fin 0) = true.

(** A gateway that finds the records [found], and a generation service that
    has no keywords to offer and answers every similarity request with
    [reply]. *)
Definition tracker (found : list jsval) (reply : jsval) : Env :=
  Script.env (fun _ req => match req with
                           | KeywordRequest _ _ => Ok NoContent
                           | SimilarityRequest _ _ _ => Ok (Content (Some reply))
                           end)
             (fun _ _ => Ok {| ok := true; json := Ok {| issues := Some found |} |})
             (fun _ => "n").

(** The verdict of the [catch] clause of [checkForDuplicates]. *)
Definition cautious_verdict : DuplicateAnalysis :=
  mkDuplicateAnalysis false []
    ["⚠️ Unable to check for duplicates. Proceed with caution."].

(** The gateway fails on every request. *)
Definition gateway_down (E : Env) : Prop :=
  forall req w, exists e, fst (fetch E req w) = Throw e.

(** The threshold of a significant match. *)
Definition significant (r : SimilarIssue) : Prop :=
  num_gt (similarity r) (Fin 0.6) = true.

(** Inverting a chain of property reads that ended well. *)
Ltac invert_reads H :=
  repeat match type of H with
         | obind ?x _ = Ok _ =>
             let E := fresh "Hread" in
             destruct x eqn:E; cbn [obind] in H; [| discriminate H]
         end.

(** Running a chain of property reads with a known read. *)
Ltac read_with H := rewrite H; cbn [obind].

(* ===================================================================== *)
(** * Further code of the two files and of what they call                  *)
(* ===================================================================== *)

(** ** The static constructors of [ErrorHandler] *)

Definition createNetworkError (message : string) : AppError :=
  mkAppError message NETWORK_ERROR true None.

Definition createAuthError (message : string) : AppError :=
  mkAppError message AUTHENTICATION_ERROR false None.

Definition createValidationError (message : string) : AppError :=
  mkAppError message VALIDATION_ERROR false None.

Definition createJiraError (message : string) (statusCode : option Z) : AppError :=
  mkAppError message JIRA_API_ERROR true statusCode.

Definition createOpenAIError (message : string) : AppError :=
  mkAppError message OPENAI_ERROR true None.

(** ** utils/cli-utils.ts: the two prompts that the presentation uses *)

Module CLIUtils.
Section CLIUtils.

Context {E : Env}.

(** [term.singleLineMenu(items, { cancelable: false })]: the index the user
    selects, a further behaviour of the terminal. *)
Variable singleLineMenu : list string -> World E -> nat * World E.

(** [showSelectionMenu]: numbers the options, shows the menu and returns
    [response.selectedIndex]; the title is only written. *)
Definition showSelectionMenu (title : string) (options : list string) : M E nat :=
  let items :=
    imap (fun index option => (pretty (index + 1)%nat ++ ". " ++ option)%string) options in
  with_world (singleLineMenu items).

(** [!response.trim()]. *)
Definition is_blank (response : string) : bool :=
  forallb is_white_space (characters (list_ascii_of_string response)).

(** [confirm(message, defaultValue = false)]. *)
Definition confirm (message : string) (defaultValue : bool) : M E bool :=
  do response <- with_world (inputField E);
  if is_blank response then ret defaultValue
  else ret (startsWith (toLowerCase response) "y").

End CLIUtils.
End CLIUtils.

(** ** duplicate-detection.ts: presenting the analysis *)

Module Presentation.
Section Presentation.

Context {E : Env}.
Variable singleLineMenu : list string -> World E -> nat * World E.

(** [issue.summary.substring(0, 50)]: only a string has the method. *)
Definition substring_of (v : jsval) : outcome unit :=
  match v with
  | VStr _ => Ok tt
  | VUndef =>
      Throw (TypeError "Cannot read properties of undefined (reading 'substring')")
  | VNull =>
      Throw (TypeError "Cannot read properties of null (reading 'substring')")
  | _ => Throw (TypeError "issue.summary.substring is not a function")
  end.

(** The lines that [displayAnalysisResults] writes for one similar issue;
    writing is silent, building the text may throw. *)
Definition display_issue (issue : SimilarIssue) : outcome unit :=
  let! _ := DuplicateDetectionService.interpolate (key issue) in
  let! _ := substring_of (summary issue) in
  let! _ := DuplicateDetectionService.interpolate (status issue) in
  let! _ := DuplicateDetectionService.interpolate (priority issue) in
  DuplicateDetectionService.interpolate (reason issue).

(** The lines that [showDetailedIssueReview] writes for one issue, with
    [if (issue.description && issue.description.trim())]. *)
Definition review_issue (issue : SimilarIssue) : outcome unit :=
  let! _ := DuplicateDetectionService.interpolate (key issue) in
  let! _ := DuplicateDetectionService.interpolate (summary issue) in
  let! _ := DuplicateDetectionService.interpolate (status issue) in
  let! _ := DuplicateDetectionService.interpolate (priority issue) in
  let! _ := DuplicateDetectionService.interpolate (reason issue) in
  if truthy (description issue) then
    match description issue with
    | VStr _ => Ok tt
    | _ => Throw (TypeError "issue.description.trim is not a function")
    end
  else Ok tt.

(** [showDetailedIssueReview]: after every issue but the last the user
    presses Enter. *)
Fixpoint showDetailedIssueReview (similarIssues : list SimilarIssue) : M E unit :=
  match similarIssues with
  | [] => ret tt
  | issue :: rest =>
      lift (review_issue issue) ;;
      (match rest with
       | [] => ret tt
       | _ => do _ <- with_world (inputField E); ret tt
       end) ;;
      showDetailedIssueReview rest
  end.

Definition options : list string :=
  ["Proceed with creation anyway";
   "Review similar issues in detail";
   "Cancel and investigate manually";
   "Modify the issue to be more specific"].

(** [displayAnalysisResults]. *)
Definition displayAnalysisResults (analysis : DuplicateAnalysis) : M E bool :=
  if negb (hasPotentialDuplicates analysis) then ret true
  else
    lift (Array_map display_issue (similarIssues analysis)) ;;
    do choice <- CLIUtils.showSelectionMenu singleLineMenu "Choose an action:" options;
    match choice with
    | 0 => ret true
    | 1 =>
        showDetailedIssueReview (similarIssues analysis) ;;
        CLIUtils.confirm "Proceed with creation after review?" false
    | 2 => ret false
    | 3 => ret false
    | _ => ret false
    end.

(** The two steps of the issue-creation flow of the agent that decide
    whether creation goes on: [checkForDuplicates], then
    [displayAnalysisResults] on its analysis. *)
Definition shouldProceed (projectKey title description : string) : M E bool :=
  do duplicateAnalysis <-
    DuplicateDetectionService.checkForDuplicates projectKey title description;
  displayAnalysisResults duplicateAnalysis.

End Presentation.
End Presentation.

(** ** Vocabulary of the further statements *)

(** The authentication indicators of [normalizeError], on a lower-cased
    message. *)
Definition auth_indicator (message : string) : bool :=
  includes message "401" || includes message "unauthorized"
  || includes message "invalid api key".

Definition is_prompt (ev : event) : bool :=
  match ev with
  | EvPrompt _ _ => true
  | _ => false
  end.

(** The number of retry prompts shown. *)
Definition prompts (tr : list event) : nat :=
  length (filter (fun ev => is_prompt ev = true) tr).

(** An operation that fails its first [failures] runs and then succeeds. *)
Definition flaky (failures : nat) : Script.Counters -> settled string * Script.Counters :=
  Script.operation (fun n => if (n <? failures)%nat
                             then Rejected (AnError (PlainError "socket hang up"))
                             else Fulfilled "WEB-200").

(** A user who confirms every prompt (the collaborators are down), and an
    operation that fails on every invocation with an error that is
    classified as retryable. *)
Definition confirming : Env := Script.offline "y".

Definition always_failing : Script.Counters -> settled unit * Script.Counters :=
  Script.operation (fun _ => Rejected (AnError (PlainError "socket hang up"))).

(** [a] may stand before [b] in a list sorted by descending similarity. *)
Definition descending (a b : SimilarIssue) : Prop :=
  num_le (similarity b) (similarity a) = true.

(** The similarity is a finite number. *)
Definition finite (r : SimilarIssue) : Prop :=
  exists q, similarity r = Fin q.






(** The verdict of [checkForDuplicates] when the search finds nothing. *)
Definition nothing_found : DuplicateAnalysis :=
  mkDuplicateAnalysis false []
    ["✅ No similar issues found. Safe to proceed with creation."].

(** The world after the user has pressed Enter [k] times. *)
Definition enters {E : Env} (k : nat) (w : World E) : World E :=
  Nat.iter k (fun w => snd (inputField E w)) w.

(** Both presentations of a similar issue can be written. *)
Definition presentable (r : SimilarIssue) : Prop :=
  Presentation.display_issue r = Ok tt /\ Presentation.review_issue r = Ok tt.

(** The items that [showSelectionMenu] makes of the options of
    [displayAnalysisResults]. *)
Definition menu_items : list string :=
  ["1. Proceed with creation anyway";
   "2. Review similar issues in detail";
   "3. Cancel and investigate manually";
   "4. Modify the issue to be more specific"].

(** A user who selects the item at [index] of every menu. *)
Definition selecting (index : nat)
    : list string -> Script.Counters -> nat * Script.Counters :=
  fun _ w => (index, w).

(** The summary of the similar issue is no string. *)
Definition untitled (r : SimilarIssue) : Prop :=
  forall s, summary r <> VStr s.

(** A record of the tracker that has a key and a status but no summary. *)
Definition record_without_summary : jsval :=
  VObj [("key", VStr "WEB-105");
        ("fields", VObj [("status", VObj [("name", VStr "Open")])])].

(** An analysis with two potential duplicates. *)
Definition two_duplicates : DuplicateAnalysis :=
  let found :=
    [mkSimilarIssue (VStr "WEB-101") (VStr "Login fails on Safari")
       (VStr "Users cannot sign in") (VStr "Open") (VStr "High") (Fin 0.9)
       (VStr "same login failure");
     mkSimilarIssue (VStr "WEB-102") (VStr "Logout button missing")
       (VStr "") (VStr "In Progress") (VStr "Unknown") (Fin 0.7)
       (VStr "related session handling")] in
  mkDuplicateAnalysis true found (DuplicateDetectionService.generateRecommendations found).

(* ===================================================================== *)
(** * Properties of the error classifier and the retry controller          *)
(* ===================================================================== *)

(** C2, as the code has it: an error that is not yet classified and whose
    lower-cased message contains a network indicator (connection refused,
    host not found, timeout) is classified as a Network error that is marked
    retryable; the network indicators are tested before all others, so the
    result does not depend on what else the message contains.  An error
    that is already an [AppError] is returned unchanged, whatever its
    message contains. *)
Theorem C2_network_errors_are_retryable (error : Error) :
  match error with
  | PlainError m =>
      network_indicator (toLowerCase m) = true ->
      ErrorHandler.normalizeError error = network_failure
      /\ type (ErrorHandler.normalizeError error) = NETWORK_ERROR
      /\ isRetryable (ErrorHandler.normalizeError error) = true
  | IsAppError classified =>
      ErrorHandler.normalizeError error = classified
  end.
Proof.
  destruct error as [m|classified]; [| reflexivity].
  intros H. unfold network_indicator in H.
  assert (ErrorHandler.normalizeError (PlainError m) = network_failure) as ->.
  { unfold ErrorHandler.normalizeError. cbv zeta. rewrite H. reflexivity. }
  repeat split.
Qed.

Lemma C2_network_errors_are_retryable_witness :
  let unreachable :=
    PlainError "request to https://mcp.zapier.com failed, reason: 401 after ETIMEOUT" in
  let denied := mkAppError "login timeout" AUTHENTICATION_ERROR false None in
  network_indicator (toLowerCase (message unreachable)) = true
  /\ type (ErrorHandler.normalizeError unreachable) = NETWORK_ERROR
  /\ isRetryable (ErrorHandler.normalizeError unreachable) = true
  /\ network_indicator (toLowerCase (message (IsAppError denied))) = true
  /\ ErrorHandler.normalizeError (IsAppError denied) = denied.
Proof.
  cbv zeta. split; [reflexivity |].
  pose proof (C2_network_errors_are_retryable
                (PlainError
                   "request to https://mcp.zapier.com failed, reason: 401 after ETIMEOUT")
                eq_refl) as (_ & Hkind & Hflag).
  split; [exact Hkind |]. split; [exact Hflag |]. split; [reflexivity |].
  exact (C2_network_errors_are_retryable
           (IsAppError (mkAppError "login timeout" AUTHENTICATION_ERROR false None))).
Defined.

(** C2 as stated fails: a connection-refused error is classified as Network
    but marked retryable, and an error that is already classified keeps its
    kind whatever its message says. *)
Lemma C2_counterexample :
  let refused := PlainError "connect ECONNREFUSED 127.0.0.1:443" in
  let denied := IsAppError (mkAppError "login timeout" AUTHENTICATION_ERROR false None) in
  network_indicator (toLowerCase (message refused)) = true
  /\ ~ (type (ErrorHandler.normalizeError refused) = NETWORK_ERROR
        /\ isRetryable (ErrorHandler.normalizeError refused) = false)
  /\ network_indicator (toLowerCase (message denied)) = true
  /\ type (ErrorHandler.normalizeError denied) <> NETWORK_ERROR.
Proof.
  cbv zeta. split; [reflexivity |]. split.
  - intros [_ H]. vm_compute in H. discriminate H.
  - split; [reflexivity |]. vm_compute. discriminate.
Qed.

Section RetryController.

Context {E : Env}.
Implicit Types (st : State E) (error : Error) (context : option string).

Lemma countdown_run (n : nat) st :
  ErrorHandler.countdown n st
  = (Ok tt, mkState (world st) (retryAttempts st) (trace st ++ replicate n (EvSleep 1000))).
Proof.
  revert st. induction n as [|n IH]; intros st.
  - simpl. unfold ret. rewrite app_nil_r. destruct st; reflexivity.
  - cbn [ErrorHandler.countdown]. unfold bind, sleep, emit. rewrite IH. simpl.
    rewrite <- app_assoc. reflexivity.
Qed.

(** A retryable error with budget left: the prompt is shown and the answer
    decides. *)
Lemma handleError_prompts error context st :
  isRetryable (ErrorHandler.normalizeError error) = true ->
  attempts_of st (ErrorHandler.context_or_default context) < ErrorHandler.maxRetries ->
  let ctx := ErrorHandler.context_or_default context in
  let n := attempts_of st ctx in
  let answer := inputField E (world st) in
  ErrorHandler.handleError error context st =
  if confirms (fst answer) then
    (Ok true,
     mkState (snd answer) (<[ctx := n + 1]> (retryAttempts st))
       (trace st ++ EvPrompt ctx (n + 1) :: backoff n))
  else
    (Ok false,
     mkState (snd answer) (delete ctx (retryAttempts st))
       (trace st ++ [EvPrompt ctx (n + 1)])).
Proof.
  intros Hr Hlt ctx n answer.
  unfold ErrorHandler.handleError. rewrite Hr.
  unfold bind at 1. unfold ErrorHandler.shouldRetry, bind, get_attempts, ret.
  fold ctx. fold (attempts_of st ctx). fold n.
  destruct (Nat.ltb_spec n ErrorHandler.maxRetries) as [_|Hge]; [|unfold n, ctx in Hge; lia].
  unfold ErrorHandler.promptForRetry, bind, get_attempts, set_attempts, emit, with_world.
  cbn [world retryAttempts trace].
  fold (attempts_of st ctx). fold n. fold answer.
  destruct answer as [response w] eqn:Ha. cbn [fst snd].
  unfold confirms. destruct (startsWith (toLowerCase response) "y").
  - unfold ErrorHandler.retryDelay. rewrite countdown_run. cbn [world retryAttempts trace].
    unfold ret, backoff. rewrite <- app_assoc. reflexivity.
  - unfold delete_attempts, ret. cbn [world retryAttempts trace].
    rewrite delete_insert_eq. reflexivity.
Qed.

(** A retryable error with the budget used up: no prompt, nothing changes. *)
Lemma handleError_exhausted error context st :
  isRetryable (ErrorHandler.normalizeError error) = true ->
  ErrorHandler.maxRetries <= attempts_of st (ErrorHandler.context_or_default context) ->
  ErrorHandler.handleError error context st = (Ok false, st).
Proof.
  intros Hr Hge.
  unfold ErrorHandler.handleError. rewrite Hr.
  unfold bind at 1. unfold ErrorHandler.shouldRetry, bind, get_attempts, ret.
  fold (attempts_of st (ErrorHandler.context_or_default context)).
  destruct (Nat.ltb_spec (attempts_of st (ErrorHandler.context_or_default context))
              ErrorHandler.maxRetries) as [Hlt|_]; [lia | reflexivity].
Qed.

Lemma handleError_not_retryable error context st :
  isRetryable (ErrorHandler.normalizeError error) = false ->
  ErrorHandler.handleError error context st = (Ok false, st).
Proof.
  intros Hr. unfold ErrorHandler.handleError. rewrite Hr. reflexivity.
Qed.

(** [handleError] never throws. *)
Lemma handleError_total error context st :
  exists b st', ErrorHandler.handleError error context st = (Ok b, st').
Proof.
  destruct (isRetryable (ErrorHandler.normalizeError error)) eqn:Hr.
  - destruct (Nat.lt_ge_cases
                (attempts_of st (ErrorHandler.context_or_default context))
                ErrorHandler.maxRetries) as [Hlt|Hge].
    + rewrite (handleError_prompts _ _ _ Hr Hlt).
      destruct (confirms _); eauto.
    + rewrite (handleError_exhausted _ _ _ Hr Hge). eauto.
  - rewrite (handleError_not_retryable _ _ _ Hr). eauto.
Qed.

End RetryController.

(** C6, as the code has it: when [handleError] is given a retryable error
    and the user declines the retry prompt, the context's counter is removed
    from the retry map and the result is false; when the budget of the
    context is used up, the result is false too, but no prompt is shown and
    the counter is left as it is. *)
Theorem C6_decline_clears_the_counter {E : Env} (error : Error)
    (context : option string) (st : State E) :
  isRetryable (ErrorHandler.normalizeError error) = true ->
  let ctx := ErrorHandler.context_or_default context in
  (attempts_of st ctx < ErrorHandler.maxRetries ->
   confirms (fst (inputField E (world st))) = false ->
   exists st', ErrorHandler.handleError error context st = (Ok false, st')
               /\ retryAttempts st' = delete ctx (retryAttempts st)
               /\ retryAttempts st' !! ctx = None)
  /\ (ErrorHandler.maxRetries <= attempts_of st ctx ->
      ErrorHandler.handleError error context st = (Ok false, st)).
Proof.
  intros Hr ctx. split.
  - intros Hlt Hno.
    rewrite (handleError_prompts _ _ _ Hr Hlt). rewrite Hno.
    eexists. split; [reflexivity |]. cbn [retryAttempts].
    split; [reflexivity | apply lookup_delete_eq].
  - intros Hge. apply (handleError_exhausted _ _ _ Hr Hge).
Qed.

Lemma C6_decline_clears_the_counter_witness :
  let error := PlainError "socket hang up" in
  let declining := mkState (E := Script.offline "no") Script.start {["create-issue" := 2]} [] in
  let exhausted := mkState (E := Script.offline "yes") Script.start {["create-issue" := 3]} [] in
  (exists st', ErrorHandler.handleError error (Some "create-issue") declining = (Ok false, st')
               /\ retryAttempts st' = delete "create-issue" (retryAttempts declining)
               /\ retryAttempts st' !! "create-issue" = None)
  /\ ErrorHandler.handleError error (Some "create-issue") exhausted = (Ok false, exhausted).
Proof.
  cbv zeta. split.
  - apply (C6_decline_clears_the_counter (E := Script.offline "no")
             (PlainError "socket hang up") (Some "create-issue")
             (mkState (E := Script.offline "no") Script.start {["create-issue" := 2]} [])
             eq_refl).
    + vm_compute. lia.
    + reflexivity.
  - apply (C6_decline_clears_the_counter (E := Script.offline "yes")
             (PlainError "socket hang up") (Some "create-issue")
             (mkState (E := Script.offline "yes") Script.start {["create-issue" := 3]} [])
             eq_refl).
    vm_compute. lia.
Defined.

(** C6 as stated fails on the exhausted budget: with three attempts counted
    for the context, [handleError] returns false for a retryable error and
    the counter is still in the retry map. *)
Lemma C6_counterexample :
  let error := PlainError "socket hang up" in
  let st := mkState (E := Script.offline "yes") Script.start {["create-issue" := 3]} [] in
  isRetryable (ErrorHandler.normalizeError error) = true
  /\ attempts_of st "create-issue" = ErrorHandler.maxRetries
  /\ exists st', ErrorHandler.handleError error (Some "create-issue") st = (Ok false, st')
                 /\ retryAttempts st' !! "create-issue" = Some 3
                 /\ retryAttempts st' !! "create-issue" <> None.
Proof.
  cbv zeta. split; [reflexivity |]. split; [reflexivity |].
  eexists. split; [reflexivity |]. split; [reflexivity | discriminate].
Qed.

(** [<=] and [===] on the loop counter and a budget that is a natural
    number. *)
Lemma num_le_of_nat (a b : nat) :
  num_le (num_of_nat a) (num_of_nat b) = (a <=? b)%nat.
Proof.
  unfold num_le, num_lt, num_of_nat. rewrite negb_involutive.
  apply eq_true_iff_eq. rewrite Qle_bool_iff, <- Zle_Qle, Nat.leb_le. lia.
Qed.

Lemma num_eq_of_nat (a b : nat) :
  num_eq (num_of_nat a) (num_of_nat b) = (a =? b)%nat.
Proof.
  unfold num_eq, num_of_nat.
  apply eq_true_iff_eq. rewrite Qeq_bool_iff, inject_Z_injective, Nat.eqb_eq. lia.
Qed.

Section OperationRunner.

Context {E : Env} {T : Type}.
Variable operation : World E -> settled T * World E.
Variable context : string.

Local Abbreviation ctx := (ErrorHandler.context_or_default (Some context)).





End OperationRunner.


Lemma invocations_app (l l' : list event) :
  invocations (l ++ l') = invocations l + invocations l'.
Proof. unfold invocations. rewrite filter_app, length_app. reflexivity. Qed.

Lemma invocations_prompt (c : string) (n : nat) : invocations [EvPrompt c n] = 0.
Proof. reflexivity. Qed.

Lemma invocations_invoke : invocations [EvInvoke] = 1.
Proof. reflexivity. Qed.

Lemma invocations_backoff (n : nat) : invocations (backoff n) = 0.
Proof.
  unfold backoff. induction (Nat.min (1000 * 2 ^ n) 5000 / 1000) as [|k IH];
    [reflexivity | exact IH].
Qed.

(** [handleError] does not invoke the operation. *)
Lemma handleError_invocations {E : Env} error context (st : State E) :
  invocations (trace (snd (ErrorHandler.handleError error context st)))
  = invocations (trace st).
Proof.
  destruct (isRetryable (ErrorHandler.normalizeError error)) eqn:Hr.
  - destruct (Nat.lt_ge_cases
                (attempts_of st (ErrorHandler.context_or_default context))
                ErrorHandler.maxRetries) as [Hlt|Hge].
    + rewrite (handleError_prompts _ _ _ Hr Hlt).
      destruct (confirms _); cbn [snd trace]; rewrite invocations_app.
      * change (EvPrompt ?c ?n :: ?l) with ([EvPrompt c n] ++ l).
        rewrite invocations_app, invocations_backoff, invocations_prompt. lia.
      * rewrite invocations_prompt. lia.
    + rewrite (handleError_exhausted _ _ _ Hr Hge). reflexivity.
  - rewrite (handleError_not_retryable _ _ _ Hr). reflexivity.
Qed.

(** What a granted retry has done to the state. *)
Lemma handleError_granted {E : Env} error (context : option string) (st st' : State E) :
  ErrorHandler.handleError error context st = (Ok true, st') ->
  let ctx := ErrorHandler.context_or_default context in
  attempts_of st ctx < ErrorHandler.maxRetries
  /\ attempts_of st' ctx = attempts_of st ctx + 1
  /\ invocations (trace st') = invocations (trace st).
Proof.
  intros H ctx.
  pose proof (handleError_invocations error context st) as Hinv.
  rewrite H in Hinv. cbn [snd] in Hinv.
  destruct (isRetryable (ErrorHandler.normalizeError error)) eqn:Hr.
  - destruct (Nat.lt_ge_cases (attempts_of st ctx) ErrorHandler.maxRetries) as [Hlt|Hge].
    + split; [exact Hlt |]. split; [| exact Hinv].
      rewrite (handleError_prompts _ _ _ Hr Hlt) in H.
      destruct (confirms _); [| discriminate H].
      injection H as <-. unfold attempts_of. cbn [retryAttempts].
      rewrite lookup_insert_eq. reflexivity.
    + rewrite (handleError_exhausted _ _ _ Hr Hge) in H. discriminate H.
  - rewrite (handleError_not_retryable _ _ _ Hr) in H. discriminate H.
Qed.

(** The same of [handleError] on whatever was caught: it does not invoke
    the operation, and a retry that it grants is counted. *)
Lemma handleError_caught_invocations {E : Env} error context (st : State E) :
  invocations (trace (snd (ErrorHandler.handleError_caught error context st)))
  = invocations (trace st).
Proof.
  destruct error as [e|v]; [apply handleError_invocations |].
  unfold ErrorHandler.handleError_caught, bind, lift.
  destruct (get v "message") as [[| | | |m| |]|e]; try reflexivity.
  apply handleError_invocations.
Qed.

Lemma handleError_caught_granted {E : Env} error (context : option string)
    (st st' : State E) :
  ErrorHandler.handleError_caught error context st = (Ok true, st') ->
  let ctx := ErrorHandler.context_or_default context in
  attempts_of st ctx < ErrorHandler.maxRetries
  /\ attempts_of st' ctx = attempts_of st ctx + 1
  /\ invocations (trace st') = invocations (trace st).
Proof.
  destruct error as [e|v]; [apply handleError_granted |].
  unfold ErrorHandler.handleError_caught, bind, lift.
  destruct (get v "message") as [[| | | |m| |]|e]; try discriminate.
  apply handleError_granted.
Qed.

(** The loop test bounds the invocations: with the budget [n], an iteration
    that starts with the counter at [attempt] is followed by at most
    [n - attempt] more. *)
Lemma makeRequest_loop_invocations {E : Env} {T : Type}
    (operation : World E -> settled T * World E) (context : string)
    (n fuel attempt : nat) lastError (st : State E) :
  invocations
    (trace (snd (APIWrapper.makeRequest_loop operation context (num_of_nat n) fuel attempt
                   lastError st)))
  <= invocations (trace st) + (n + 1 - attempt).
Proof.
  revert st attempt lastError.
  induction fuel as [|fuel IH]; intros st attempt lastError.
  - simpl. lia.
  - cbn [APIWrapper.makeRequest_loop]. rewrite num_le_of_nat, num_eq_of_nat.
    destruct (Nat.leb_spec attempt n) as [Hle|Hgt]; [| cbn [snd]; lia].
    destruct (operation (world st)) as [[a|error] w].
    + cbn [snd trace]. rewrite invocations_app, invocations_invoke. lia.
    + destruct (Nat.eqb_spec attempt n) as [->|Hne].
      * cbn [snd trace]. rewrite invocations_app, invocations_invoke. lia.
      * pose proof (handleError_caught_invocations error (Some context)
                      (mkState w (retryAttempts st) (trace st ++ [EvInvoke]))) as Hh.
        destruct (ErrorHandler.handleError_caught error (Some context) _) as [[b|e'] s'].
        -- cbn [snd trace] in Hh. rewrite invocations_app, invocations_invoke in Hh.
           destruct b; cbn [negb].
           ++ specialize (IH s' (attempt + 1) (Some error)). lia.
           ++ cbn [snd]. lia.
        -- cbn [snd trace] in Hh |- *.
           rewrite invocations_app, invocations_invoke in Hh. lia.
Qed.

(** Whatever the operation and the user do, [makeRequest] with the budget
    [n] invokes the operation at most [n + 1] times. *)
Lemma makeRequest_invocations_bound {E : Env} {T : Type}
    (operation : World E -> settled T * World E) (context : string) (n : nat)
    (st : State E) :
  invocations (trace (snd (APIWrapper.makeRequest operation context (num_of_nat n) st)))
  <= invocations (trace st) + (n + 1).
Proof.
  unfold APIWrapper.makeRequest.
  pose proof (makeRequest_loop_invocations operation context n
                (ErrorHandler.maxRetries + 1) 0 None st). lia.
Qed.

(** The handler bounds the iterations whatever the budget is: with more
    fuel than the context has retries left, yet more fuel changes nothing,
    so the fuel that [makeRequest] gives its loop never runs out. *)
Lemma makeRequest_loop_enough_fuel {E : Env} {T : Type}
    (operation : World E -> settled T * World E) (context : string)
    (maxRetries : jsnum) (fuel extra attempt : nat) lastError (st : State E) :
  ErrorHandler.maxRetries
  - attempts_of st (ErrorHandler.context_or_default (Some context)) < fuel ->
  APIWrapper.makeRequest_loop operation context maxRetries (fuel + extra) attempt
    lastError st
  = APIWrapper.makeRequest_loop operation context maxRetries fuel attempt lastError st.
Proof.
  revert attempt lastError st.
  induction fuel as [|fuel IH]; intros attempt lastError st Hfuel; [lia |].
  change (S fuel + extra) with (S (fuel + extra)).
  cbn [APIWrapper.makeRequest_loop].
  destruct (num_le (num_of_nat attempt) maxRetries); [| reflexivity].
  destruct (operation (world st)) as [[a|error] w]; [reflexivity |].
  destruct (num_eq (num_of_nat attempt) maxRetries); [reflexivity |].
  destruct (ErrorHandler.handleError_caught error (Some context) _)
    as [[[|]|e'] s'] eqn:Hh; cbn [negb]; try reflexivity.
  apply handleError_caught_granted in Hh as (Hlt & Hup & _).
  unfold attempts_of in Hlt, Hup. cbn [retryAttempts] in Hlt, Hup.
  apply IH. unfold attempts_of in *. lia.
Qed.

Lemma makeRequest_never_runs_out {E : Env} {T : Type}
    (operation : World E -> settled T * World E) (context : string)
    (maxRetries : jsnum) (extra : nat) (st : State E) :
  APIWrapper.makeRequest_loop operation context maxRetries
    (ErrorHandler.maxRetries + 1 + extra) 0 None st
  = APIWrapper.makeRequest operation context maxRetries st.
Proof.
  apply makeRequest_loop_enough_fuel. unfold ErrorHandler.maxRetries. lia.
Qed.




(* ===================================================================== *)
(** * Properties of the keyword fallback                                   *)
(* ===================================================================== *)

(** A piece without characters is not longer than three. *)
Lemma split_white_space_go_tokens (cur : list (list ascii)) (in_sep : bool)
    (chs : list (list ascii)) :
  (in_sep = true -> cur = []) ->
  filter (fun word => 3 < String_length word) (split_white_space_go cur in_sep chs)
  = filter (fun word => 3 < String_length word) (tokens_go cur chs).
Proof.
  assert (Hempty : ~ 3 < String_length (text_of (rev []))) by (cbn; lia).
  revert cur in_sep. induction chs as [|ch chs IH]; intros cur in_sep Hinv.
  - cbn [split_white_space_go tokens_go]. destruct cur as [|a cur]; [| reflexivity].
    rewrite filter_cons_False by exact Hempty. reflexivity.
  - cbn [split_white_space_go tokens_go]. destruct (is_white_space ch).
    + destruct in_sep.
      * rewrite (Hinv eq_refl). apply IH. reflexivity.
      * destruct cur as [|a cur].
        -- rewrite filter_cons_False by exact Hempty. apply IH. reflexivity.
        -- rewrite !filter_cons. rewrite (IH [] true (fun _ => eq_refl)). reflexivity.
    + apply IH. discriminate.
Qed.

(** The pieces that [split(/\s+/)] returns are the tokens, and possibly an
    empty piece at either end, which the test of the length removes. *)
Lemma long_pieces_are_tokens (s : string) :
  filter (fun word => 3 < String_length word) (split_white_space s)
  = filter (fun word => 3 < String_length word) (tokens s).
Proof. apply split_white_space_go_tokens. discriminate. Qed.

Lemma is_digit_decimal (c : ascii) : is_digit c = true <-> c ∈ decimal_digits.
Proof.
  rewrite <- (bool_decide_eq_true (c ∈ decimal_digits)).
  destruct c as [[] [] [] [] [] [] [] []]; vm_compute; tauto.
Qed.

(** The test [/^\d+$/] holds of the purely numeric tokens. *)
Lemma all_digits_purely_numeric (token : string) :
  all_digits token = false <-> ~ purely_numeric token.
Proof.
  rewrite <- not_true_iff_false. apply not_iff_compat.
  unfold all_digits, purely_numeric.
  destruct token as [|c token]; cbn [list_ascii_of_string].
  - split; [discriminate | intros [H _]; contradiction].
  - rewrite forallb_forall, Forall_forall. split.
    + intros H. split; [discriminate |]. intros x Hx.
      apply is_digit_decimal, H, list_elem_of_In, Hx.
    + intros [_ H] x Hx. apply is_digit_decimal, H, list_elem_of_In, Hx.
Qed.

(** C9, as the code has it: for every title and description the local
    keyword fallback returns the first (at most five) white-space separated
    tokens of the lower-cased title, a blank and the description that are
    longer than three UTF-16 code units (a character counts as one, a
    character beyond U+FFFF, such as an emoji, as two) and not made of the
    digits 0 to 9 only, and the single keyword ["issue"] when no token
    qualifies.  For
    the title ["Login fails!!!"] and an empty description it returns
    ["login"] and ["fails!!!"]. *)
Theorem C9_keyword_fallback {E : Env} (title description : string) :
  let keywords :=
    DuplicateDetectionService.extractKeywordsFallback (E := E) title description in
  keywords = keywords_by_the_spec (E := E) title description
  /\ 0 < length keywords <= 5
  /\ (keywords = ["issue"]
      \/ Forall (fun k => 3 < String_length k /\ ~ purely_numeric k
                          /\ k ∈ tokens (lower_case (E := E)
                                           (title ++ " " ++ description)%string))
           keywords)
  /\ DuplicateDetectionService.extractKeywordsFallback (E := E) "Login fails!!!" ""
     = ["login"; "fails!!!"].
Proof.
  cbv zeta.
  assert (Heq : DuplicateDetectionService.extractKeywordsFallback (E := E) title description
                = keywords_by_the_spec (E := E) title description).
  { unfold DuplicateDetectionService.extractKeywordsFallback, keywords_by_the_spec.
    cbv zeta. rewrite long_pieces_are_tokens, list_filter_filter.
    rewrite (list_filter_iff _
               (fun t => 3 < String_length t /\ ~ purely_numeric t))
      by (intros x; cbv beta; rewrite all_digits_purely_numeric; tauto).
    destruct (take 5 _); reflexivity. }
  split; [exact Heq |]. rewrite Heq. unfold keywords_by_the_spec. cbv zeta.
  set (qualifying := filter _ _).
  assert (Hq : Forall (fun k => 3 < String_length k /\ ~ purely_numeric k
                 /\ k ∈ tokens (lower_case (E := E)
                                  (title ++ " " ++ description)%string))
                 (take 5 qualifying)).
  { apply Forall_take. apply Forall_forall. intros k Hk.
    apply list_elem_of_filter in Hk. tauto. }
  pose proof (length_take qualifying 5) as Hlen.
  destruct (take 5 qualifying) as [|k ks] eqn:Htake.
  - split; [simpl; lia |]. split; [left; reflexivity | reflexivity].
  - split; [split; [simpl; lia | rewrite Hlen; lia] |].
    split; [right; exact Hq | reflexivity].
Qed.

(** C9 as stated fails beyond ASCII, where the code measures and tests a
    token as the language does.  The two emoji of the title ["Fix 👍👍 bug"]
    are two characters and four UTF-16 code units: no token of the title is
    longer than three characters, so the claim promises ["issue"], and the
    code returns the two emoji as a keyword.  And the only long token of the
    title ["１２３４５ abc"] is a number, written in full-width digits, which
    the test [/^\d+$/] does not take for digits: the claim promises
    ["issue"] again, and the code returns the number as a keyword. *)
Lemma C9_counterexample :
  let fallback := DuplicateDetectionService.extractKeywordsFallback (E := confirming) in
  let text title := lower_case (E := confirming) (title ++ " " ++ "")%string in
  (tokens (text "Fix 👍👍 bug") = ["fix"; "👍👍"; "bug"]
   /\ map character_count ["fix"; "👍👍"; "bug"] = [3; 2; 3]
   /\ String_length "👍👍" = 4
   /\ fallback "Fix 👍👍 bug" "" = ["👍👍"]
   /\ fallback "Fix 👍👍 bug" "" <> ["issue"])
  /\ (tokens (text "１２３４５ abc") = ["１２３４５"; "abc"]
      /\ map character_count ["１２３４５"; "abc"] = [5; 3]
      /\ fallback "１２３４５ abc" "" = ["１２３４５"]
      /\ fallback "１２３４５ abc" "" <> ["issue"]).
Proof.
  cbv zeta. split.
  - repeat split; try (vm_compute; reflexivity). vm_compute. discriminate.
  - repeat split; try (vm_compute; reflexivity). vm_compute. discriminate.
Qed.

(** Beyond ASCII the fallback counts as the language does and splits at the
    white space of [\s]: two accented letters are no keyword, a word with
    an accent has the length of its letters, and a no-break space (U+00A0)
    separates two words. *)
Example keywords_beyond_ascii :
  let fallback := DuplicateDetectionService.extractKeywordsFallback (E := confirming) in
  fallback "éé ab" "" = ["issue"]
  /\ fallback "Paiement ÉCHOUÉ" "" = ["paiement"; "échoué"]
  /\ fallback ("crash" ++ String "194" (String "160" "report"))%string ""
     = ["crash"; "report"]
  /\ map String_length ["éé"; "échoué"; "日本語"] = [2; 6; 3].
Proof. cbv zeta. repeat split; vm_compute; reflexivity. Qed.

(** An ASCII text has a character for each byte, so its length is the
    number of its bytes. *)
Lemma characters_ascii (cs : list ascii) :
  forallb (fun c => (nat_of_ascii c <? 128)%nat) cs = true ->
  characters cs = map (fun c => [c]) cs.
Proof.
  induction cs as [|c cs IH]; [reflexivity |].
  cbn [forallb]. intros H. apply andb_prop in H as [_ Hcs].
  cbn [characters]. rewrite (IH Hcs).
  destruct cs as [|d cs]; [reflexivity |]. cbn [map].
  cbn [forallb] in Hcs. apply andb_prop in Hcs as [Hd _].
  replace (is_continuation d) with false; [reflexivity |].
  revert Hd. destruct d as [[] [] [] [] [] [] [] []]; try discriminate; reflexivity.
Qed.

Lemma String_length_ascii (s : string) :
  is_ascii_text s = true -> String_length s = String.length s.
Proof.
  unfold is_ascii_text, String_length. intros H. rewrite (characters_ascii _ H).
  induction s as [|c s IH]; [reflexivity |].
  cbn [list_ascii_of_string forallb] in H. apply andb_prop in H as [Hc Hs].
  cbn [list_ascii_of_string map sum_list_with String.length]. rewrite (IH Hs).
  replace (code_units [c]) with 1; [reflexivity |].
  revert Hc. destruct c as [[] [] [] [] [] [] [] []]; try discriminate; reflexivity.
Qed.

(* ===================================================================== *)
(** * Properties of the similarity scorer                                  *)
(* ===================================================================== *)

(** A score that is written as a text is the double nearest to what the text
    says: digits beyond the precision of a double do not lift a score above
    the threshold, and a score too small for a double is 0. *)
Example a_written_score_is_rounded :
  StringToNumber "0.60000000000000001" = StringToNumber "0.6"
  /\ StringToNumber "1e-400" = Fin 0
  /\ StringToNumber "1e400" = PosInf
  /\ StringToNumber "0.5" = Fin (1 # 2).
Proof. repeat split; vm_compute; reflexivity. Qed.

Lemma clamp_range (n : jsnum) : clamp n = NaN \/ in_unit_interval (clamp n).
Proof.
  unfold clamp. destruct n as [| |q|]; cbn.
  - left; reflexivity.
  - right. split; [apply Qle_refl | discriminate].
  - destruct (Qle_bool 0 q) eqn:H0; cbn.
    + destruct (Qle_bool q 1) eqn:H1; cbn; right.
      * apply Qle_bool_iff in H0, H1. split; assumption.
      * split; [discriminate | apply Qle_refl].
    + right. split; [apply Qle_refl | discriminate].
  - right. split; [discriminate | apply Qle_refl].
Qed.

Lemma createFallbackSimilarity_score (issue : jsval) (r : SimilarIssue) :
  DuplicateDetectionService.createFallbackSimilarity issue = Ok r ->
  similarity r = Fin 0.1 /\ reason r = VStr "Unable to perform detailed analysis".
Proof.
  unfold DuplicateDetectionService.createFallbackSimilarity. intros H.
  invert_reads H. injection H as <-. split; reflexivity.
Qed.

Lemma analyzed_score (v issue : jsval) (index : nat) (r : SimilarIssue) :
  DuplicateDetectionService.analyzed v issue index = Ok r ->
  exists n, similarity r = clamp n.
Proof.
  unfold DuplicateDetectionService.analyzed. intros H.
  invert_reads H. injection H as <-. eexists. reflexivity.
Qed.

Lemma Array_map_Forall {A B} (f : A -> outcome B) (P : B -> Prop) (l : list A) rs :
  (forall x y, f x = Ok y -> P y) ->
  Array_map f l = Ok rs -> Forall P rs.
Proof.
  intros Hf. revert rs. induction l as [|x l IH]; intros rs H; cbn in H.
  - injection H as <-. constructor.
  - invert_reads H. injection H as <-. constructor; eauto.
Qed.

Lemma map_analyzed_Forall (P : SimilarIssue -> Prop) (v : jsval) (batch : list jsval) :
  (forall issue index r, DuplicateDetectionService.analyzed v issue index = Ok r -> P r) ->
  forall index rs,
    DuplicateDetectionService.map_analyzed v index batch = Ok rs -> Forall P rs.
Proof.
  intros Hf. induction batch as [|x l IH]; intros index rs H; cbn in H.
  - injection H as <-. constructor.
  - invert_reads H. injection H as <-. constructor; eauto.
Qed.

Section Scorer.

Context {E : Env}.
Implicit Types (st : State E) (newIssue : NewIssue) (batch : list jsval).

(** Where the results of a batch come from: the degraded results of the
    whole batch, or the analysis of a parsed reply. *)
Lemma analyzeBatch_results newIssue batch st rs st' :
  DuplicateDetectionService.analyzeBatch newIssue batch st = (Ok rs, st') ->
  Array_map DuplicateDetectionService.createFallbackSimilarity batch = Ok rs
  \/ exists v, DuplicateDetectionService.map_analyzed v 0 batch = Ok rs.
Proof.
  unfold DuplicateDetectionService.analyzeBatch, try_catch, bind, lift, call_world, throw.
  destruct (Array_map DuplicateDetectionService.createFallbackSimilarity batch)
    as [fs|e3] eqn:Hf;
    (destruct (Array_map DuplicateDetectionService.prompt_entry batch) as [us|e0];
     [destruct (openai_create E _ (world st)) as [[[|[v|]]|e1] w];
      [ | destruct (DuplicateDetectionService.map_analyzed v 0 batch) as [rs'|e2] eqn:Hm
        | | ] | ]);
    intros H; inversion H; subst; eauto.
Qed.

Lemma analyzeBatch_clamped newIssue batch st rs st' :
  DuplicateDetectionService.analyzeBatch newIssue batch st = (Ok rs, st') ->
  Forall clamped rs.
Proof.
  intros H. apply analyzeBatch_results in H as [H | [v H]].
  - eapply Array_map_Forall; [| exact H]. intros x y Hy.
    apply createFallbackSimilarity_score in Hy as [Hs _].
    unfold clamped. right. rewrite Hs. cbn. split; discriminate.
  - eapply map_analyzed_Forall; [| exact H]. intros issue index r Hr.
    apply analyzed_score in Hr as [n Hn]. unfold clamped. rewrite Hn. apply clamp_range.
Qed.

Lemma batch_loop_clamped newIssue (existingIssues : list jsval) (fuel i : nat)
    (results : list SimilarIssue) st rs st' :
  Forall clamped results ->
  DuplicateDetectionService.batch_loop newIssue existingIssues fuel i results st
  = (Ok rs, st') ->
  Forall clamped rs.
Proof.
  revert i results st. induction fuel as [|fuel IH]; intros i results st Hres H.
  - cbn in H. injection H as <- _. exact Hres.
  - cbn [DuplicateDetectionService.batch_loop] in H.
    destruct (i <? length existingIssues)%nat.
    + unfold bind at 1 in H.
      destruct (DuplicateDetectionService.analyzeBatch newIssue _ st)
        as [[batchResults|e] st1] eqn:Hb; [| discriminate H].
      apply analyzeBatch_clamped in Hb.
      unfold bind at 1 in H.
      destruct ((if (i + DuplicateDetectionService.batchSize <? length existingIssues)%nat
                 then sleep 500 else ret tt) st1) as [[u|e] st2]; [| discriminate H].
      eapply IH; [| exact H]. apply Forall_app. split; assumption.
    + injection H as <- _. exact Hres.
Qed.

End Scorer.

Lemma sort_insert_perm {A} (cmp : A -> A -> jsnum) (x : A) (l : list A) :
  sort_insert cmp x l ≡ₚ x :: l.
Proof.
  induction l as [|y l IH]; cbn [sort_insert]; [reflexivity |].
  destruct (num_gt (cmp x y) (Fin 0)); [| reflexivity].
  rewrite IH. apply Permutation_swap.
Qed.

(** [sort] rearranges, it neither drops nor adds. *)
Lemma Array_sort_perm {A} (cmp : A -> A -> jsnum) (l : list A) :
  Array_sort cmp l ≡ₚ l.
Proof.
  induction l as [|x l IH]; [reflexivity |].
  unfold Array_sort. cbn [foldr]. fold (Array_sort cmp l).
  rewrite sort_insert_perm, IH. reflexivity.
Qed.

Lemma positive_clamped (r : SimilarIssue) :
  clamped r -> num_gt (similarity r) (Fin 0) = true ->
  in_unit_interval (similarity r).
Proof.
  intros [H | H] Hpos; [| exact H]. rewrite H in Hpos. discriminate Hpos.
Qed.

(** C4: every result that the scorer returns has a similarity in the closed
    interval from 0 to 1, whatever the generation service replied or failed
    to reply for each batch and whatever the candidates are. *)
Theorem C4_scores_in_unit_interval {E : Env} (newIssue : NewIssue)
    (existingIssues : list jsval) (st st' : State E) (rs : list SimilarIssue) :
  DuplicateDetectionService.analyzeIssueSimilarity newIssue existingIssues st = (Ok rs, st') ->
  Forall (fun r => in_unit_interval (similarity r)) rs.
Proof.
  unfold DuplicateDetectionService.analyzeIssueSimilarity. unfold bind at 1.
  destruct (DuplicateDetectionService.batch_loop newIssue existingIssues _ 0 [] st)
    as [[results|e] st1] eqn:Hloop; [| discriminate].
  intros H. injection H as <- _.
  apply batch_loop_clamped in Hloop; [| constructor].
  rewrite Array_sort_perm. apply Forall_forall. intros r Hr.
  apply list_elem_of_filter in Hr as [Hpos Hr].
  apply positive_clamped; [| exact Hpos].
  rewrite Forall_forall in Hloop. apply Hloop, Hr.
Qed.

Lemma C4_scores_in_unit_interval_witness :
  let run :=
    DuplicateDetectionService.analyzeIssueSimilarity (E := replying careless_reply)
      (mkNewIssue "Cannot log in" "Login fails with error 500")
      [candidate login_bug; candidate logout_bug; candidate signup_bug;
       candidate search_bug]
      (mkState (E := replying careless_reply) Script.start ∅ []) in
  exists rs,
    fst run = Ok rs
    /\ map similarity rs = [Fin 1; Fin 0.1]
    /\ Forall (fun r => in_unit_interval (similarity r)) rs.
Proof.
  cbv zeta. eexists. split; [vm_compute; reflexivity |].
  split; [reflexivity |].
  apply (C4_scores_in_unit_interval (E := replying careless_reply)
           (mkNewIssue "Cannot log in" "Login fails with error 500")
           [candidate login_bug; candidate logout_bug; candidate signup_bug;
            candidate search_bug]
           (mkState (E := replying careless_reply) Script.start ∅ [])
           (snd (DuplicateDetectionService.analyzeIssueSimilarity
                   (E := replying careless_reply)
                   (mkNewIssue "Cannot log in" "Login fails with error 500")
                   [candidate login_bug; candidate logout_bug; candidate signup_bug;
                    candidate search_bug]
                   (mkState (E := replying careless_reply) Script.start ∅ [])))).
  vm_compute. reflexivity.
Defined.

(** What the source reads from a candidate record. *)
Lemma as_candidate_reads (issue : jsval) (c : Candidate) :
  as_candidate issue = Some c ->
  exists fields st p,
    get issue "key" = Ok (VStr (c_key c))
    /\ get issue "fields" = Ok fields
    /\ get fields "summary" = Ok (VStr (c_summary c))
    /\ get fields "description"
       = Ok (match c_description c with Some d => VStr d | None => VUndef end)
    /\ get fields "status" = Ok st
    /\ get st "name" = Ok (VStr (c_status c))
    /\ get fields "priority" = Ok p
    /\ get_opt p "name"
       = Ok (match c_priority c with Some n => VStr n | None => VUndef end).
Proof.
  unfold as_candidate. intros H.
  destruct issue as [| | | | | |kvs]; try discriminate H.
  destruct (get (VObj kvs) "fields") as [[| | | | | |f]|] eqn:Hf; try discriminate H.
  destruct (get (VObj kvs) "key") as [[| | | |k| |]|] eqn:Hk; try discriminate H.
  destruct (get (VObj f) "summary") as [[| | | |s| |]|] eqn:Hs; try discriminate H.
  cbn [as_string] in H.
  destruct (get (VObj f) "description") as [d|] eqn:Hd; [| discriminate H].
  destruct (as_optional_string (Ok d)) as [od|] eqn:Hod; [| discriminate H].
  destruct (get (VObj f) "status") as [[| | | | | |sto]|] eqn:Hst; try discriminate H.
  destruct (get (VObj f) "priority") as [p|] eqn:Hp; [| discriminate H].
  destruct (get (VObj sto) "name") as [[| | | |stn| |]|] eqn:Hstn; try discriminate H.
  cbn [as_string] in H.
  assert (Hdesc : d = match od with Some x => VStr x | None => VUndef end).
  { destruct d; try discriminate Hod; cbn in Hod; injection Hod as <-; reflexivity. }
  subst d.
  destruct p as [| | | | | |pr]; try discriminate H.
  - injection H as <-. exists (VObj f), (VObj sto), VUndef. cbn [c_key c_summary
      c_description c_status c_priority]. repeat split; assumption || reflexivity.
  - destruct (get (VObj pr) "name") as [[| | | |pn| |]|] eqn:Hpn; try discriminate H.
    cbn [as_string] in H. injection H as <-.
    exists (VObj f), (VObj sto), (VObj pr). cbn [c_key c_summary
      c_description c_status c_priority]. repeat split; assumption.
Qed.

Lemma candidates_Forall2 (batch : list jsval) (cs : list Candidate) :
  candidates batch cs -> Forall2 (fun issue c => as_candidate issue = Some c) batch cs.
Proof.
  unfold candidates. revert cs. induction batch as [|x l IH]; intros [|c cs] H;
    try discriminate H; [constructor |].
  cbn in H. injection H as Hx Hl. constructor; [exact Hx | apply IH, Hl].
Qed.

Lemma description_or_empty (d : option string) :
  or_else (match d with Some x => VStr x | None => VUndef end) (VStr "")
  = VStr (default "" d).
Proof.
  destruct d as [x|]; [| reflexivity]. unfold or_else. cbn.
  destruct (String.eqb_spec x ""); [subst; reflexivity | reflexivity].
Qed.

Lemma priority_or_unknown (p : option string) :
  or_else (match p with Some n => VStr n | None => VUndef end) (VStr "Unknown")
  = VStr (match p with
          | Some n => if String.eqb n "" then "Unknown" else n
          | None => "Unknown"
          end).
Proof.
  destruct p as [n|]; [| reflexivity]. unfold or_else. cbn.
  destruct (String.eqb n ""); reflexivity.
Qed.

Lemma createFallbackSimilarity_candidate (issue : jsval) (c : Candidate) :
  as_candidate issue = Some c ->
  exists r, DuplicateDetectionService.createFallbackSimilarity issue = Ok r
            /\ degraded c r.
Proof.
  intros H.
  destruct (as_candidate_reads issue c H)
    as (fields & st & p & Hk & Hf & Hs & Hd & Hst & Hstn & Hp & Hpn).
  unfold DuplicateDetectionService.createFallbackSimilarity.
  read_with Hk. read_with Hf. read_with Hs. read_with Hd. read_with Hst.
  read_with Hstn. read_with Hp. read_with Hpn.
  eexists. split; [reflexivity |].
  unfold degraded, copies. cbn [key summary status description priority similarity reason].
  rewrite description_or_empty, priority_or_unknown. repeat split.
Qed.

Lemma prompt_entry_candidate (issue : jsval) (c : Candidate) :
  as_candidate issue = Some c ->
  DuplicateDetectionService.prompt_entry issue = Ok tt.
Proof.
  intros H.
  destruct (as_candidate_reads issue c H)
    as (fields & st & p & Hk & Hf & Hs & Hd & Hst & Hstn & Hp & Hpn).
  unfold DuplicateDetectionService.prompt_entry.
  read_with Hk. cbn [DuplicateDetectionService.interpolate ToPrimitive_throws obind].
  read_with Hf. read_with Hs.
  cbn [DuplicateDetectionService.interpolate ToPrimitive_throws obind].
  read_with Hd.
  assert (DuplicateDetectionService.interpolate
            (or_else (match c_description c with Some d => VStr d | None => VUndef end)
               (VStr "No description")) = Ok tt) as ->.
  { destruct (c_description c) as [d|]; [| reflexivity].
    unfold or_else. destruct (truthy (VStr d)); reflexivity. }
  cbn [obind]. read_with Hst. read_with Hstn. reflexivity.
Qed.

(** The analysis of a candidate record, when it does not throw, copies the
    record's fields. *)
Lemma analyzed_candidate (v issue : jsval) (index : nat) (c : Candidate)
    (r : SimilarIssue) :
  as_candidate issue = Some c ->
  DuplicateDetectionService.analyzed v issue index = Ok r ->
  copies c r.
Proof.
  intros H.
  destruct (as_candidate_reads issue c H)
    as (fields & st & p & Hk & Hf & Hs & Hd & Hst & Hstn & Hp & Hpn).
  unfold DuplicateDetectionService.analyzed. intros Hr.
  destruct (DuplicateDetectionService.find_analysis v index) as [found|]; [| discriminate Hr].
  cbn [obind] in Hr. cbv zeta in Hr.
  rewrite Hk, Hf in Hr. cbn [obind] in Hr.
  rewrite Hs, Hd, Hst in Hr. cbn [obind] in Hr.
  rewrite Hstn, Hp in Hr. cbn [obind] in Hr. rewrite Hpn in Hr. cbn [obind] in Hr.
  invert_reads Hr. injection Hr as <-.
  unfold copies. cbn [key summary status description priority].
  rewrite description_or_empty, priority_or_unknown. repeat split.
Qed.

Section Batch.

Context {E : Env}.
Implicit Types (st : State E) (newIssue : NewIssue) (batch : list jsval)
  (cs : list Candidate).

Lemma prompt_candidates batch cs :
  Forall2 (fun issue c => as_candidate issue = Some c) batch cs ->
  exists us, Array_map DuplicateDetectionService.prompt_entry batch = Ok us.
Proof.
  induction 1 as [|issue c batch cs Hc _ [us IH]]; cbn; [eauto |].
  rewrite (prompt_entry_candidate issue c Hc). cbn. rewrite IH. cbn. eauto.
Qed.

Lemma fallback_candidates batch cs :
  Forall2 (fun issue c => as_candidate issue = Some c) batch cs ->
  exists fs, Array_map DuplicateDetectionService.createFallbackSimilarity batch = Ok fs
             /\ Forall2 degraded cs fs.
Proof.
  induction 1 as [|issue c batch cs Hc _ (fs & IH & Hfs)]; cbn.
  - exists []. split; [reflexivity | constructor].
  - destruct (createFallbackSimilarity_candidate issue c Hc) as (r & -> & Hr). cbn.
    rewrite IH. cbn. exists (r :: fs). split; [reflexivity | constructor; assumption].
Qed.

Lemma map_analyzed_copies (v : jsval) batch cs :
  Forall2 (fun issue c => as_candidate issue = Some c) batch cs ->
  forall index rs,
    DuplicateDetectionService.map_analyzed v index batch = Ok rs ->
    Forall2 copies cs rs.
Proof.
  induction 1 as [|issue c batch cs Hc _ IH]; intros index rs H; cbn in H.
  - injection H as <-. constructor.
  - invert_reads H. injection H as <-. constructor.
    + eapply analyzed_candidate; eassumption.
    + eapply IH; eassumption.
Qed.

(** The result of [analyzeBatch] on candidate records, in closed form. *)
Lemma analyzeBatch_candidates newIssue batch cs st :
  Forall2 (fun issue c => as_candidate issue = Some c) batch cs ->
  let call := openai_create E
                (SimilarityRequest (new_title newIssue) (new_description newIssue) batch)
                (world st) in
  exists fs,
    Array_map DuplicateDetectionService.createFallbackSimilarity batch = Ok fs
    /\ Forall2 degraded cs fs
    /\ DuplicateDetectionService.analyzeBatch newIssue batch st
       = (Ok match fst call with
             | Ok (Content (Some v)) =>
                 match DuplicateDetectionService.map_analyzed v 0 batch with
                 | Ok rs => rs
                 | Throw _ => fs
                 end
             | _ => fs
             end,
          mkState (snd call) (retryAttempts st) (trace st)).
Proof.
  intros Hcs call.
  destruct (prompt_candidates batch cs Hcs) as [us Hus].
  destruct (fallback_candidates batch cs Hcs) as (fs & Hfs & Hdeg).
  exists fs. split; [exact Hfs |]. split; [exact Hdeg |].
  unfold DuplicateDetectionService.analyzeBatch, try_catch, bind, lift, call_world, throw.
  rewrite Hus, Hfs. fold call.
  destruct call as [[[|[v|]]|e1] w]; cbn [fst snd]; try reflexivity.
  destruct (DuplicateDetectionService.map_analyzed v 0 batch); reflexivity.
Qed.

(** C10: for a batch of candidate records and whatever the generation
    service does (a reply that parses, an empty reply, a reply that does not
    parse, an exception), [analyzeBatch] returns exactly one result per
    candidate, in the order of the batch, with key, summary and status
    copied from the record, the description or else the empty text, and the
    priority or else ["Unknown"]. *)
Theorem C10_one_result_per_candidate newIssue batch cs st :
  candidates batch cs ->
  exists rs st',
    DuplicateDetectionService.analyzeBatch newIssue batch st = (Ok rs, st')
    /\ length rs = length batch
    /\ Forall2 copies cs rs.
Proof.
  intros Hcs. apply candidates_Forall2 in Hcs.
  destruct (analyzeBatch_candidates newIssue batch cs st Hcs) as (fs & Hfs & Hdeg & Hrun).
  cbv zeta in Hrun. rewrite Hrun. do 2 eexists. split; [reflexivity |].
  assert (Hcopies : Forall2 copies cs fs).
  { eapply Forall2_impl; [exact Hdeg |]. intros c r [Hc _]. exact Hc. }
  assert (Hres : Forall2 copies cs
            match fst (openai_create E
                         (SimilarityRequest (new_title newIssue) (new_description newIssue) batch)
                         (world st)) with
            | Ok (Content (Some v)) =>
                match DuplicateDetectionService.map_analyzed v 0 batch with
                | Ok rs => rs
                | Throw _ => fs
                end
            | _ => fs
            end).
  { destruct (fst _) as [[|[v|]]|e]; try exact Hcopies.
    destruct (DuplicateDetectionService.map_analyzed v 0 batch) as [rs|e] eqn:Hm;
      [| exact Hcopies].
    eapply map_analyzed_copies; eassumption. }
  split; [| exact Hres].
  rewrite <- (Forall2_length _ _ _ Hres). symmetry. apply (Forall2_length _ _ _ Hcs).
Qed.

End Batch.

Lemma C10_one_result_per_candidate_witness :
  exists rs st',
    DuplicateDetectionService.analyzeBatch (E := replying careless_reply)
      (mkNewIssue "Cannot log in" "Login fails with error 500")
      [candidate login_bug; candidate logout_bug; candidate signup_bug]
      (mkState (E := replying careless_reply) Script.start ∅ [])
    = (Ok rs, st')
    /\ length rs = length [candidate login_bug; candidate logout_bug; candidate signup_bug]
    /\ Forall2 copies [login_bug; logout_bug; signup_bug] rs.
Proof.
  apply (C10_one_result_per_candidate (E := replying careless_reply)
           (mkNewIssue "Cannot log in" "Login fails with error 500")
           [candidate login_bug; candidate logout_bug; candidate signup_bug]
           [login_bug; logout_bug; signup_bug]
           (mkState (E := replying careless_reply) Script.start ∅ [])).
  reflexivity.
Defined.

(** On a reply whose entries are all usable, [find] does not throw and
    returns the matching entry. *)
Lemma find_analysis_usable (entries : list jsval) (index : nat) :
  forallb usable entries = true ->
  DuplicateDetectionService.find_analysis (VArr entries) index
  = Ok (default VUndef (matching_entry entries index)).
Proof.
  unfold DuplicateDetectionService.find_analysis, matching_entry.
  induction entries as [|a entries IH]; intros H; [reflexivity |].
  cbn [forallb] in H. apply andb_prop in H as [Ha Hrest].
  cbn [Array_find List.find].
  destruct a as [| |b|n|s|l|kvs]; try discriminate Ha; cbn [get obind answers_for];
    try (cbn [strict_eq_num]; apply IH, Hrest).
  destruct (strict_eq_num _ _); [reflexivity | apply IH, Hrest].
Qed.

Lemma matching_entry_usable (entries : list jsval) (index : nat) (a : jsval) :
  forallb usable entries = true ->
  matching_entry entries index = Some a ->
  exists kvs, a = VObj kvs
              /\ ToPrimitive_throws (default VUndef (own_property "similarity" kvs)) = false.
Proof.
  intros Hall Hfind. apply List.find_some in Hfind as [Hin Hans].
  rewrite forallb_forall in Hall. specialize (Hall a Hin).
  destruct a; try discriminate Hans. eexists. split; [reflexivity |].
  cbn in Hall. apply negb_true_iff in Hall. exact Hall.
Qed.

Lemma analyzed_usable (entries : list jsval) (issue : jsval) (index : nat)
    (c : Candidate) :
  as_candidate issue = Some c ->
  forallb usable entries = true ->
  exists r, DuplicateDetectionService.analyzed (VArr entries) issue index = Ok r
            /\ unanswered entries index r.
Proof.
  intros Hc Hall.
  destruct (as_candidate_reads issue c Hc)
    as (fields & st & p & Hk & Hf & Hs & Hd & Hst & Hstn & Hp & Hpn).
  unfold DuplicateDetectionService.analyzed.
  rewrite (find_analysis_usable entries index Hall). cbn [obind]. cbv zeta.
  read_with Hk. read_with Hf. read_with Hs. read_with Hd. read_with Hst.
  read_with Hstn. read_with Hp. read_with Hpn.
  destruct (matching_entry entries index) as [a|] eqn:Hm.
  - destruct (matching_entry_usable entries index a Hall Hm) as (kvs & -> & Hconv).
    change (or_else (default VUndef (Some (VObj kvs)))
              DuplicateDetectionService.analysis_failed) with (VObj kvs).
    cbn [get obind].
    assert (Hnum : exists n, ToNumber (or_else (default VUndef (own_property "similarity" kvs))
                                          (VNum (Fin 0))) = Ok n
                             /\ (own_property "similarity" kvs = None -> n = Fin 0)).
    { unfold ToNumber, or_else.
      destruct (truthy (default VUndef (own_property "similarity" kvs))) eqn:Ht.
      - rewrite Hconv. eexists. split; [reflexivity |].
        intros Hnone. rewrite Hnone in Ht. discriminate Ht.
      - cbn. eexists. split; [reflexivity | reflexivity]. }
    destruct Hnum as (n & Hn & Hmissing). rewrite Hn. cbn [obind].
    eexists. split; [reflexivity |]. split; [rewrite Hm; discriminate |].
    intros kvs' Heq Hnone. rewrite Hm in Heq. injection Heq as <-.
    cbn [similarity reason]. rewrite (Hmissing Hnone). split; reflexivity.
  - change (or_else (default VUndef None) DuplicateDetectionService.analysis_failed)
      with DuplicateDetectionService.analysis_failed.
    unfold DuplicateDetectionService.analysis_failed.
    cbn. eexists. split; [reflexivity |]. split; [| rewrite Hm; discriminate].
    intros _. cbn. split; reflexivity.
Qed.

Lemma map_analyzed_usable (entries : list jsval) (batch : list jsval)
    (cs : list Candidate) :
  Forall2 (fun issue c => as_candidate issue = Some c) batch cs ->
  forallb usable entries = true ->
  forall first,
  exists rs,
    DuplicateDetectionService.map_analyzed (VArr entries) first batch = Ok rs
    /\ forall index r, rs !! index = Some r -> unanswered entries (first + index) r.
Proof.
  intros Hcs Hall. induction Hcs as [|issue c batch cs Hc _ IH]; intros first.
  - exists []. split; [reflexivity |]. intros index r H. discriminate H.
  - cbn [DuplicateDetectionService.map_analyzed].
    destruct (analyzed_usable entries issue first c Hc Hall) as (r0 & -> & Hr0).
    cbn [obind]. destruct (IH (first + 1)) as (rs & -> & Hrs). cbn [obind].
    exists (r0 :: rs). split; [reflexivity |].
    intros [|index] r H; cbn in H.
    + injection H as <-. rewrite Nat.add_0_r. exact Hr0.
    + replace (first + S index) with (first + 1 + index) by lia. apply Hrs, H.
Qed.

(** C5, as the code has it: when the reply for a batch of candidate records
    parses as a list of usable entries, a candidate for which the list has
    no entry with its position (none at all, or only entries with other
    indices) receives similarity 0.1 with the reason ["Analysis failed"]; a
    candidate whose entry carries no similarity score receives similarity 0
    and the reason of its entry, or ["AI analysis completed"] when the entry
    has none. *)
Theorem C5_unanswered_candidates {E : Env} (newIssue : NewIssue)
    (batch : list jsval) (cs : list Candidate) (entries : list jsval)
    (st : State E) (w : World E) :
  candidates batch cs ->
  openai_create E
    (SimilarityRequest (new_title newIssue) (new_description newIssue) batch) (world st)
  = (Ok (Content (Some (VArr entries))), w) ->
  forallb usable entries = true ->
  exists rs st',
    DuplicateDetectionService.analyzeBatch newIssue batch st = (Ok rs, st')
    /\ length rs = length batch
    /\ forall index r,
         rs !! index = Some r ->
         (matching_entry entries index = None ->
          similarity r = Fin 0.1 /\ reason r = VStr "Analysis failed")
         /\ (forall kvs,
               matching_entry entries index = Some (VObj kvs) ->
               own_property "similarity" kvs = None ->
               similarity r = Fin 0
               /\ reason r = or_else (default VUndef (own_property "reason" kvs))
                               (VStr "AI analysis completed")).
Proof.
  intros Hcs Hcall Hall. apply candidates_Forall2 in Hcs.
  destruct (analyzeBatch_candidates newIssue batch cs st Hcs) as (fs & _ & _ & Hrun).
  cbv zeta in Hrun. rewrite Hcall in Hrun. cbn [fst snd] in Hrun.
  destruct (map_analyzed_usable entries batch cs Hcs Hall 0) as (rs & Hrs & Hrows).
  rewrite Hrs in Hrun. exists rs. eexists. split; [exact Hrun |]. split.
  - pose proof (map_analyzed_copies (VArr entries) batch cs Hcs 0 rs Hrs) as Hcopies.
    rewrite <- (Forall2_length _ _ _ Hcopies). symmetry. apply (Forall2_length _ _ _ Hcs).
  - intros index r Hr. apply (Hrows index r Hr).
Qed.

Lemma C5_unanswered_candidates_witness :
  exists rs st',
    DuplicateDetectionService.analyzeBatch (E := replying careless_reply)
      (mkNewIssue "Cannot log in" "Login fails with error 500")
      [candidate login_bug; candidate logout_bug; candidate signup_bug;
       candidate search_bug]
      (mkState (E := replying careless_reply) Script.start ∅ [])
    = (Ok rs, st')
    /\ map similarity rs = [NaN; Fin 1; Fin 0; Fin 0.1]
    /\ map reason rs = [VStr "same login failure"; VStr "identical";
                        VStr "unrelated"; VStr "Analysis failed"].
Proof.
  destruct (C5_unanswered_candidates (E := replying careless_reply)
              (mkNewIssue "Cannot log in" "Login fails with error 500")
              [candidate login_bug; candidate logout_bug; candidate signup_bug;
               candidate search_bug]
              [login_bug; logout_bug; signup_bug; search_bug]
              (match careless_reply with VArr entries => entries | _ => [] end)
              (mkState (E := replying careless_reply) Script.start ∅ [])
              (Script.mkCounters 1 0 0 0))
    as (rs & st' & Hrun & _ & _); [reflexivity | reflexivity | reflexivity |].
  exists rs, st'. split; [exact Hrun |].
  vm_compute in Hrun. injection Hrun as <- _. split; reflexivity.
Defined.

(** C5 as stated fails on an entry without a score: the candidate gets
    similarity 0 and keeps the entry's reason, and the final filter of the
    scorer then drops it. *)
Lemma C5_counterexample :
  exists r st' st'',
    DuplicateDetectionService.analyzeBatch (E := replying scoreless_reply)
      (mkNewIssue "Cannot log in" "Login fails with error 500")
      [candidate login_bug]
      (mkState (E := replying scoreless_reply) Script.start ∅ [])
    = (Ok [r], st')
    /\ (exists kvs, matching_entry
                      (match scoreless_reply with VArr entries => entries | _ => [] end) 0
                    = Some (VObj kvs)
                    /\ own_property "similarity" kvs = None)
    /\ similarity r = Fin 0
    /\ reason r = VStr "unrelated"
    /\ ~ (similarity r = Fin 0.1 /\ reason r = VStr "Analysis failed")
    /\ DuplicateDetectionService.analyzeIssueSimilarity (E := replying scoreless_reply)
         (mkNewIssue "Cannot log in" "Login fails with error 500")
         [candidate login_bug]
         (mkState (E := replying scoreless_reply) Script.start ∅ [])
       = (Ok [], st'').
Proof.
  do 3 eexists. split; [vm_compute; reflexivity |].
  split; [eexists; split; reflexivity |].
  split; [reflexivity |]. split; [reflexivity |].
  split; [intros [_ H]; discriminate H |].
  vm_compute. reflexivity.
Qed.

(* ===================================================================== *)
(** * The final sort and the batches                                        *)
(* ===================================================================== *)









Section TwoBatches.

Context {E : Env}.
Implicit Types (st : State E) (newIssue : NewIssue) (batch : list jsval)
  (cs : list Candidate).







End TwoBatches.



(** The loop of [analyzeIssueSimilarity] never runs out of fuel: once the
    fuel covers the batches that are left, more fuel changes nothing. *)
Lemma batch_loop_fuel {E : Env} (newIssue : NewIssue) (existingIssues : list jsval)
    (fuel fuel' i : nat) (results : list SimilarIssue) (st : State E) :
  length existingIssues <= i + 5 * fuel -> fuel <= fuel' ->
  DuplicateDetectionService.batch_loop newIssue existingIssues fuel' i results st
  = DuplicateDetectionService.batch_loop newIssue existingIssues fuel i results st.
Proof.
  revert fuel' i results st.
  induction fuel as [|fuel IH]; intros fuel' i results st Hlen Hle.
  - destruct fuel' as [|fuel']; [reflexivity |].
    cbn [DuplicateDetectionService.batch_loop].
    destruct (Nat.ltb_spec i (length existingIssues)); [lia | reflexivity].
  - destruct fuel' as [|fuel']; [lia |].
    cbn [DuplicateDetectionService.batch_loop].
    destruct (i <? length existingIssues)%nat; [| reflexivity].
    unfold bind at 1 3.
    destruct (DuplicateDetectionService.analyzeBatch newIssue _ st)
      as [[batchResults|e] st1]; [| reflexivity].
    unfold bind at 1 2.
    destruct ((if (i + DuplicateDetectionService.batchSize <? length existingIssues)%nat
               then sleep 500 else ret tt) st1) as [[u|e] st2]; [| reflexivity].
    apply IH; unfold DuplicateDetectionService.batchSize; lia.
Qed.

Lemma batch_loop_enough_fuel {E : Env} (newIssue : NewIssue)
    (existingIssues : list jsval) (extra : nat) (st : State E) :
  DuplicateDetectionService.batch_loop newIssue existingIssues
    (length existingIssues + extra) 0 [] st
  = DuplicateDetectionService.batch_loop newIssue existingIssues
      (length existingIssues) 0 [] st.
Proof. apply batch_loop_fuel; lia. Qed.

(* ===================================================================== *)
(** * Properties of the orchestrator                                       *)
(* ===================================================================== *)

Section Orchestrator.

Context {E : Env}.
Implicit Types (st : State E) (projectKey title description : string).

Lemma extractKeywords_total title description st :
  exists keywords st',
    DuplicateDetectionService.extractKeywords title description st = (Ok keywords, st').
Proof.
  unfold DuplicateDetectionService.extractKeywords, try_catch, bind, call_world, ret, throw.
  destruct (openai_create E _ (world st)) as [[[|[[| | | | |l|]|]]|e] w]; eauto.
Qed.

Lemma fallbackSearch_total projectKey title st :
  exists found st',
    DuplicateDetectionService.fallbackSearch projectKey title st = (Ok found, st').
Proof.
  unfold DuplicateDetectionService.fallbackSearch, try_catch, bind, call_world, ret, lift.
  destruct (fetch E _ (world st)) as [[[[] [data|e']]|e] w]; eauto.
Qed.

(** Candidate search never throws. *)
Lemma searchSimilarIssues_total projectKey title description st :
  exists found st',
    DuplicateDetectionService.searchSimilarIssues projectKey title description st
    = (Ok found, st').
Proof.
  unfold DuplicateDetectionService.searchSimilarIssues, try_catch.
  unfold bind at 1.
  destruct (extractKeywords_total title description st) as (keywords & st1 & ->).
  unfold bind at 1. unfold lift at 1.
  destruct (Array_map DuplicateDetectionService.interpolate keywords) as [us|e];
    [| apply fallbackSearch_total].
  unfold bind at 1. unfold call_world.
  destruct (fetch E _ (world st1)) as [[[[] [data|e']]|e] w]; cbn [ok json negb].
  - unfold bind, lift, ret. eauto.
  - unfold bind, lift. apply fallbackSearch_total.
  - destruct (fallbackSearch_total projectKey title
                (mkState w (retryAttempts st1) (trace st1))) as (found & st' & Hf).
    rewrite Hf. eauto.
  - destruct (fallbackSearch_total projectKey title
                (mkState w (retryAttempts st1) (trace st1))) as (found & st' & Hf).
    rewrite Hf. eauto.
  - apply fallbackSearch_total.
Qed.

Lemma fallbackSearch_down projectKey title st :
  gateway_down E ->
  exists st', DuplicateDetectionService.fallbackSearch projectKey title st = (Ok [], st').
Proof.
  intros Hdown.
  unfold DuplicateDetectionService.fallbackSearch, try_catch, bind, call_world, ret, lift.
  destruct (Hdown (TextSearch projectKey
                     (join " " (take 3 (split_on (fun c => (nat_of_ascii c =? 32)%nat)
                                          false title))))
              (world st)) as [e He].
  destruct (fetch E _ (world st)) as [o w]. cbn [fst] in He. subst o. eauto.
Qed.

(** With the gateway down, candidate search finds nothing. *)
Lemma searchSimilarIssues_down projectKey title description st :
  gateway_down E ->
  exists st',
    DuplicateDetectionService.searchSimilarIssues projectKey title description st
    = (Ok [], st').
Proof.
  intros Hdown.
  unfold DuplicateDetectionService.searchSimilarIssues, try_catch.
  unfold bind at 1.
  destruct (extractKeywords_total title description st) as (keywords & st1 & ->).
  unfold bind at 1. unfold lift at 1.
  destruct (Array_map DuplicateDetectionService.interpolate keywords) as [us|e];
    [| apply fallbackSearch_down, Hdown].
  unfold bind at 1. unfold call_world.
  destruct (Hdown (JqlSearch projectKey keywords) (world st1)) as [e He].
  destruct (fetch E _ (world st1)) as [o w]. cbn [fst] in He. subst o.
  apply fallbackSearch_down, Hdown.
Qed.

Lemma generateRecommendations_nonempty (l : list SimilarIssue) :
  DuplicateDetectionService.generateRecommendations l <> [].
Proof.
  unfold DuplicateDetectionService.generateRecommendations.
  destruct l as [|r l]; [discriminate |].
  intros H. apply app_eq_nil in H as [_ H]. apply app_eq_nil in H as [_ H].
  discriminate H.
Qed.

(** C1: whatever the project key, title and description, and whatever the
    generation service, the gateway and the user do, [checkForDuplicates]
    returns an analysis and never throws; its recommendations are never
    empty; when its own flow fails, the analysis is the cautious verdict
    (no potential duplicates, the one cautionary recommendation); and when
    the gateway fails on every request, it reports no potential
    duplicates. *)
Theorem C1_checkForDuplicates_never_raises projectKey title description st :
  exists analysis st',
    DuplicateDetectionService.checkForDuplicates projectKey title description st
    = (Ok analysis, st')
    /\ recommendations analysis <> []
    /\ (forall e st1,
          DuplicateDetectionService.checkForDuplicates_try projectKey title description st
          = (Throw e, st1) ->
          analysis = cautious_verdict
          /\ hasPotentialDuplicates analysis = false)
    /\ (gateway_down E -> hasPotentialDuplicates analysis = false).
Proof.
  unfold DuplicateDetectionService.checkForDuplicates, try_catch.
  destruct (DuplicateDetectionService.checkForDuplicates_try projectKey title description st)
    as [[analysis|e] st1] eqn:Htry.
  - exists analysis, st1. split; [reflexivity |].
    unfold DuplicateDetectionService.checkForDuplicates_try in Htry.
    unfold bind at 1 in Htry.
    destruct (DuplicateDetectionService.searchSimilarIssues projectKey title description st)
      as [[found|e] st2] eqn:Hsearch; [| discriminate Htry].
    destruct (length found =? 0)%nat eqn:Hnone.
    + injection Htry as <- _. split; [discriminate |]. split; [discriminate | reflexivity].
    + unfold bind in Htry.
      destruct (DuplicateDetectionService.analyzeIssueSimilarity _ found st2)
        as [[results|e] st3]; [| discriminate Htry].
      injection Htry as <- _. cbn [recommendations hasPotentialDuplicates].
      split; [apply generateRecommendations_nonempty |]. split; [discriminate |].
      intros Hdown.
      destruct (searchSimilarIssues_down projectKey title description st Hdown)
        as [st' Hnothing].
      rewrite Hnothing in Hsearch. injection Hsearch as <- _. discriminate Hnone.
  - unfold bind.
    destruct (handleError_total e (Some "duplicate-detection") st1) as (b & st2 & ->).
    exists cautious_verdict, st2. split; [reflexivity |].
    split; [discriminate |]. split; [| reflexivity].
    intros _ _ _. split; reflexivity.
Qed.

(** C3: when candidate search finds something and the scorer returns, the
    similar issues of the analysis are exactly the scorer's results whose
    similarity is strictly greater than 0.6: a result at exactly 0.6 is left
    out, any result above 0.6 (0.61, say) is kept, and potential duplicates
    are reported if and only if some result is above 0.6. *)
Theorem C3_strict_threshold projectKey title description st
    (found : list jsval) st1 (results : list SimilarIssue) st2 :
  DuplicateDetectionService.searchSimilarIssues projectKey title description st
  = (Ok found, st1) ->
  found <> [] ->
  DuplicateDetectionService.analyzeIssueSimilarity (mkNewIssue title description) found st1
  = (Ok results, st2) ->
  exists analysis,
    DuplicateDetectionService.checkForDuplicates projectKey title description st
    = (Ok analysis, st2)
    /\ similarIssues analysis = filter significant results
    /\ (forall r q, r ∈ results -> similarity r = Fin q ->
          ((q == 0.6)%Q -> r ∉ similarIssues analysis)
          /\ ((0.6 < q)%Q -> r ∈ similarIssues analysis))
    /\ (hasPotentialDuplicates analysis = true
        <-> exists r, r ∈ results /\ significant r).
Proof.
  intros Hsearch Hfound Hscore.
  unfold DuplicateDetectionService.checkForDuplicates, try_catch.
  unfold DuplicateDetectionService.checkForDuplicates_try. unfold bind at 1.
  rewrite Hsearch.
  destruct found as [|issue found]; [contradiction |]. cbn [length Nat.eqb].
  unfold bind. rewrite Hscore. unfold ret.
  eexists. split; [reflexivity |]. cbn [similarIssues hasPotentialDuplicates].
  split; [reflexivity |]. split.
  - intros r q Hr Hq. split.
    + intros Heq Hin. apply list_elem_of_filter in Hin as [Hsig _].
      unfold significant in Hsig. rewrite Hq in Hsig. cbn in Hsig.
      apply negb_true_iff in Hsig.
      assert (Qle_bool q 0.6 = true) by (apply Qle_bool_iff; rewrite Heq; apply Qle_refl).
      congruence.
    + intros Hlt. apply list_elem_of_filter. split; [| exact Hr].
      unfold significant. rewrite Hq. cbn. apply negb_true_iff.
      destruct (Qle_bool q 0.6) eqn:Hle; [| reflexivity].
      apply Qle_bool_iff in Hle. lra.
  - change (filter (fun result => num_gt (similarity result) (Fin 0.6) = true) results)
      with (filter significant results).
    destruct (filter significant results) as [|r rs] eqn:Hsig; cbn [length Nat.ltb Nat.leb].
    + split; [discriminate |]. intros (r & Hr & Hs).
      assert (r ∈ filter significant results) as Hin
          by (apply list_elem_of_filter; split; assumption).
      rewrite Hsig in Hin. inversion Hin.
    + split; [| reflexivity]. intros _. exists r.
      assert (r ∈ filter significant results) as Hin by (rewrite Hsig; left).
      apply list_elem_of_filter in Hin. tauto.
Qed.

End Orchestrator.

Lemma C3_strict_threshold_witness :
  let E := tracker [candidate login_bug; candidate logout_bug]
             (VArr [entry 1 0.6 "related"; entry 2 0.61 "likely the same"]) in
  exists analysis st',
    DuplicateDetectionService.checkForDuplicates (E := E)
      "WEB" "Cannot log in" "Login fails with error 500"
      (mkState (E := E) Script.start ∅ [])
    = (Ok analysis, st')
    /\ map key (similarIssues analysis) = [VStr "WEB-102"]
    /\ map similarity (similarIssues analysis) = [Fin 0.61]
    /\ hasPotentialDuplicates analysis = true.
Proof.
  cbv zeta.
  pose (E := tracker [candidate login_bug; candidate logout_bug]
               (VArr [entry 1 0.6 "related"; entry 2 0.61 "likely the same"])).
  pose (st := mkState (E := E) Script.start ∅ []).
  pose (search := DuplicateDetectionService.searchSimilarIssues (E := E)
                    "WEB" "Cannot log in" "Login fails with error 500" st).
  pose (score := DuplicateDetectionService.analyzeIssueSimilarity (E := E)
                   (mkNewIssue "Cannot log in" "Login fails with error 500")
                   [candidate login_bug; candidate logout_bug] (snd search)).
  destruct (C3_strict_threshold (E := E)
              "WEB" "Cannot log in" "Login fails with error 500" st
              [candidate login_bug; candidate logout_bug] (snd search)
              (match fst score with Ok rs => rs | Throw _ => [] end) (snd score))
    as (analysis & Hrun & Hsimilar & _ & _).
  - vm_compute. reflexivity.
  - discriminate.
  - vm_compute. reflexivity.
  - exists analysis, (snd score). split; [exact Hrun |].
    vm_compute in Hrun. injection Hrun as <-. repeat split.
Defined.

(** The [catch] clause of [checkForDuplicates] at work: the gateway returns
    a record that is [null], reading it throws, and the analysis is the
    cautious verdict. *)
Example malformed_record_is_caught :
  let E := tracker [VNull] (VArr []) in
  let st := mkState (E := E) Script.start ∅ [] in
  (exists e st1,
     DuplicateDetectionService.checkForDuplicates_try (E := E) "WEB" "Cannot log in" "" st
     = (Throw e, st1))
  /\ exists st',
       DuplicateDetectionService.checkForDuplicates (E := E) "WEB" "Cannot log in" "" st
       = (Ok cautious_verdict, st').
Proof.
  cbv zeta. split; [do 2 eexists | eexists]; vm_compute; reflexivity.
Qed.

(** A score that is not a number leaves [analyzeBatch] as NaN; the filter
    of [analyzeIssueSimilarity] then drops the result. *)
Example score_in_words_is_dropped :
  let E := replying (VArr [VObj [("issueIndex", VNum (num_of_nat 1));
                               ("similarity", VStr "high")]]) in
  let st := mkState (E := E) Script.start ∅ [] in
  (exists r st',
     DuplicateDetectionService.analyzeBatch (E := E) (mkNewIssue "Cannot log in" "")
       [candidate login_bug] st = (Ok [r], st')
     /\ similarity r = NaN)
  /\ exists st',
       DuplicateDetectionService.analyzeIssueSimilarity (E := E)
         (mkNewIssue "Cannot log in" "") [candidate login_bug] st = (Ok [], st').
Proof.
  cbv zeta. split.
  - do 2 eexists. split; [vm_compute; reflexivity | reflexivity].
  - eexists. vm_compute. reflexivity.
Qed.

(** On candidate records the scorer always returns: no batch throws. *)
Lemma analyzeIssueSimilarity_total {E : Env} (newIssue : NewIssue)
    (existingIssues : list jsval) (cs : list Candidate) (st : State E) :
  candidates existingIssues cs ->
  exists rs st',
    DuplicateDetectionService.analyzeIssueSimilarity newIssue existingIssues st
    = (Ok rs, st').
Proof.
  intros Hcs. apply candidates_Forall2 in Hcs.
  assert (Hloop : forall fuel i results (s : State E),
             exists rs s',
               DuplicateDetectionService.batch_loop newIssue existingIssues fuel i results s
               = (Ok rs, s')).
  { induction fuel as [|fuel IH]; intros i results s; cbn [DuplicateDetectionService.batch_loop].
    - unfold ret. eauto.
    - destruct (i <? length existingIssues)%nat; [| unfold ret; eauto].
      unfold bind at 1.
      assert (Hslice : Forall2 (fun issue c => as_candidate issue = Some c)
                         (slice i (i + DuplicateDetectionService.batchSize) existingIssues)
                         (slice i (i + DuplicateDetectionService.batchSize) cs))
        by (unfold slice; apply Forall2_take, Forall2_drop, Hcs).
      destruct (analyzeBatch_candidates newIssue _ _ s Hslice) as (fs & _ & _ & ->).
      unfold bind at 1.
      destruct (i + DuplicateDetectionService.batchSize <? length existingIssues)%nat;
        apply IH. }
  unfold DuplicateDetectionService.analyzeIssueSimilarity, bind.
  destruct (Hloop (length existingIssues) 0 [] st) as (rs & s' & ->).
  unfold ret. eauto.
Qed.

(* ===================================================================== *)
(** * Further properties of the error handler                              *)
(* ===================================================================== *)

(** X1: an error that is not yet classified is never classified as a
    Validation error, never gets a status code, and is marked not retryable
    exactly when it is classified as an Authentication error. *)
Theorem X1_plain_error_classes (m : string) :
  let a := ErrorHandler.normalizeError (PlainError m) in
  type a <> VALIDATION_ERROR
  /\ statusCode a = None
  /\ (isRetryable a = false <-> type a = AUTHENTICATION_ERROR).
Proof.
  cbv zeta. unfold ErrorHandler.normalizeError. cbv zeta.
  repeat match goal with
         | |- context [if ?b then _ else _] =>
             lazymatch b with
             | String.eqb _ _ => fail
             | _ => destruct b
             end
         end;
    cbn [type statusCode isRetryable];
    (split; [discriminate | split; [reflexivity | split; (reflexivity || discriminate)]]).
Qed.

Section FurtherRetryController.

Context {E : Env}.
Implicit Types (st : State E) (error : Error) (context : option string).

(** X2: an error whose lower-cased message carries an authentication
    indicator (401, unauthorized, invalid api key) and no network indicator
    is classified as an Authentication error, whatever else the message
    mentions, and [handleError] refuses the retry without asking: it returns
    false and leaves the state as it was, whatever budget is left. *)
Theorem X2_authentication_failures_are_final (m : string) context st :
  network_indicator (toLowerCase m) = false ->
  auth_indicator (toLowerCase m) = true ->
  type (ErrorHandler.normalizeError (PlainError m)) = AUTHENTICATION_ERROR
  /\ ErrorHandler.handleError (PlainError m) context st = (Ok false, st).
Proof.
  intros Hnet Hauth. unfold network_indicator in Hnet. unfold auth_indicator in Hauth.
  assert (Hn : ErrorHandler.normalizeError (PlainError m)
               = mkAppError
                   "Authentication failed. Please check your API credentials in the .env file."
                   AUTHENTICATION_ERROR false None).
  { unfold ErrorHandler.normalizeError. cbv zeta. rewrite Hnet, Hauth. reflexivity. }
  split; [rewrite Hn; reflexivity |].
  apply handleError_not_retryable. rewrite Hn. reflexivity.
Qed.

Lemma handleError_result error context st :
  fst (ErrorHandler.handleError error context st)
  = Ok (isRetryable (ErrorHandler.normalizeError error)
        && (attempts_of st (ErrorHandler.context_or_default context)
            <? ErrorHandler.maxRetries)%nat
        && confirms (fst (inputField E (world st)))).
Proof.
  destruct (isRetryable (ErrorHandler.normalizeError error)) eqn:Hr.
  - destruct (Nat.ltb_spec (attempts_of st (ErrorHandler.context_or_default context))
                ErrorHandler.maxRetries) as [Hlt|Hge].
    + rewrite (handleError_prompts _ _ _ Hr Hlt). cbn [andb].
      destruct (confirms _); reflexivity.
    + rewrite (handleError_exhausted _ _ _ Hr Hge). reflexivity.
  - rewrite (handleError_not_retryable _ _ _ Hr). reflexivity.
Qed.

(** X3: the result of [handleError] is true exactly when the classified
    error is retryable, the context has fewer than [maxRetries] attempts
    counted, and the user's answer starts with y or Y; it never throws. *)
Theorem X3_when_a_retry_is_granted error context st :
  fst (ErrorHandler.handleError error context st)
  = Ok (isRetryable (ErrorHandler.normalizeError error)
        && (attempts_of st (ErrorHandler.context_or_default context)
            <? ErrorHandler.maxRetries)%nat
        && confirms (fst (inputField E (world st)))).
Proof. apply handleError_result. Qed.

(** X4: [handleError] touches the counter of its own context only, and a
    counter never grows beyond [maxRetries]: afterwards every context's
    counter is at most the larger of its old value and [maxRetries], and the
    counter of any other context is what it was. *)
Theorem X4_counters_stay_bounded error context st (c : string) :
  let st' := snd (ErrorHandler.handleError error context st) in
  attempts_of st' c <= Nat.max (attempts_of st c) ErrorHandler.maxRetries
  /\ (c <> ErrorHandler.context_or_default context ->
      retryAttempts st' !! c = retryAttempts st !! c).
Proof.
  cbv zeta.
  destruct (isRetryable (ErrorHandler.normalizeError error)) eqn:Hr.
  - destruct (Nat.lt_ge_cases (attempts_of st (ErrorHandler.context_or_default context))
                ErrorHandler.maxRetries) as [Hlt|Hge].
    + rewrite (handleError_prompts _ _ _ Hr Hlt).
      destruct (confirms _); cbn [snd]; unfold attempts_of; cbn [retryAttempts].
      * destruct (decide (c = ErrorHandler.context_or_default context)) as [->|Hne].
        -- rewrite lookup_insert_eq. simpl (default 0 (Some _)).
           unfold attempts_of, ErrorHandler.maxRetries in *. split; [lia | congruence].
        -- rewrite lookup_insert_ne by congruence. split; [lia | reflexivity].
      * destruct (decide (c = ErrorHandler.context_or_default context)) as [->|Hne].
        -- rewrite lookup_delete_eq. simpl (default 0 None). split; [lia | congruence].
        -- rewrite lookup_delete_ne by congruence. split; [lia | reflexivity].
    + rewrite (handleError_exhausted _ _ _ Hr Hge). cbn [snd]. split; [lia | reflexivity].
  - rewrite (handleError_not_retryable _ _ _ Hr). cbn [snd]. split; [lia | reflexivity].
Qed.

(** X5: [retryDelay] waits one second at a time, [min (2 ^ n) 5] times for
    the attempt number [n] (1, 2, 4, then always 5 seconds), and does
    nothing else. *)
Theorem X5_backoff_is_capped (attemptNumber : nat) st :
  ErrorHandler.retryDelay attemptNumber st
  = (Ok tt,
     mkState (world st) (retryAttempts st)
       (trace st ++ replicate (Nat.min (2 ^ attemptNumber) 5) (EvSleep 1000))).
Proof.
  unfold ErrorHandler.retryDelay. cbv zeta. rewrite countdown_run.
  replace (Nat.min (1000 * 2 ^ attemptNumber) 5000 / 1000)
    with (Nat.min (2 ^ attemptNumber) 5); [reflexivity |].
  change 5000 with (1000 * 5). rewrite Nat.mul_min_distr_l.
  rewrite Nat.mul_comm, Nat.div_mul by discriminate. reflexivity.
Qed.

(** X6: for an error built by a static constructor the flag of the
    constructor decides and the message is not looked at: one built by
    [createAuthError] or [createValidationError] is never retried (no
    prompt, state unchanged), and one built by [createNetworkError],
    [createJiraError] or [createOpenAIError] keeps its kind and status code
    and is retried exactly when budget is left and the user confirms. *)
Theorem X6_constructed_errors_keep_their_flag (m : string) (code : option Z)
    context st :
  let granted := (attempts_of st (ErrorHandler.context_or_default context)
                  <? ErrorHandler.maxRetries)%nat
                 && confirms (fst (inputField E (world st))) in
  ErrorHandler.handleError (IsAppError (createAuthError m)) context st = (Ok false, st)
  /\ ErrorHandler.handleError (IsAppError (createValidationError m)) context st
     = (Ok false, st)
  /\ fst (ErrorHandler.handleError (IsAppError (createNetworkError m)) context st)
     = Ok granted
  /\ fst (ErrorHandler.handleError (IsAppError (createJiraError m code)) context st)
     = Ok granted
  /\ fst (ErrorHandler.handleError (IsAppError (createOpenAIError m)) context st)
     = Ok granted
  /\ ErrorHandler.normalizeError (IsAppError (createJiraError m code))
     = createJiraError m code.
Proof.
  cbv zeta. repeat split; try (apply handleError_not_retryable; reflexivity);
    try (rewrite handleError_result; reflexivity).
Qed.

End FurtherRetryController.

Lemma X2_authentication_failures_are_final_witness :
  let st := mkState (E := Script.offline "yes") Script.start ∅ [] in
  type (ErrorHandler.normalizeError
          (PlainError "OpenAI request failed with status code 401"))
  = AUTHENTICATION_ERROR
  /\ ErrorHandler.handleError (PlainError "OpenAI request failed with status code 401")
       (Some "fetch-projects") st
     = (Ok false, st).
Proof.
  cbv zeta.
  apply (X2_authentication_failures_are_final (E := Script.offline "yes")
           "OpenAI request failed with status code 401" (Some "fetch-projects")
           (mkState (E := Script.offline "yes") Script.start ∅ []));
    reflexivity.
Defined.

Lemma X4_counters_stay_bounded_witness :
  let st := mkState (E := Script.offline "yes") Script.start
              (<["create-issue" := 1]> {["fetch-projects" := 3]}) [] in
  let st' := snd (ErrorHandler.handleError (PlainError "socket hang up")
                    (Some "create-issue") st) in
  attempts_of st' "fetch-projects" <= Nat.max (attempts_of st "fetch-projects") 3
  /\ retryAttempts st' !! "fetch-projects" = Some 3.
Proof.
  cbv zeta.
  destruct (X4_counters_stay_bounded (E := Script.offline "yes")
              (PlainError "socket hang up") (Some "create-issue")
              (mkState (E := Script.offline "yes") Script.start
                 (<["create-issue" := 1]> {["fetch-projects" := 3]}) [])
              "fetch-projects") as [Hbound Hframe].
  split; [exact Hbound |].
  rewrite Hframe; [reflexivity | discriminate].
Defined.

(* ===================================================================== *)
(** * Further properties of the operation runner                           *)
(* ===================================================================== *)

Section FurtherOperationRunner.

Context {E : Env} {T : Type}.
Variable operation : World E -> settled T * World E.
Variable context : string.

Local Abbreviation ctx := (ErrorHandler.context_or_default (Some context)).

(** Where the rejection of [makeRequest] comes from.  [lastError], when
    there is one, is the rejection of an earlier invocation. *)
Lemma makeRequest_loop_outcome (maxRetries : jsnum) (fuel attempt : nat) lastError
    (st : State E) :
  match lastError with
  | Some error => exists w, fst (operation w) = Rejected error
  | None => attempt = 0 /\ 0 < fuel
  end ->
  let result :=
    fst (APIWrapper.makeRequest_loop operation context maxRetries fuel attempt lastError st)
  in
  (exists w, result = fst (operation w))
  \/ (exists w v e (s : State E),
        fst (operation w) = Rejected (AValue v)
        /\ fst (ErrorHandler.handleError_caught (AValue v) (Some context) s) = Throw e
        /\ result = Rejected (AnError e))
  \/ (num_le (Fin 0) maxRetries = false /\ result = Rejected (AValue VUndef)).
Proof.
  revert attempt lastError st.
  induction fuel as [|fuel IH]; intros attempt lastError st Hlast; cbv zeta.
  - destruct lastError as [error|]; [| lia].
    destruct Hlast as [w Hw]. left. exists w. rewrite Hw. reflexivity.
  - cbn [APIWrapper.makeRequest_loop].
    destruct (num_le (num_of_nat attempt) maxRetries) eqn:Htest.
    + destruct (operation (world st)) as [[a|error] w] eqn:Hop.
      * left. exists (world st). rewrite Hop. reflexivity.
      * destruct (num_eq (num_of_nat attempt) maxRetries).
        { left. exists (world st). rewrite Hop. reflexivity. }
        destruct (ErrorHandler.handleError_caught error (Some context) _)
          as [[[|]|e'] s'] eqn:Hh; cbn [negb fst].
        -- apply IH. exists (world st). rewrite Hop. reflexivity.
        -- left. exists (world st). rewrite Hop. reflexivity.
        -- destruct error as [e|v].
           ++ cbn [ErrorHandler.handleError_caught] in Hh.
              destruct (handleError_total e (Some context)
                          (mkState w (retryAttempts st) (trace st ++ [EvInvoke])))
                as (b & s'' & Hok).
              rewrite Hok in Hh. discriminate Hh.
           ++ right; left. exists (world st), v, e'. eexists.
              rewrite Hop, Hh. repeat split.
    + destruct lastError as [error|].
      * destruct Hlast as [w Hw]. left. exists w. rewrite Hw. reflexivity.
      * destruct Hlast as [-> _]. right; right. split; [exact Htest | reflexivity].
Qed.

(** X7: where the result of [makeRequest] comes from.  It is how some
    invocation of the operation settled (its value, or its rejection
    unchanged), with two exceptions.  When the operation rejects with a value
    that is no [Error] object and that cannot be classified (it has no
    message that is a string), the exception of the classification takes the
    place of the rejection.  And when the budget is no number from 0 up
    (negative, or NaN), the operation is never invoked and [makeRequest]
    rejects with [undefined]. *)
Theorem X7_result_comes_from_the_operation (maxRetries : jsnum) (st : State E) :
  let result := fst (APIWrapper.makeRequest operation context maxRetries st) in
  (exists w, result = fst (operation w))
  \/ (exists w v e (s : State E),
        fst (operation w) = Rejected (AValue v)
        /\ fst (ErrorHandler.handleError_caught (AValue v) (Some context) s) = Throw e
        /\ result = Rejected (AnError e))
  \/ (num_le (Fin 0) maxRetries = false /\ result = Rejected (AValue VUndef)).
Proof.
  apply makeRequest_loop_outcome. split; [reflexivity |].
  unfold ErrorHandler.maxRetries. lia.
Qed.

Lemma makeRequest_loop_success (maxRetries : jsnum) (fuel attempt : nat) lastError
    (st st' : State E) a :
  APIWrapper.makeRequest_loop operation context maxRetries fuel attempt lastError st
  = (Fulfilled a, st') ->
  attempts_of st' ctx + invocations (trace st) + 1
  = attempts_of st ctx + invocations (trace st').
Proof.
  revert attempt lastError st.
  induction fuel as [|fuel IH]; intros attempt lastError st H; [discriminate H |].
  cbn [APIWrapper.makeRequest_loop] in H.
  destruct (num_le (num_of_nat attempt) maxRetries); [| discriminate H].
  destruct (operation (world st)) as [[a0|error] w].
  - injection H as _ <-. unfold attempts_of. cbn [retryAttempts trace].
    rewrite invocations_app, invocations_invoke. lia.
  - destruct (num_eq (num_of_nat attempt) maxRetries); [discriminate H |].
    destruct (ErrorHandler.handleError_caught error (Some context) _)
      as [[[|]|e'] s'] eqn:Hh; cbn [negb] in H; try discriminate H.
    apply handleError_caught_granted in Hh as (_ & Hup & Hinv).
    apply IH in H. unfold attempts_of in Hup. cbn [retryAttempts trace] in Hup, Hinv.
    rewrite invocations_app, invocations_invoke in Hinv.
    unfold attempts_of in *. lia.
Qed.

(** X8: [makeRequest] never resets the retry counter.  When it succeeds, the
    counter of the context has grown by the number of retries it took (one
    less than the number of invocations), so the retries stay used up in the
    handler of the runner. *)
Theorem X8_success_keeps_retries_counted (maxRetries : jsnum) (st st' : State E) (a : T) :
  APIWrapper.makeRequest operation context maxRetries st = (Fulfilled a, st') ->
  attempts_of st' ctx + invocations (trace st) + 1
  = attempts_of st ctx + invocations (trace st').
Proof. apply makeRequest_loop_success. Qed.

(** X9: when the first failure is retryable, budget is left, the runner
    allows a retry ([maxRetries > 0]) and the user declines, [makeRequest]
    throws that failure unchanged after the one invocation and the one
    prompt, and the counter of the context is removed. *)
Theorem X9_declined_retry (n : nat) (st : State E) (e : Error) (w : World E) :
  0 < n ->
  operation (world st) = (Rejected (AnError e), w) ->
  isRetryable (ErrorHandler.normalizeError e) = true ->
  attempts_of st ctx < ErrorHandler.maxRetries ->
  confirms (fst (inputField E w)) = false ->
  APIWrapper.makeRequest operation context (num_of_nat n) st
  = (Rejected (AnError e),
     mkState (snd (inputField E w)) (delete ctx (retryAttempts st))
       (trace st ++ [EvInvoke; EvPrompt ctx (attempts_of st ctx + 1)])).
Proof.
  intros Hn Hop Hr Hlt Hno.
  unfold APIWrapper.makeRequest. change (ErrorHandler.maxRetries + 1) with 4.
  cbn [APIWrapper.makeRequest_loop]. rewrite num_le_of_nat, num_eq_of_nat.
  cbn [Nat.leb]. rewrite Hop. destruct (Nat.eqb_spec 0 n) as [|_]; [lia |].
  cbn [ErrorHandler.handleError_caught].
  pose proof (handleError_prompts e (Some context)
                (mkState w (retryAttempts st) (trace st ++ [EvInvoke])) Hr) as Hh.
  cbn [world retryAttempts trace] in Hh.
  unfold attempts_of in Hh at 1. cbn [retryAttempts] in Hh.
  specialize (Hh Hlt). cbv zeta in Hh. rewrite Hno in Hh. rewrite Hh. cbn [negb].
  unfold attempts_of. cbn [retryAttempts]. rewrite <- app_assoc. reflexivity.
Qed.

Lemma makeRequest_loop_budget (maxRetries : jsnum) (fuel attempt : nat) lastError
    (st : State E) :
  invocations
    (trace (snd (APIWrapper.makeRequest_loop operation context maxRetries fuel attempt
                   lastError st)))
  <= invocations (trace st) + (ErrorHandler.maxRetries - attempts_of st ctx) + 1.
Proof.
  revert attempt lastError st.
  induction fuel as [|fuel IH]; intros attempt lastError st.
  - simpl. lia.
  - cbn [APIWrapper.makeRequest_loop].
    destruct (num_le (num_of_nat attempt) maxRetries); [| cbn [snd]; lia].
    destruct (operation (world st)) as [[a|error] w].
    + cbn [snd trace]. rewrite invocations_app, invocations_invoke. lia.
    + destruct (num_eq (num_of_nat attempt) maxRetries).
      * cbn [snd trace]. rewrite invocations_app, invocations_invoke. lia.
      * pose proof (handleError_caught_invocations error (Some context)
                      (mkState w (retryAttempts st) (trace st ++ [EvInvoke]))) as Hinv.
        destruct (ErrorHandler.handleError_caught error (Some context) _)
          as [[[|]|e'] s'] eqn:Hh;
          cbn [negb snd trace] in *;
          rewrite invocations_app, invocations_invoke in Hinv; try lia.
        apply handleError_caught_granted in Hh as (Hlt & Hup & _).
        specialize (IH (attempt + 1) (Some error) s').
        unfold attempts_of in Hlt, Hup. cbn [retryAttempts] in Hlt, Hup.
        unfold attempts_of in *. lia.
Qed.

(** X10: the handler's own budget bounds the runner whatever budget the
    caller passes: [makeRequest] invokes the operation at most
    [maxRetries + 1] times for its argument [maxRetries], and at most once
    more than the context has attempts left of the handler's three. *)
Theorem X10_two_budgets (n : nat) (st : State E) :
  invocations (trace (snd (APIWrapper.makeRequest operation context (num_of_nat n) st)))
  <= invocations (trace st)
     + Nat.min (n + 1) (ErrorHandler.maxRetries - attempts_of st ctx + 1).
Proof.
  pose proof (makeRequest_invocations_bound operation context n st) as H1.
  pose proof (makeRequest_loop_budget (num_of_nat n) (ErrorHandler.maxRetries + 1) 0 None st)
    as H2.
  fold (APIWrapper.makeRequest operation context (num_of_nat n) st) in H2. lia.
Qed.

End FurtherOperationRunner.

Lemma X8_success_keeps_retries_counted_witness :
  let E := Script.offline "y" in
  let st := mkState (E := E) Script.start ∅ [] in
  let run := APIWrapper.makeRequest (E := E) (flaky 2) "create-issue" (Fin 3) st in
  fst run = Fulfilled "WEB-200"
  /\ attempts_of (snd run) "create-issue" = 2
  /\ invocations (trace (snd run)) = 3.
Proof.
  cbv zeta.
  pose proof (X8_success_keeps_retries_counted (E := Script.offline "y")
                (flaky 2) "create-issue" (Fin 3)
                (mkState (E := Script.offline "y") Script.start ∅ [])
                (snd (APIWrapper.makeRequest (E := Script.offline "y") (flaky 2)
                        "create-issue" (Fin 3)
                        (mkState (E := Script.offline "y") Script.start ∅ [])))
                "WEB-200") as H.
  split; [vm_compute; reflexivity |].
  assert (Hinv : invocations
                   (trace (snd (APIWrapper.makeRequest (E := Script.offline "y") (flaky 2)
                                  "create-issue" (Fin 3)
                                  (mkState (E := Script.offline "y") Script.start ∅ []))))
                 = 3) by (vm_compute; reflexivity).
  split; [| exact Hinv].
  rewrite Hinv in H.
  change (ErrorHandler.context_or_default (Some "create-issue")) with "create-issue" in H.
  change (attempts_of (mkState (E := Script.offline "y") Script.start ∅ []) "create-issue")
    with 0 in H.
  change (invocations (trace (mkState (E := Script.offline "y") Script.start ∅ [])))
    with 0 in H.
  specialize (H ltac:(vm_compute; reflexivity)). lia.
Defined.

Lemma X9_declined_retry_witness :
  let E := Script.offline "no" in
  let st := mkState (E := E) Script.start {["create-issue" := 1]} [] in
  APIWrapper.makeRequest (E := E) (flaky 5) "create-issue" (num_of_nat 3) st
  = (Rejected (AnError (PlainError "socket hang up")),
     mkState (E := E) (Script.mkCounters 0 0 1 1) ∅
       [EvInvoke; EvPrompt "create-issue" 2]).
Proof.
  cbv zeta.
  rewrite (X9_declined_retry (E := Script.offline "no") (flaky 5) "create-issue" 3
             (mkState (E := Script.offline "no") Script.start {["create-issue" := 1]} [])
             (PlainError "socket hang up") (Script.mkCounters 0 0 0 1));
    [vm_compute; reflexivity | lia | reflexivity | reflexivity | vm_compute; lia
     | reflexivity].
Defined.

(** The two exceptions of X7 at work: an operation that rejects with a text
    makes [makeRequest] reject with the [TypeError] of the classification
    after the one invocation, and with a negative budget [makeRequest]
    rejects with [undefined] without invoking the operation. *)
Example rejections_of_the_runner_itself :
  let st := mkState (E := confirming) Script.start ∅ [] in
  let rejecting_text : Script.Counters -> settled unit * Script.Counters :=
    Script.operation (fun _ => Rejected (AValue (VStr "boom"))) in
  APIWrapper.makeRequest (E := confirming) rejecting_text "create-issue" (Fin 3) st
  = (Rejected (AnError
       (TypeError "Cannot read properties of undefined (reading 'toLowerCase')")),
     mkState (E := confirming) (Script.mkCounters 0 0 0 1) ∅ [EvInvoke])
  /\ APIWrapper.makeRequest (E := confirming) always_failing "create-issue" (Fin (-1)) st
     = (Rejected (AValue VUndef), st).
Proof. cbv zeta. split; vm_compute; reflexivity. Qed.

(* ===================================================================== *)
(** * Further properties of the scorer                                     *)
(* ===================================================================== *)

Lemma pauses_step (n i : nat) :
  i + 5 < n -> (n - i - 1) / 5 = S ((n - (i + 5) - 1) / 5).
Proof.
  intros H. replace (n - i - 1) with ((n - (i + 5) - 1) + 1 * 5) by lia.
  rewrite Nat.div_add by discriminate. lia.
Qed.

Lemma pauses_last (n i : nat) : ~ i + 5 < n -> (n - i - 1) / 5 = 0.
Proof. intros H. apply Nat.div_small. lia. Qed.

Section FurtherScorer.

Context {E : Env}.
Implicit Types (st : State E) (newIssue : NewIssue) (batch : list jsval)
  (cs : list Candidate).

Lemma analyzeBatch_candidates_copies newIssue batch cs st :
  Forall2 (fun issue c => as_candidate issue = Some c) batch cs ->
  exists rs w,
    DuplicateDetectionService.analyzeBatch newIssue batch st
    = (Ok rs, mkState w (retryAttempts st) (trace st))
    /\ Forall2 copies cs rs.
Proof.
  intros Hcs.
  destruct (analyzeBatch_candidates newIssue batch cs st Hcs) as (fs & Hfs & Hdeg & Hrun).
  cbv zeta in Hrun. rewrite Hrun. do 2 eexists. split; [reflexivity |].
  assert (Hcopies : Forall2 copies cs fs).
  { eapply Forall2_impl; [exact Hdeg |]. intros c r [Hc _]. exact Hc. }
  destruct (fst _) as [[|[v|]]|e]; try exact Hcopies.
  destruct (DuplicateDetectionService.map_analyzed v 0 batch) as [rs|e] eqn:Hm;
    [| exact Hcopies].
  eapply map_analyzed_copies; eassumption.
Qed.

(** The loop of the scorer on candidate records: one result per candidate,
    in order, and a pause after every batch but the last. *)
Lemma batch_loop_candidates newIssue (existingIssues : list jsval) cs :
  Forall2 (fun issue c => as_candidate issue = Some c) existingIssues cs ->
  forall fuel i results st,
    length existingIssues <= i + 5 * fuel ->
    Forall2 copies (take i cs) results ->
    exists rs st',
      DuplicateDetectionService.batch_loop newIssue existingIssues fuel i results st
      = (Ok rs, st')
      /\ Forall2 copies cs rs
      /\ retryAttempts st' = retryAttempts st
      /\ trace st' = trace st
                     ++ replicate ((length existingIssues - i - 1) / 5) (EvSleep 500).
Proof.
  intros Hcs. pose proof (Forall2_length _ _ _ Hcs) as Hlen.
  assert (Hdone : forall i results st,
             length existingIssues <= i ->
             Forall2 copies (take i cs) results ->
             Forall2 copies cs results
             /\ trace st = trace st
                           ++ replicate ((length existingIssues - i - 1) / 5) (EvSleep 500)).
  { intros i results st Hi Hres. split.
    - rewrite take_ge in Hres by lia. exact Hres.
    - rewrite pauses_last by lia. cbn. rewrite app_nil_r. reflexivity. }
  induction fuel as [|fuel IH]; intros i results st Hfuel Hres;
    cbn [DuplicateDetectionService.batch_loop].
  - unfold ret. do 2 eexists. split; [reflexivity |].
    destruct (Hdone i results st) as [H1 H2]; [lia | exact Hres |]. auto.
  - destruct (Nat.ltb_spec i (length existingIssues)) as [Hlt|Hge].
    2:{ unfold ret. do 2 eexists. split; [reflexivity |].
        destruct (Hdone i results st) as [H1 H2]; [lia | exact Hres |]. auto. }
    assert (Hslice : Forall2 (fun issue c => as_candidate issue = Some c)
                       (slice i (i + DuplicateDetectionService.batchSize) existingIssues)
                       (slice i (i + DuplicateDetectionService.batchSize) cs))
      by (unfold slice; apply Forall2_take, Forall2_drop, Hcs).
    destruct (analyzeBatch_candidates_copies newIssue _ _ st Hslice)
      as (batchResults & w & Hbatch & Hcopies).
    unfold bind at 1. rewrite Hbatch. unfold bind at 1.
    assert (Hnext : Forall2 copies (take (i + 5) cs) (results ++ batchResults)).
    { rewrite <- take_take_drop. apply Forall2_app; [exact Hres |].
      unfold slice, DuplicateDetectionService.batchSize in Hcopies.
      replace (i + 5 - i) with 5 in Hcopies by lia. exact Hcopies. }
    unfold DuplicateDetectionService.batchSize.
    destruct (Nat.ltb_spec (i + 5) (length existingIssues)) as [Hmore|Hlast].
    + unfold sleep, emit. cbn [world retryAttempts trace].
      destruct (IH (i + 5) (results ++ batchResults)
                  (mkState w (retryAttempts st) (trace st ++ [EvSleep 500])))
        as (rs & st' & Hrun & Hall & Hmap & Htrace); [lia | exact Hnext |].
      exists rs, st'. split; [exact Hrun |]. split; [exact Hall |].
      split; [exact Hmap |]. rewrite Htrace. cbn [trace].
      rewrite (pauses_step _ i Hmore). cbn [replicate].
      rewrite <- app_assoc. reflexivity.
    + unfold ret at 1.
      destruct (IH (i + 5) (results ++ batchResults)
                  (mkState w (retryAttempts st) (trace st)))
        as (rs & st' & Hrun & Hall & Hmap & Htrace); [lia | exact Hnext |].
      exists rs, st'. split; [exact Hrun |]. split; [exact Hall |].
      split; [exact Hmap |]. rewrite Htrace. cbn [trace].
      rewrite (pauses_last _ i) by lia. rewrite (pauses_last _ (i + 5)) by lia.
      reflexivity.
Qed.

(** X11: on [n] candidate records the scorer never throws and adds to the
    trace exactly [(n - 1) / 5] pauses of 500 ms, one less than the number
    of batches of five (none for up to five candidates, and none for no
    candidate), and nothing else: it shows no prompt and leaves the retry
    map alone. *)
Theorem X11_pauses_between_batches newIssue (existingIssues : list jsval) cs st :
  candidates existingIssues cs ->
  exists out st',
    DuplicateDetectionService.analyzeIssueSimilarity newIssue existingIssues st
    = (Ok out, st')
    /\ trace st' = trace st
                   ++ replicate ((length existingIssues - 1) / 5) (EvSleep 500)
    /\ retryAttempts st' = retryAttempts st.
Proof.
  intros Hcs. apply candidates_Forall2 in Hcs.
  destruct (batch_loop_candidates newIssue existingIssues cs Hcs
              (length existingIssues) 0 [] st)
    as (rs & st' & Hrun & _ & Hmap & Htrace); [lia | constructor |].
  unfold DuplicateDetectionService.analyzeIssueSimilarity, bind. rewrite Hrun.
  unfold ret. do 2 eexists. split; [reflexivity |].
  rewrite Nat.sub_0_r in Htrace. auto.
Qed.

(** X12: on candidate records every result that the scorer returns carries
    the fields of one of the candidates, and there are at most as many
    results as candidates: the scorer invents no issue. *)
Theorem X12_results_are_candidates newIssue (existingIssues : list jsval) cs st :
  candidates existingIssues cs ->
  exists out st',
    DuplicateDetectionService.analyzeIssueSimilarity newIssue existingIssues st
    = (Ok out, st')
    /\ length out <= length existingIssues
    /\ Forall (fun r => exists c, c ∈ cs /\ copies c r) out.
Proof.
  intros Hcs. apply candidates_Forall2 in Hcs.
  destruct (batch_loop_candidates newIssue existingIssues cs Hcs
              (length existingIssues) 0 [] st)
    as (rs & st' & Hrun & Hall & _ & _); [lia | constructor |].
  unfold DuplicateDetectionService.analyzeIssueSimilarity, bind. rewrite Hrun.
  unfold ret. do 2 eexists. split; [reflexivity |]. split.
  - rewrite Array_sort_perm.
    etransitivity; [apply length_filter |].
    rewrite <- (Forall2_length _ _ _ Hall). rewrite (Forall2_length _ _ _ Hcs). lia.
  - rewrite Array_sort_perm. apply Forall_forall. intros r Hr.
    apply list_elem_of_filter in Hr as [_ Hr].
    apply list_elem_of_lookup in Hr as [i Hi].
    destruct (Forall2_lookup_r _ _ _ _ _ Hall Hi) as (c & Hc & Hcopy).
    exists c. split; [eapply list_elem_of_lookup_2, Hc | exact Hcopy].
Qed.

End FurtherScorer.

Lemma X11_pauses_between_batches_witness :
  let E := replying (VArr []) in
  let st := mkState (E := E) Script.start ∅ [] in
  exists out st',
    DuplicateDetectionService.analyzeIssueSimilarity (E := E)
      (mkNewIssue "Cannot log in" "") (map candidate seven_tickets) st
    = (Ok out, st')
    /\ trace st' = trace st
                   ++ replicate ((length (map candidate seven_tickets) - 1) / 5)
                        (EvSleep 500)
    /\ retryAttempts st' = retryAttempts st.
Proof.
  cbv zeta.
  apply (X11_pauses_between_batches (E := replying (VArr []))
           (mkNewIssue "Cannot log in" "") (map candidate seven_tickets) seven_tickets
           (mkState (E := replying (VArr [])) Script.start ∅ [])).
  reflexivity.
Defined.

Lemma X12_results_are_candidates_witness :
  let E := replying careless_reply in
  let existingIssues := [candidate login_bug; candidate logout_bug; candidate signup_bug] in
  exists out st',
    DuplicateDetectionService.analyzeIssueSimilarity (E := E)
      (mkNewIssue "Cannot log in" "") existingIssues (mkState (E := E) Script.start ∅ [])
    = (Ok out, st')
    /\ length out <= length existingIssues
    /\ Forall (fun r => exists c, c ∈ [login_bug; logout_bug; signup_bug] /\ copies c r) out.
Proof.
  cbv zeta.
  apply (X12_results_are_candidates (E := replying careless_reply)
           (mkNewIssue "Cannot log in" "")
           [candidate login_bug; candidate logout_bug; candidate signup_bug]
           [login_bug; logout_bug; signup_bug]
           (mkState (E := replying careless_reply) Script.start ∅ [])).
  reflexivity.
Defined.

Lemma descending_finite (a b : SimilarIssue) (qa qb : Q) :
  similarity a = Fin qa -> similarity b = Fin qb ->
  (descending a b <-> (qb <= qa)%Q).
Proof.
  intros Ha Hb. unfold descending. rewrite Ha, Hb. cbn.
  rewrite negb_involutive. apply Qle_bool_iff.
Qed.

Lemma insert_decision (x y : SimilarIssue) :
  finite x -> finite y ->
  if num_gt (by_similarity_descending x y) (Fin 0)
  then descending y x else descending x y.
Proof.
  intros [qx Hx] [qy Hy]. unfold by_similarity_descending. rewrite Hx, Hy. cbn.
  destruct (Qle_bool (qy - qx) 0) eqn:Hd; cbn.
  - apply Qle_bool_iff in Hd. apply (descending_finite x y qx qy Hx Hy). lra.
  - apply (descending_finite y x qy qx Hy Hx).
    destruct (Qlt_le_dec qy qx) as [Hlt|Hle]; [| exact Hle].
    assert (Qle_bool (qy - qx) 0 = true) by (apply Qle_bool_iff; lra). congruence.
Qed.

Lemma descending_trans (a b c : SimilarIssue) :
  finite a -> finite b -> finite c ->
  descending a b -> descending b c -> descending a c.
Proof.
  intros [qa Ha] [qb Hb] [qc Hc] Hab Hbc.
  apply (descending_finite a b qa qb Ha Hb) in Hab.
  apply (descending_finite b c qb qc Hb Hc) in Hbc.
  apply (descending_finite a c qa qc Ha Hc). lra.
Qed.

Lemma sort_insert_sorted (x : SimilarIssue) (s : list SimilarIssue) :
  finite x -> Forall finite s ->
  StronglySorted descending s ->
  StronglySorted descending (sort_insert by_similarity_descending x s).
Proof.
  intros Hx Hs Hsorted. induction Hsorted as [|y s Hsorted IH Hy]; cbn [sort_insert].
  - repeat constructor.
  - apply Forall_cons in Hs as [Hfy Hfs].
    pose proof (insert_decision x y Hx Hfy) as Hdec.
    destruct (num_gt (by_similarity_descending x y) (Fin 0)).
    + constructor; [apply IH, Hfs |].
      rewrite sort_insert_perm. constructor; assumption.
    + constructor; [constructor; assumption |].
      constructor; [exact Hdec |].
      rewrite Forall_forall in Hy, Hfs |- *. intros z Hz.
      apply (descending_trans x y z); auto.
Qed.

Lemma Array_sort_sorted (l : list SimilarIssue) :
  Forall finite l -> StronglySorted descending (Array_sort by_similarity_descending l).
Proof.
  induction 1 as [|x l Hx Hl IH]; [constructor |].
  unfold Array_sort. cbn [foldr]. fold (Array_sort by_similarity_descending l).
  apply sort_insert_sorted; [exact Hx | | exact IH].
  rewrite Array_sort_perm. exact Hl.
Qed.

Lemma StronglySorted_filter {A} (R : A -> A -> Prop) (P : A -> Prop)
    `{!forall x, Decision (P x)} (l : list A) :
  StronglySorted R l -> StronglySorted R (filter P l).
Proof.
  induction 1 as [|x l Hs IH Hx]; [constructor |].
  rewrite filter_cons. destruct (decide (P x)); [| exact IH].
  constructor; [exact IH |].
  rewrite Forall_forall in Hx |- *. intros y Hy.
  apply list_elem_of_filter in Hy as [_ Hy]. apply Hx, Hy.
Qed.

Lemma clamped_positive_finite (r : SimilarIssue) :
  clamped r -> positive r -> finite r.
Proof.
  intros Hc Hp. pose proof (positive_clamped r Hc Hp) as H.
  unfold finite. destruct (similarity r) as [| |q|]; try contradiction. eauto.
Qed.

(** What the scorer returns, whatever the candidates and the replies. *)
Lemma scorer_output {E : Env} (newIssue : NewIssue) (existingIssues : list jsval)
    (st st' : State E) (out : list SimilarIssue) :
  DuplicateDetectionService.analyzeIssueSimilarity newIssue existingIssues st
  = (Ok out, st') ->
  StronglySorted descending out
  /\ Forall (fun r => positive r /\ in_unit_interval (similarity r)) out.
Proof.
  unfold DuplicateDetectionService.analyzeIssueSimilarity. unfold bind at 1.
  destruct (DuplicateDetectionService.batch_loop newIssue existingIssues _ 0 [] st)
    as [[results|e] st1] eqn:Hloop; [| discriminate].
  intros H. injection H as <- _.
  apply batch_loop_clamped in Hloop; [| constructor].
  change (filter (fun result => num_gt (similarity result) (Fin 0) = true) results)
    with (filter positive results).
  change (fun a b : SimilarIssue => num_sub (similarity b) (similarity a))
    with by_similarity_descending.
  assert (Hall : Forall (fun r => positive r /\ clamped r) (filter positive results)).
  { apply Forall_forall. intros r Hr. apply list_elem_of_filter in Hr as [Hp Hr].
    rewrite Forall_forall in Hloop. auto. }
  split.
  - apply Array_sort_sorted. eapply Forall_impl; [exact Hall |].
    intros r [Hp Hc]. apply clamped_positive_finite; assumption.
  - rewrite Array_sort_perm. eapply Forall_impl; [exact Hall |].
    intros r [Hp Hc]. split; [exact Hp | apply positive_clamped; assumption].
Qed.

(** X13: the list that the scorer returns is sorted by descending
    similarity, and every similarity in it is strictly positive (a result
    scored 0, or scored with something that is no number, is left out). *)
Theorem X13_scorer_output_is_sorted {E : Env} (newIssue : NewIssue)
    (existingIssues : list jsval) (st st' : State E) (out : list SimilarIssue) :
  DuplicateDetectionService.analyzeIssueSimilarity newIssue existingIssues st
  = (Ok out, st') ->
  StronglySorted descending out /\ Forall positive out.
Proof.
  intros H. apply scorer_output in H as [Hs Hp]. split; [exact Hs |].
  eapply Forall_impl; [exact Hp |]. intros r [Hr _]. exact Hr.
Qed.

Lemma X13_scorer_output_is_sorted_witness :
  let E := replying (five_scores 0.3 0.9 0 0.7 0.9) in
  let run :=
    DuplicateDetectionService.analyzeIssueSimilarity (E := E)
      (mkNewIssue "Cannot log in" "") (map candidate (take 5 seven_tickets))
      (mkState (E := E) Script.start ∅ []) in
  let out := match fst run with Ok rs => rs | Throw _ => [] end in
  map similarity out = [Fin 0.9; Fin 0.9; Fin 0.7; Fin 0.3]
  /\ StronglySorted descending out /\ Forall positive out.
Proof.
  cbv zeta. split; [vm_compute; reflexivity |].
  apply (X13_scorer_output_is_sorted (E := replying (five_scores 0.3 0.9 0 0.7 0.9))
           (mkNewIssue "Cannot log in" "") (map candidate (take 5 seven_tickets))
           (mkState (E := replying (five_scores 0.3 0.9 0 0.7 0.9)) Script.start ∅ [])
           (snd (DuplicateDetectionService.analyzeIssueSimilarity
                   (E := replying (five_scores 0.3 0.9 0 0.7 0.9))
                   (mkNewIssue "Cannot log in" "") (map candidate (take 5 seven_tickets))
                   (mkState (E := replying (five_scores 0.3 0.9 0 0.7 0.9))
                      Script.start ∅ [])))).
  vm_compute. reflexivity.
Defined.





(* ===================================================================== *)
(** * Further properties of candidate search and of the orchestrator       *)
(* ===================================================================== *)

Lemma keywordsFallback_length {E : Env} (title description : string) :
  0 < length (DuplicateDetectionService.keywordsFallback (E := E) title description) <= 5.
Proof.
  unfold DuplicateDetectionService.keywordsFallback,
    DuplicateDetectionService.extractKeywordsFallback.
  cbv zeta. rewrite length_map.
  match goal with
  | |- context [take 5 ?l] =>
      assert (H : length (take 5 l) <= 5) by (rewrite length_take; lia);
      destruct (take 5 l)
  end; cbn [length] in *; lia.
Qed.

Section FurtherSearch.

Context {E : Env}.
Implicit Types (st : State E) (projectKey title description : string).

Lemma extractKeywords_run title description st :
  let call := openai_create E (KeywordRequest title description) (world st) in
  exists keywords,
    DuplicateDetectionService.extractKeywords title description st
    = (Ok keywords, mkState (snd call) (retryAttempts st) (trace st))
    /\ length keywords <= 5
    /\ match fst call with
       | Ok (Content (Some (VArr l))) => keywords = take 5 l
       | _ => keywords = DuplicateDetectionService.keywordsFallback (E := E) title description
              /\ keywords <> []
       end.
Proof.
  cbv zeta.
  pose proof (keywordsFallback_length (E := E) title description) as Hlen.
  assert (Hne : DuplicateDetectionService.keywordsFallback (E := E) title description <> [])
    by (intros H; rewrite H in Hlen; simpl in Hlen; lia).
  unfold DuplicateDetectionService.extractKeywords, try_catch, bind, call_world, ret, throw.
  destruct (openai_create E _ (world st)) as [[[|[[| | | | |l|]|]]|e] w]; cbn [fst snd];
    eexists; (split; [reflexivity |]); (split; [| auto]); try lia.
  rewrite length_take. lia.
Qed.

(** X15: [extractKeywords] never throws and returns at most five keywords;
    they are the first five elements of the service's reply when that reply
    is a JSON array, and the keywords of the local fallback (of which there
    is at least one) in every other case: a failed call, an empty reply, a
    reply that does not parse, a reply that is no array.  It shows no prompt
    and leaves the retry map alone. *)
Theorem X15_keywords_never_fail title description st :
  let call := openai_create E (KeywordRequest title description) (world st) in
  exists keywords,
    DuplicateDetectionService.extractKeywords title description st
    = (Ok keywords, mkState (snd call) (retryAttempts st) (trace st))
    /\ length keywords <= 5
    /\ match fst call with
       | Ok (Content (Some (VArr l))) => keywords = take 5 l
       | _ => keywords = DuplicateDetectionService.keywordsFallback (E := E) title description
              /\ keywords <> []
       end.
Proof. apply extractKeywords_run. Qed.

Lemma fallbackSearch_frame projectKey title st :
  exists found w,
    DuplicateDetectionService.fallbackSearch projectKey title st
    = (Ok found, mkState w (retryAttempts st) (trace st)).
Proof.
  unfold DuplicateDetectionService.fallbackSearch, try_catch, bind, call_world, ret, lift.
  destruct (fetch E _ (world st)) as [[[[] [data|e']]|e] w]; cbn [ok json]; eauto.
Qed.

Lemma searchSimilarIssues_frame projectKey title description st :
  exists found w,
    DuplicateDetectionService.searchSimilarIssues projectKey title description st
    = (Ok found, mkState w (retryAttempts st) (trace st)).
Proof.
  unfold DuplicateDetectionService.searchSimilarIssues, try_catch.
  unfold bind at 1.
  destruct (extractKeywords_run title description st) as (keywords & -> & _).
  unfold bind at 1. unfold lift at 1.
  destruct (Array_map DuplicateDetectionService.interpolate keywords) as [us|e];
    [| apply (fallbackSearch_frame projectKey title
                (mkState _ (retryAttempts st) (trace st)))].
  unfold bind at 1. unfold call_world. cbn [world retryAttempts trace].
  destruct (fetch E _ _) as [[[[] [data|e']]|e] w]; cbn [ok json negb].
  - unfold bind, lift, ret. eauto.
  - unfold bind, lift.
    apply (fallbackSearch_frame projectKey title (mkState w (retryAttempts st) (trace st))).
  - destruct (fallbackSearch_frame projectKey title
                (mkState w (retryAttempts st) (trace st))) as (found & w' & Hf).
    cbn [retryAttempts trace] in *. rewrite Hf. eauto.
  - destruct (fallbackSearch_frame projectKey title
                (mkState w (retryAttempts st) (trace st))) as (found & w' & Hf).
    cbn [retryAttempts trace] in *. rewrite Hf. eauto.
  - apply (fallbackSearch_frame projectKey title (mkState w (retryAttempts st) (trace st))).
Qed.

(** X16: candidate search never throws, shows no prompt and leaves the retry
    map alone; when the gateway fails on every request it finds nothing. *)
Theorem X16_search_never_fails projectKey title description st :
  exists found w,
    DuplicateDetectionService.searchSimilarIssues projectKey title description st
    = (Ok found, mkState w (retryAttempts st) (trace st))
    /\ (gateway_down E -> found = []).
Proof.
  destruct (searchSimilarIssues_frame projectKey title description st)
    as (found & w & Hrun).
  exists found, w. split; [exact Hrun |]. intros Hdown.
  destruct (searchSimilarIssues_down projectKey title description st Hdown) as [st' H].
  rewrite Hrun in H. injection H as -> _. reflexivity.
Qed.

(** X17: when candidate search finds nothing, [checkForDuplicates] returns
    the verdict that it is safe to proceed in the state the search left: the
    scorer is not run, so no similarity request is made and nothing is
    waited for. *)
Theorem X17_empty_search_short_circuits projectKey title description st st1 :
  DuplicateDetectionService.searchSimilarIssues projectKey title description st
  = (Ok [], st1) ->
  DuplicateDetectionService.checkForDuplicates projectKey title description st
  = (Ok nothing_found, st1).
Proof.
  intros Hsearch.
  unfold DuplicateDetectionService.checkForDuplicates, try_catch,
    DuplicateDetectionService.checkForDuplicates_try.
  unfold bind at 1. rewrite Hsearch. reflexivity.
Qed.

(** What every analysis of [checkForDuplicates] satisfies. *)
Lemma checkForDuplicates_analysis projectKey title description st :
  exists analysis st',
    DuplicateDetectionService.checkForDuplicates projectKey title description st
    = (Ok analysis, st')
    /\ StronglySorted descending (similarIssues analysis)
    /\ Forall (fun r => significant r /\ in_unit_interval (similarity r))
         (similarIssues analysis)
    /\ (hasPotentialDuplicates analysis = true <-> similarIssues analysis <> []).
Proof.
  unfold DuplicateDetectionService.checkForDuplicates, try_catch.
  destruct (DuplicateDetectionService.checkForDuplicates_try projectKey title description st)
    as [[analysis|e] st1] eqn:Htry.
  - exists analysis, st1. split; [reflexivity |].
    unfold DuplicateDetectionService.checkForDuplicates_try in Htry.
    unfold bind at 1 in Htry.
    destruct (DuplicateDetectionService.searchSimilarIssues projectKey title description st)
      as [[found|e] st2]; [| discriminate Htry].
    destruct (length found =? 0)%nat.
    + injection Htry as <- _. cbn. repeat split; try constructor; congruence.
    + unfold bind in Htry.
      destruct (DuplicateDetectionService.analyzeIssueSimilarity _ found st2)
        as [[results|e] st3] eqn:Hscore; [| discriminate Htry].
      injection Htry as <- _. cbn [similarIssues hasPotentialDuplicates].
      apply scorer_output in Hscore as [Hsorted Hall].
      repeat match goal with
             | |- context [filter ?P results] =>
                 lazymatch P with
                 | significant => fail
                 | _ => change (filter P results) with (filter significant results)
                 end
             end.
      assert (Hs : StronglySorted descending (filter significant results))
        by apply StronglySorted_filter, Hsorted.
      assert (Ha : Forall (fun r => significant r /\ in_unit_interval (similarity r))
                     (filter significant results)).
      { apply Forall_forall. intros r Hr. apply list_elem_of_filter in Hr as [Hsig Hr].
        rewrite Forall_forall in Hall. split; [exact Hsig | apply Hall, Hr]. }
      revert Hs Ha. generalize (filter significant results) as sig. intros sig Hs Ha.
      split; [exact Hs |]. split; [exact Ha |].
      destruct sig as [|r rs]; split; intros H; try discriminate H; try reflexivity;
        try discriminate. contradiction.
  - unfold bind.
    destruct (handleError_total e (Some "duplicate-detection") st1) as (b & st2 & ->).
    do 2 eexists. split; [reflexivity |]. cbn.
    repeat split; try constructor; congruence.
Qed.

(** X18: whatever the inputs and the collaborators do, the analysis that
    [checkForDuplicates] returns lists its similar issues by descending
    similarity, each with a similarity above 0.6 and at most 1, and reports
    potential duplicates exactly when that list is not empty. *)
Theorem X18_analysis_invariants projectKey title description st :
  exists analysis st',
    DuplicateDetectionService.checkForDuplicates projectKey title description st
    = (Ok analysis, st')
    /\ StronglySorted descending (similarIssues analysis)
    /\ Forall (fun r => significant r /\ in_unit_interval (similarity r))
         (similarIssues analysis)
    /\ (hasPotentialDuplicates analysis = true <-> similarIssues analysis <> []).
Proof. apply checkForDuplicates_analysis. Qed.

End FurtherSearch.

Lemma X17_empty_search_short_circuits_witness :
  let E := Script.offline "n" in
  let st := mkState (E := E) Script.start ∅ [] in
  DuplicateDetectionService.checkForDuplicates (E := E) "WEB" "Cannot log in" "" st
  = (Ok nothing_found, mkState (E := E) (Script.mkCounters 1 2 0 0) ∅ []).
Proof.
  cbv zeta.
  apply (X17_empty_search_short_circuits (E := Script.offline "n")
           "WEB" "Cannot log in" ""
           (mkState (E := Script.offline "n") Script.start ∅ [])
           (mkState (E := Script.offline "n") (Script.mkCounters 1 2 0 0) ∅ [])).
  vm_compute. reflexivity.
Defined.

(* ===================================================================== *)
(** * Properties of the presentation and of the flow that uses it          *)
(* ===================================================================== *)

(** An answer of white space only does not start with a y. *)
Lemma characters_first (c : ascii) (cs : list ascii) :
  exists rest more, characters (c :: cs) = (c :: rest) :: more.
Proof.
  cbn [characters]. destruct (characters cs) as [|[|d ds] more];
    try (eexists _, _; reflexivity).
  destruct (is_continuation d); eexists _, _; reflexivity.
Qed.

Lemma blank_does_not_confirm (response : string) :
  CLIUtils.is_blank response = true -> confirms response = false.
Proof.
  unfold CLIUtils.is_blank, confirms. destruct response as [|c s]; [reflexivity |].
  cbn [list_ascii_of_string]. intros H.
  destruct (characters_first c (list_ascii_of_string s)) as (rest & more & Hfirst).
  rewrite Hfirst in H. cbn [forallb] in H. apply andb_prop in H as [Hc _].
  unfold is_white_space in Hc. apply bool_decide_eq_true in Hc.
  cbn [toLowerCase startsWith String.prefix].
  rewrite <- (ascii_N_embedding c).
  unfold white_space_characters in Hc. cbn [map] in Hc.
  repeat (apply elem_of_cons in Hc as [Hc|Hc];
          [injection Hc as -> _; reflexivity |]).
  apply elem_of_nil in Hc. contradiction.
Qed.

Section FurtherPresentation.

Context {E : Env}.
Variable singleLineMenu : list string -> World E -> nat * World E.

Lemma confirm_run (message : string) (st : State E) :
  CLIUtils.confirm message false st
  = (Ok (confirms (fst (inputField E (world st)))),
     mkState (snd (inputField E (world st))) (retryAttempts st) (trace st)).
Proof.
  unfold CLIUtils.confirm, bind, with_world.
  destruct (inputField E (world st)) as [response w]. cbn [fst snd].
  destruct (CLIUtils.is_blank response) eqn:Hb; [| reflexivity].
  rewrite (blank_does_not_confirm _ Hb). reflexivity.
Qed.

(** X19: [confirm] with the default answer no reads one line and returns
    true exactly when that line, lower-cased, starts with a y: an empty or
    blank line, and a line with white space before the y, are a no. *)
Theorem X19_confirm_defaults_to_no (message : string) (st : State E) :
  CLIUtils.confirm message false st
  = (Ok (confirms (fst (inputField E (world st)))),
     mkState (snd (inputField E (world st))) (retryAttempts st) (trace st)).
Proof. apply confirm_run. Qed.

Lemma showSelectionMenu_options (st : State E) :
  CLIUtils.showSelectionMenu singleLineMenu "Choose an action:" Presentation.options st
  = (Ok (fst (singleLineMenu menu_items (world st))),
     mkState (snd (singleLineMenu menu_items (world st))) (retryAttempts st) (trace st)).
Proof.
  unfold CLIUtils.showSelectionMenu, with_world. cbv zeta.
  change (imap _ Presentation.options) with menu_items.
  destruct (singleLineMenu menu_items (world st)). reflexivity.
Qed.

Lemma display_presentable (l : list SimilarIssue) :
  Forall presentable l -> exists us, Array_map Presentation.display_issue l = Ok us.
Proof.
  induction 1 as [|r l [Hr _] _ [us IH]]; [eexists; reflexivity |].
  cbn [Array_map]. rewrite Hr, IH. eexists. reflexivity.
Qed.

Lemma display_untitled (l : list SimilarIssue) :
  Exists untitled l -> exists e, Array_map Presentation.display_issue l = Throw e.
Proof.
  induction l as [|r l IH]; intros H; [inversion H |].
  cbn [Array_map].
  destruct (Presentation.display_issue r) as [[]|e] eqn:Hr; [| eexists; reflexivity].
  cbn [obind]. inversion H as [? ? Hu|? ? Hl]; subst.
  - exfalso. unfold Presentation.display_issue in Hr.
    destruct (DuplicateDetectionService.interpolate (key r)); [| discriminate Hr].
    cbn [obind] in Hr. unfold Presentation.substring_of in Hr.
    destruct (summary r) eqn:Hs; try discriminate Hr. eapply Hu, Hs.
  - destruct (IH Hl) as [e ->]. eexists. reflexivity.
Qed.

Lemma showDetailedIssueReview_run (l : list SimilarIssue) (st : State E) :
  Forall presentable l ->
  Presentation.showDetailedIssueReview l st
  = (Ok tt, mkState (enters (length l - 1) (world st)) (retryAttempts st) (trace st)).
Proof.
  intros H. revert st. induction H as [|r l [_ Hr] Hl IH]; intros st.
  - destruct st; reflexivity.
  - cbn [Presentation.showDetailedIssueReview]. unfold bind at 1. unfold lift. rewrite Hr.
    destruct l as [|r' l'].
    + destruct st; reflexivity.
    + unfold bind at 1. unfold bind at 1. unfold with_world at 1.
      destruct (inputField E (world st)) as [response w] eqn:Hin.
      unfold ret at 1. rewrite IH. cbn [length Nat.sub world retryAttempts trace].
      rewrite ?Nat.sub_0_r. unfold enters. rewrite Nat.iter_succ_r. rewrite Hin. reflexivity.
Qed.

(** X20: when the analysis of [checkForDuplicates] lists no similar issue,
    the presentation that follows it in the issue-creation flow answers
    that the creation may go on, without showing the menu or reading any
    input. *)
Theorem X20_nothing_similar_proceeds projectKey title description st analysis st1 :
  DuplicateDetectionService.checkForDuplicates projectKey title description st
  = (Ok analysis, st1) ->
  similarIssues analysis = [] ->
  Presentation.shouldProceed singleLineMenu projectKey title description st
  = (Ok true, st1).
Proof.
  intros Hrun Hnone.
  destruct (checkForDuplicates_analysis projectKey title description st)
    as (a & st' & Hrun' & _ & _ & Hiff).
  rewrite Hrun in Hrun'. injection Hrun' as <- <-.
  unfold Presentation.shouldProceed, bind. rewrite Hrun.
  unfold Presentation.displayAnalysisResults.
  destruct (hasPotentialDuplicates analysis).
  - exfalso. apply Hiff; [reflexivity | exact Hnone].
  - reflexivity.
Qed.

(** X21: when the duplicate check itself fails, the error handler is run
    for the context duplicate-detection, its answer, whether the user
    wants a retry, is ignored, and the presentation that follows answers
    that the creation may go on, without showing the menu. *)
Theorem X21_failed_check_proceeds projectKey title description st e st1 :
  DuplicateDetectionService.checkForDuplicates_try projectKey title description st
  = (Throw e, st1) ->
  exists retry st2,
    ErrorHandler.handleError e (Some "duplicate-detection") st1 = (Ok retry, st2)
    /\ Presentation.shouldProceed singleLineMenu projectKey title description st
       = (Ok true, st2).
Proof.
  intros Htry.
  destruct (handleError_total e (Some "duplicate-detection") st1) as (b & st2 & Hh).
  exists b, st2. split; [exact Hh |].
  unfold Presentation.shouldProceed, DuplicateDetectionService.checkForDuplicates.
  unfold bind at 1. unfold try_catch. rewrite Htry. unfold bind at 1. rewrite Hh.
  reflexivity.
Qed.

(** X22: with potential duplicates that can be written, every menu choice
    but the review decides at once and reads no input: the first item goes
    on with the creation, every other item, and any index beyond the four
    items, cancels it. *)
Theorem X22_menu_decides analysis st (choice : nat) :
  hasPotentialDuplicates analysis = true ->
  Forall presentable (similarIssues analysis) ->
  fst (singleLineMenu menu_items (world st)) = choice ->
  choice <> 1 ->
  Presentation.displayAnalysisResults singleLineMenu analysis st
  = (Ok (choice =? 0)%nat,
     mkState (snd (singleLineMenu menu_items (world st))) (retryAttempts st) (trace st)).
Proof.
  intros Hdup Hall Hchoice Hnot.
  unfold Presentation.displayAnalysisResults. rewrite Hdup. cbn [negb].
  destruct (display_presentable _ Hall) as [us Hus].
  unfold bind at 1. unfold lift. rewrite Hus.
  unfold bind at 1. rewrite showSelectionMenu_options, Hchoice.
  destruct choice as [|[|[|[|n]]]]; try reflexivity. contradiction.
Qed.

(** X23: with potential duplicates that can be written, the review shows
    each similar issue, waits for Enter after each but the last, and then
    asks for confirmation with the default no: the creation goes on exactly
    when the line read after those [length - 1] lines starts with a y. *)
Theorem X23_review_then_confirm analysis st :
  hasPotentialDuplicates analysis = true ->
  Forall presentable (similarIssues analysis) ->
  fst (singleLineMenu menu_items (world st)) = 1 ->
  let reviewed :=
    enters (length (similarIssues analysis) - 1)
      (snd (singleLineMenu menu_items (world st))) in
  Presentation.displayAnalysisResults singleLineMenu analysis st
  = (Ok (confirms (fst (inputField E reviewed))),
     mkState (snd (inputField E reviewed)) (retryAttempts st) (trace st)).
Proof.
  intros Hdup Hall Hchoice reviewed.
  unfold Presentation.displayAnalysisResults. rewrite Hdup. cbn [negb].
  destruct (display_presentable _ Hall) as [us Hus].
  unfold bind at 1. unfold lift. rewrite Hus.
  unfold bind at 1. rewrite showSelectionMenu_options, Hchoice.
  unfold bind at 1. rewrite (showDetailedIssueReview_run _ _ Hall).
  rewrite confirm_run. reflexivity.
Qed.

(** X24: when the analysis of [checkForDuplicates] lists a similar issue
    whose summary is no string (the record of the tracker had none), the
    presentation that follows it throws while it writes the issues, before
    the menu is shown: no choice is asked for and none is returned. *)
Theorem X24_untitled_match_throws projectKey title description st analysis st1 :
  DuplicateDetectionService.checkForDuplicates projectKey title description st
  = (Ok analysis, st1) ->
  Exists untitled (similarIssues analysis) ->
  exists e,
    Presentation.shouldProceed singleLineMenu projectKey title description st
    = (Throw e, st1).
Proof.
  intros Hrun Hsome.
  destruct (checkForDuplicates_analysis projectKey title description st)
    as (a & st' & Hrun' & _ & _ & Hiff).
  rewrite Hrun in Hrun'. injection Hrun' as <- <-.
  unfold Presentation.shouldProceed, bind at 1. rewrite Hrun.
  unfold Presentation.displayAnalysisResults.
  replace (hasPotentialDuplicates analysis) with true.
  2:{ symmetry. apply Hiff. intros Hnil. rewrite Hnil in Hsome. inversion Hsome. }
  cbn [negb]. destruct (display_untitled _ Hsome) as [e He].
  exists e. unfold bind at 1. unfold lift. rewrite He. reflexivity.
Qed.

End FurtherPresentation.

Lemma X20_nothing_similar_proceeds_witness :
  let E := Script.offline "n" in
  let st := mkState (E := E) Script.start ∅ [] in
  Presentation.shouldProceed (E := E) (selecting 1) "WEB" "Cannot log in" "" st
  = (Ok true, mkState (E := E) (Script.mkCounters 1 2 0 0) ∅ []).
Proof.
  cbv zeta.
  apply (X20_nothing_similar_proceeds (E := Script.offline "n") (selecting 1)
           "WEB" "Cannot log in" ""
           (mkState (E := Script.offline "n") Script.start ∅ [])
           nothing_found
           (mkState (E := Script.offline "n") (Script.mkCounters 1 2 0 0) ∅ [])).
  - vm_compute. reflexivity.
  - reflexivity.
Defined.

Lemma X21_failed_check_proceeds_witness :
  let E := tracker [VNull] (VArr []) in
  let st := mkState (E := E) Script.start ∅ [] in
  exists retry st2,
    ErrorHandler.handleError (E := E)
      (match fst (DuplicateDetectionService.checkForDuplicates_try (E := E)
                    "WEB" "Cannot log in" "" st) with
       | Throw e => e
       | Ok _ => PlainError "no error"
       end)
      (Some "duplicate-detection")
      (snd (DuplicateDetectionService.checkForDuplicates_try (E := E)
              "WEB" "Cannot log in" "" st))
    = (Ok retry, st2)
    /\ Presentation.shouldProceed (E := E) (selecting 2) "WEB" "Cannot log in" "" st
       = (Ok true, st2).
Proof.
  cbv zeta.
  apply (X21_failed_check_proceeds (E := tracker [VNull] (VArr [])) (selecting 2)
           "WEB" "Cannot log in" ""
           (mkState (E := tracker [VNull] (VArr [])) Script.start ∅ [])).
  vm_compute. reflexivity.
Defined.

Lemma X22_menu_decides_witness :
  let E := Script.offline "yes" in
  let st := mkState (E := E) Script.start ∅ [] in
  Presentation.displayAnalysisResults (E := E) (selecting 3) two_duplicates st
  = (Ok (3 =? 0)%nat,
     mkState (E := E) (snd (selecting 3 menu_items (world st)))
       (retryAttempts st) (trace st)).
Proof.
  cbv zeta.
  apply (X22_menu_decides (E := Script.offline "yes") (selecting 3) two_duplicates
           (mkState (E := Script.offline "yes") Script.start ∅ []) 3).
  - reflexivity.
  - repeat constructor.
  - reflexivity.
  - discriminate.
Defined.

Lemma X23_review_then_confirm_witness :
  let E := Script.offline "Yes, go on" in
  let st := mkState (E := E) Script.start ∅ [] in
  Presentation.displayAnalysisResults (E := E) (selecting 1) two_duplicates st
  = (Ok true, mkState (E := E) (Script.mkCounters 0 0 2 0) ∅ []).
Proof.
  cbv zeta.
  apply (X23_review_then_confirm (E := Script.offline "Yes, go on") (selecting 1)
           two_duplicates
           (mkState (E := Script.offline "Yes, go on") Script.start ∅ [])).
  - reflexivity.
  - repeat constructor.
  - reflexivity.
Defined.

Lemma X24_untitled_match_throws_witness :
  let E := tracker [record_without_summary] (VArr [entry 1 0.9 "same failure"]) in
  let st := mkState (E := E) Script.start ∅ [] in
  let check :=
    DuplicateDetectionService.checkForDuplicates (E := E) "WEB" "Cannot log in" "" st in
  map summary (similarIssues (match fst check with
                              | Ok analysis => analysis
                              | Throw _ => nothing_found
                              end)) = [VUndef]
  /\ exists e,
       Presentation.shouldProceed (E := E) (selecting 0) "WEB" "Cannot log in" "" st
       = (Throw e, snd check).
Proof.
  cbv zeta. split; [vm_compute; reflexivity |].
  apply (X24_untitled_match_throws
           (E := tracker [record_without_summary] (VArr [entry 1 0.9 "same failure"]))
           (selecting 0) "WEB" "Cannot log in" ""
           (mkState (E := tracker [record_without_summary]
                             (VArr [entry 1 0.9 "same failure"])) Script.start ∅ [])
           (match fst (DuplicateDetectionService.checkForDuplicates
                         (E := tracker [record_without_summary]
                                 (VArr [entry 1 0.9 "same failure"]))
                         "WEB" "Cannot log in" ""
                         (mkState (E := tracker [record_without_summary]
                                           (VArr [entry 1 0.9 "same failure"]))
                            Script.start ∅ [])) with
            | Ok analysis => analysis
            | Throw _ => nothing_found
            end)).
  - vm_compute. reflexivity.
  - vm_compute. apply Exists_cons_hd. intros s H. discriminate H.
Defined.
